(** * The EBYTE E32 LoRa driver (loraE32.py): a shallow embedding

    The driver class [ebyteE32] is embedded as functions over an explicit
    driver state.  Python values that change type at run time are values of
    [pyval]; Python exceptions are an outcome of every computation, and a
    state change made before an exception is raised survives it, as in
    Python. *)

From Stdlib Require Import ZArith NArith List String Ascii Bool Lia.
From Stdlib Require Import Init.Byte.
From Stdlib Require Import Sorting.Permutation.
Import ListNotations.
Open Scope string_scope.
Open Scope Z_scope.

Set Warnings "-register-all".

(** ** Python values *)

(** The text of a payload: a Python [str] as a sequence of Unicode code
    points, the values [ord] returns.  Strings built by the driver itself
    (table entries, bit strings, formatted numbers) only hold characters
    below 256 and are Rocq strings. *)
Definition text := list N.

Inductive pyval : Type :=
| PNone
| PBool (b : bool)
| PInt (z : Z)
| PStr (s : string)
| PBytes (b : list byte)
| PList (l : list pyval)
| PDict (d : list (string * pyval)).

Inductive exn : Type := TypeError | ValueError | AttributeError | IndexError.

(** The value of a Python expression: a value or a raised exception. *)
Inductive result (A : Type) : Type :=
| Ok (a : A)
| Err (e : exn).
Arguments Ok {A} a.
Arguments Err {A} e.

(** The way a Python block ends: with a value, with a raised exception,
    or, in the model only, cut off in a loop for lack of fuel. *)
Inductive outcome (A : Type) : Type :=
| Ret (a : A)
| Raise (e : exn)
| OutOfFuel.
Arguments Ret {A} a.
Arguments Raise {A} e.
Arguments OutOfFuel {A}.

(** ** Characters, digits and number formatting *)

Definition TAB : string := String "009"%char EmptyString.

Definition byte_val (b : byte) : Z := Z.of_N (Byte.to_N b).

Definition digit_char (upper : bool) (d : N) : ascii :=
  if (d <? 10)%N then ascii_of_N (48 + d)
  else ascii_of_N ((if upper then 55 else 87) + d).

Fixpoint digits_loop (fuel : nat) (base : N) (upper : bool) (n : N) (acc : string) : string :=
  match fuel with
  | O => acc
  | S fuel' =>
      let acc' := String (digit_char upper (n mod base)) acc in
      if (n / base =? 0)%N then acc' else digits_loop fuel' base upper (n / base) acc'
  end.

(** The digits of [n] in [base], most significant first; ["0"] for zero. *)
Definition digits (base : N) (upper : bool) (n : N) : string :=
  digits_loop (S (N.to_nat (N.log2 n))) base upper n "".

Fixpoint repeat_char (c : ascii) (n : nat) : string :=
  match n with
  | O => ""
  | S n' => String c (repeat_char c n')
  end.

Definition pad_left (c : ascii) (width : nat) (s : string) : string :=
  repeat_char c (width - String.length s) ++ s.

(** A number with a sign and zero fill up to [width], as the format
    codes [0<width>b], [0<width>x] print it. *)
Definition zero_filled (base : N) (upper : bool) (width : nat) (z : Z) : string :=
  if z <? 0 then "-" ++ pad_left "0" (width - 1) (digits base upper (Z.abs_N z))
  else pad_left "0" width (digits base upper (Z.abs_N z)).

Definition signed (base : N) (upper : bool) (z : Z) : string :=
  zero_filled base upper 0 z.

(** [str(z)] and ['%d' % z] *)
Definition py_str_int (z : Z) : string := signed 10 false z.

(** [hex(z)] *)
Definition py_hex (z : Z) : string :=
  if z <? 0 then "-0x" ++ digits 16 false (Z.abs_N z) else "0x" ++ digits 16 false (Z.abs_N z).

(** ['{0:0<width>b}'.format(z)] *)
Definition format_b (width : nat) (z : Z) : string := zero_filled 2 false width z.

(** ['%0<width>x' % z] *)
Definition format_x (width : nat) (z : Z) : string := zero_filled 16 false width z.

(** ['%2X' % z] *)
Definition format_2X (z : Z) : string := pad_left " " 2 (signed 16 true z).

(** [s[a:b]] and [s[a:]] for indices that are not negative *)
Definition slice (a b : nat) (s : string) : string := substring a (b - a) s.
Definition slice_from (a : nat) (s : string) : string := substring a (String.length s - a) s.

(** [s.split(sep)[0]] *)
Fixpoint split_head (sep : ascii) (s : string) : string :=
  match s with
  | EmptyString => EmptyString
  | String c s' => if Ascii.eqb c sep then EmptyString else String c (split_head sep s')
  end.

(** ** [int(s)] and [int(s, base)]

    [int] gives a string to the integer parser of the runtime: white
    space is skipped on both sides, a sign is read, then digits of the
    base.  A prefix [0x], [0o] or [0b] is only accepted when the base asks
    for it (base 16, 8, 2, or base 0, which lets the prefix choose).
    [int(s)] parses in base 10, so that a text with a prefix, such as the
    ['0b...'] strings [encodeConfig] builds, is not a number:
    [ValueError]. *)

Definition is_space (c : ascii) : bool :=
  let n := N_of_ascii c in ((n =? 32) || ((9 <=? n) && (n <=? 13)))%N.

Fixpoint skip_spaces (s : string) : string :=
  match s with
  | String c s' => if is_space c then skip_spaces s' else s
  | EmptyString => s
  end.

Definition digit_value (c : ascii) : option N :=
  let n := N_of_ascii c in
  if ((48 <=? n) && (n <=? 57))%N then Some (n - 48)%N
  else if ((97 <=? n) && (n <=? 122))%N then Some (n - 87)%N
  else if ((65 <=? n) && (n <=? 90))%N then Some (n - 55)%N
  else None.

Definition lower_is (c : ascii) (x : ascii) : bool :=
  (N.lor (N_of_ascii c) 32 =? N_of_ascii x)%N.

Definition parse_base (base : N) (s : string) : N * string :=
  match s with
  | String "0" (String c rest) =>
      if ((base =? 0) || (base =? 16))%N then
        if lower_is c "x" then (16%N, rest)
        else if ((base =? 0)%N && lower_is c "o") then (8%N, rest)
        else if ((base =? 0)%N && lower_is c "b") then (2%N, rest)
        else ((if (base =? 0)%N then 10%N else base), s)
      else if (base =? 8)%N then (if lower_is c "o" then (base, rest) else (base, s))
      else if (base =? 2)%N then (if lower_is c "b" then (base, rest) else (base, s))
      else (base, s)
  | _ => ((if (base =? 0)%N then 10%N else base), s)
  end.

Definition is_digit (base : N) (c : ascii) : bool :=
  match digit_value c with
  | Some d => (d <? base)%N
  | None => false
  end.

(** The digits of a number; one underscore may stand between two
    digits. *)
Fixpoint parse_digits (base : N) (s : string) (acc : N) (seen : bool) : N * bool * string :=
  match s with
  | String c s' =>
      match digit_value c with
      | Some d => if (d <? base)%N then parse_digits base s' (acc * base + d)%N true
                  else (acc, seen, s)
      | None =>
          match s' with
          | String c' _ =>
              if Ascii.eqb c "_" && seen && is_digit base c'
              then parse_digits base s' acc seen
              else (acc, seen, s)
          | EmptyString => (acc, seen, s)
          end
      end
  | EmptyString => (acc, seen, s)
  end.

Definition parse_int (s : string) (base : N) : result Z :=
  let s1 := skip_spaces s in
  let '(neg, s2) :=
    match s1 with
    | String "+" r => (false, r)
    | String "-" r => (true, r)
    | _ => (false, s1)
    end in
  let '(base', s3) := parse_base base s2 in
  let '(n, seen, s4) := parse_digits base' s3 0%N false in
  if seen then
    match skip_spaces s4 with
    | EmptyString => Ok (if neg then - Z.of_N n else Z.of_N n)
    | _ => Err ValueError
    end
  else Err ValueError.

(** [int(s)] *)
Definition py_int (s : string) : result Z := parse_int s 10.
(** [int(s, 16)] *)
Definition py_int16 (s : string) : result Z := parse_int s 16.

(** ** Computations over a state

    [M S A] is a Python block running over a state [S]: it ends with a
    value, or raises, and in both cases hands back the state it reached. *)

Definition M (S A : Type) : Type := S -> outcome A * S.

Definition ret {S A} (a : A) : M S A := fun s => (Ret a, s).

Definition bind {S A B} (c : M S A) (k : A -> M S B) : M S B :=
  fun s =>
    match c s with
    | (Ret a, s') => k a s'
    | (Raise e, s') => (Raise e, s')
    | (OutOfFuel, s') => (OutOfFuel, s')
    end.

Definition raise {S A} (e : exn) : M S A := fun s => (Raise e, s).

(** An expression evaluated inside a block. *)
Definition lift {S A} (o : result A) : M S A :=
  fun s => match o with
           | Ok a => (Ret a, s)
           | Err e => (Raise e, s)
           end.

Definition get {S} : M S S := fun s => (Ret s, s).
Definition modify {S} (f : S -> S) : M S unit := fun s => (Ret tt, f s).

(** [try: c  except Exception as E: h E] *)
Definition try_except {S A} (c : M S A) (h : exn -> M S A) : M S A :=
  fun s =>
    match c s with
    | (Raise e, s') => h e s'
    | r => r
    end.

(** [if b: c] with no [else] *)
Definition when {S} (b : bool) (c : M S unit) : M S unit :=
  if b then c else ret tt.

Declare Scope py_scope.
Delimit Scope py_scope with py.
Notation "x <- c1 ;; c2" := (bind c1 (fun x => c2))
  (at level 61, c1 at next level, right associativity) : py_scope.
Notation "c1 ;; c2" := (bind c1 (fun _ => c2))
  (at level 61, right associativity) : py_scope.
Open Scope py_scope.

(** The same for expressions outside any state. *)
Definition obind {A B} (o : result A) (k : A -> result B) : result B :=
  match o with
  | Ok a => k a
  | Err e => Err e
  end.

(** ** Operations on Python values *)

(** [len(v)] *)
Definition py_len (v : pyval) : result Z :=
  match v with
  | PStr s => Ok (Z.of_nat (String.length s))
  | PBytes b => Ok (Z.of_nat (List.length b))
  | PList l => Ok (Z.of_nat (List.length l))
  | PDict d => Ok (Z.of_nat (List.length d))
  | _ => Err TypeError
  end.

(** [v[i]] for an index that is not negative *)
Definition py_index (v : pyval) (i : nat) : result pyval :=
  match v with
  | PBytes b => match nth_error b i with
                | Some x => Ok (PInt (byte_val x))
                | None => Err IndexError
                end
  | PList l => match nth_error l i with
               | Some x => Ok x
               | None => Err IndexError
               end
  | PStr s => match String.get i s with
              | Some c => Ok (PStr (String c EmptyString))
              | None => Err IndexError
              end
  | _ => Err TypeError
  end.

(** [int(v)]: a number as it is, a text or bytes parsed. *)
Definition py_int_of (v : pyval) : result Z :=
  match v with
  | PInt z => Ok z
  | PBool b => Ok (if b then 1 else 0)
  | PStr s => py_int s
  | PBytes b => py_int (string_of_list_byte b)
  | _ => Err TypeError
  end.

(** A value used where an integer is required ([hex], [%d], [%x], a
    [b] format, an element of [bytes(...)]). *)
Definition as_index (v : pyval) : result Z :=
  match v with
  | PInt z => Ok z
  | PBool b => Ok (if b then 1 else 0)
  | _ => Err TypeError
  end.

(** [str(v)] for the values the driver prints with [%s] *)
Definition py_str (v : pyval) : string :=
  match v with
  | PNone => "None"
  | PBool b => if b then "True" else "False"
  | PInt z => py_str_int z
  | PStr s => s
  | _ => "<object>"
  end.

Definition to_byte (v : pyval) : result byte :=
  match as_index v with
  | Ok z => if (0 <=? z) && (z <? 256) then
               match Byte.of_N (Z.to_N z) with
               | Some b => Ok b
               | None => Err ValueError
               end
             else Err ValueError
  | Err e => Err e
  end.

(** [bytes(l)] for a list [l] *)
Fixpoint py_bytes (l : list pyval) : result (list byte) :=
  match l with
  | [] => Ok []
  | v :: l' => obind (to_byte v) (fun b => obind (py_bytes l') (fun bs => Ok (b :: bs)))
  end.

(** [a == b] between the values a channel can be compared with *)
Definition py_eq_int (v : pyval) (z : Z) : bool :=
  match v with
  | PInt x => x =? z
  | PBool b => (if b then 1 else 0) =? z
  | _ => false
  end.

(** ** The class tables *)

Definition dict_get {V} (d : list (string * V)) (k : string) : option V :=
  option_map snd (find (fun kv => String.eqb (fst kv) k) d).

Definition dict_getZ {V} (d : list (Z * V)) (k : Z) : option V :=
  option_map snd (find (fun kv => Z.eqb (fst kv) k) d).

(** [{ v:k for k, v in d.items() }] *)
Definition invert {K V} (d : list (K * V)) : list (V * K) :=
  map (fun kv => (snd kv, fst kv)) d.

Definition PARSTR : list (string * string) :=
  [("8N1", "00"); ("8O1", "01"); ("8E1", "10")].
Definition PARINV : list (string * string) := invert PARSTR.

Definition BAUDRATE : list (Z * string) :=
  [(1200, "000"); (2400, "001"); (4800, "010"); (9600, "011");
   (19200, "100"); (38400, "101"); (57600, "110"); (115200, "111")].
Definition BAUDRINV : list (string * Z) := invert BAUDRATE.

Definition DATARATE : list (string * string) :=
  [("0.3k", "000"); ("1.2k", "001"); ("2.4k", "010");
   ("4.8k", "011"); ("9.6k", "100"); ("19.2k", "101")].
Definition DATARINV : list (string * string) := invert DATARATE.

Definition CMDS : list (string * Z) :=
  [("setConfigPwrDwnSave", 0xC0); ("getConfig", 0xC1);
   ("setConfigPwrDwnNoSave", 0xC2); ("getVersion", 0xC3); ("reset", 0xC4)].

Definition OPERMODE : list (string * string) :=
  [("normal", "00"); ("wakeup", "10"); ("powersave", "01"); ("sleep", "11")].

Definition FREQ : list (Z * list Z) :=
  [(170, [160; 170; 173]); (400, [410; 470; 525]); (433, [410; 433; 441]);
   (868, [862; 868; 893]); (915, [900; 915; 931])].

Definition FREQV : list (string * Z) :=
  [("0x32", 433); ("0x38", 470); ("0x45", 868); ("0x44", 915); ("0x46", 170)].

Definition MAXPOW : list (string * Z) := [("T20", 0); ("T27", 1); ("T30", 2)].

Definition TRANSMODE : list (Z * string) := [(0, "transparent"); (1, "fixed")].

Definition IOMODE : list (Z * string) :=
  [(0, "TXD AUX floating output, RXD floating input");
   (1, "TXD AUX push-pull output, RXD pull-up input")].

Definition WUTIME : list (Z * string) :=
  [(0, "250ms"); (1, "500ms"); (2, "750ms"); (3, "1000ms");
   (4, "1250ms"); (5, "1500ms"); (6, "1750ms"); (7, "2000ms")].

Definition FEC : list (Z * string) := [(0, "off"); (1, "on")].

Definition TXPOWER : list (Z * list string) :=
  [(0, ["20dBm"; "27dBm"; "30dBm"]); (1, ["17dBm"; "24dBm"; "27dBm"]);
   (2, ["14dBm"; "21dBm"; "24dBm"]); (3, ["10dBm"; "18dBm"; "21dBm"])].

(** A list or a dictionary cannot be hashed: looking one up in a
    dictionary, with [in] or with [get], raises [TypeError]. *)
Definition hashable (k : pyval) : bool :=
  match k with
  | PList _ | PDict _ => false
  | _ => true
  end.

Definition missing {V} (o : option V) : bool :=
  match o with Some _ => false | None => true end.

(** [d.get(k)] with a key that may be any value: only a key of the
    table's key type can be found.  Where the driver calls [get] with a
    key that cannot be hashed, the value found is appended to a string
    right away ([append_str]), which raises [TypeError] for [None] as the
    lookup itself would have. *)
Definition get_by_str {V} (d : list (string * V)) (k : pyval) : option V :=
  match k with
  | PStr s => dict_get d s
  | _ => None
  end.

Definition get_by_int {V} (d : list (Z * V)) (k : pyval) : option V :=
  match k with
  | PInt z => dict_getZ d z
  | PBool b => dict_getZ d (if b then 1 else 0)
  | _ => None
  end.

(** [k not in d] for a table with string keys *)
Definition not_in {V} (d : list (string * V)) (k : pyval) : result bool :=
  if hashable k then Ok (missing (get_by_str d k)) else Err TypeError.

Definition opt_str (o : option string) : pyval :=
  match o with Some s => PStr s | None => PNone end.
Definition opt_int (o : option Z) : pyval :=
  match o with Some z => PInt z | None => PNone end.

(** [s += v]: only a string can be appended to a string. *)
Definition append_str (s : string) (v : option string) : result string :=
  match v with
  | Some t => Ok (s ++ t)
  | None => Err TypeError
  end.

(** ** The configuration dictionary [self.config]

    Keys whose value the code can leave as [None] or as a string
    ([parity], [baudrate], [datarate] after a decode, [channel] after
    [calcFrequency]) hold a [pyval]; the others are integers. *)

Record Config : Type := mkConfig {
  model : string;
  port : string;
  baudrate : pyval;
  parity : pyval;
  datarate : pyval;
  address : Z;
  channel : pyval;
  frequency : Z;
  transmode : Z;
  iomode : Z;
  wutime : Z;
  fec : Z;
  txpower : Z
}.

Definition set_model (v : string) (c : Config) : Config :=
  mkConfig v (port c) (baudrate c) (parity c) (datarate c) (address c) (channel c)
           (frequency c) (transmode c) (iomode c) (wutime c) (fec c) (txpower c).
Definition set_port (v : string) (c : Config) : Config :=
  mkConfig (model c) v (baudrate c) (parity c) (datarate c) (address c) (channel c)
           (frequency c) (transmode c) (iomode c) (wutime c) (fec c) (txpower c).
Definition set_baudrate (v : pyval) (c : Config) : Config :=
  mkConfig (model c) (port c) v (parity c) (datarate c) (address c) (channel c)
           (frequency c) (transmode c) (iomode c) (wutime c) (fec c) (txpower c).
Definition set_parity (v : pyval) (c : Config) : Config :=
  mkConfig (model c) (port c) (baudrate c) v (datarate c) (address c) (channel c)
           (frequency c) (transmode c) (iomode c) (wutime c) (fec c) (txpower c).
Definition set_datarate (v : pyval) (c : Config) : Config :=
  mkConfig (model c) (port c) (baudrate c) (parity c) v (address c) (channel c)
           (frequency c) (transmode c) (iomode c) (wutime c) (fec c) (txpower c).
Definition set_address (v : Z) (c : Config) : Config :=
  mkConfig (model c) (port c) (baudrate c) (parity c) (datarate c) v (channel c)
           (frequency c) (transmode c) (iomode c) (wutime c) (fec c) (txpower c).
Definition set_channel (v : pyval) (c : Config) : Config :=
  mkConfig (model c) (port c) (baudrate c) (parity c) (datarate c) (address c) v
           (frequency c) (transmode c) (iomode c) (wutime c) (fec c) (txpower c).
Definition set_frequency (v : Z) (c : Config) : Config :=
  mkConfig (model c) (port c) (baudrate c) (parity c) (datarate c) (address c) (channel c)
           v (transmode c) (iomode c) (wutime c) (fec c) (txpower c).
Definition set_transmode (v : Z) (c : Config) : Config :=
  mkConfig (model c) (port c) (baudrate c) (parity c) (datarate c) (address c) (channel c)
           (frequency c) v (iomode c) (wutime c) (fec c) (txpower c).
Definition set_iomode (v : Z) (c : Config) : Config :=
  mkConfig (model c) (port c) (baudrate c) (parity c) (datarate c) (address c) (channel c)
           (frequency c) (transmode c) v (wutime c) (fec c) (txpower c).
Definition set_wutime (v : Z) (c : Config) : Config :=
  mkConfig (model c) (port c) (baudrate c) (parity c) (datarate c) (address c) (channel c)
           (frequency c) (transmode c) (iomode c) v (fec c) (txpower c).
Definition set_fec (v : Z) (c : Config) : Config :=
  mkConfig (model c) (port c) (baudrate c) (parity c) (datarate c) (address c) (channel c)
           (frequency c) (transmode c) (iomode c) (wutime c) v (txpower c).
Definition set_txpower (v : Z) (c : Config) : Config :=
  mkConfig (model c) (port c) (baudrate c) (parity c) (datarate c) (address c) (channel c)
           (frequency c) (transmode c) (iomode c) (wutime c) (fec c) v.

(** ** The configuration register codec *)

(** The string [bits] that [encodeConfig] builds for message byte 3:
    ['0b'], then the patterns of the parity, the baud rate and the air
    data rate. *)
Definition speed_bits (c : Config) : result string :=
  obind (append_str "0b" (get_by_str PARSTR (parity c))) (fun bits =>
  obind (append_str bits (get_by_int BAUDRATE (baudrate c))) (fun bits =>
  append_str bits (get_by_str DATARATE (datarate c)))).

(** The string [bits] it builds for message byte 5. *)
Definition option_bits (c : Config) : string :=
  "0b" ++ py_str_int (transmode c) ++ py_str_int (iomode c)
       ++ format_b 3 (wutime c) ++ py_str_int (fec c)
       ++ format_b 2 (txpower c).

(** [encodeConfig]: the list the code builds; its elements are what the
    dictionary holds, so the channel may be a string.  Each of the two
    strings goes through [int(bits)]. *)
Definition encodeConfig (c : Config) : result (list pyval) :=
  let message := [PInt 0xC0; PInt (address c / 256); PInt (address c mod 256)] in
  obind (speed_bits c) (fun bits =>
  obind (py_int bits) (fun speed =>
  let message := (message ++ [PInt speed] ++ [channel c])%list in
  let bits := option_bits c in
  obind (py_int bits) (fun option =>
  Ok (message ++ [PInt option])%list))).

(** [int(message[i])] *)
Definition int_at (message : pyval) (i : nat) : result Z :=
  obind (py_index message i) py_int_of.

(** ['{0:08b}'.format(message[i])] *)
Definition bits_at (message : pyval) (i : nat) : result string :=
  obind (py_index message i) (fun v => obind (as_index v) (fun z => Ok (format_b 8 z))).

(** [decodeConfig]: the keys are assigned one after the other, in the
    order of the source. *)
Definition decodeConfig (message : pyval) : M Config unit :=
  header <- lift (int_at message 0) ;;
  hi <- lift (int_at message 1) ;;
  lo <- lift (int_at message 2) ;;
  modify (set_address (hi * 256 + lo)) ;;
  bits <- lift (bits_at message 3) ;;
  modify (set_parity (opt_str (dict_get PARINV (slice 0 2 bits)))) ;;
  modify (set_baudrate (opt_int (dict_get BAUDRINV (slice 2 5 bits)))) ;;
  modify (set_datarate (opt_str (dict_get DATARINV (slice_from 5 bits)))) ;;
  ch <- lift (int_at message 4) ;;
  modify (set_channel (PInt ch)) ;;
  bits <- lift (bits_at message 5) ;;
  v <- lift (py_int (slice 0 1 bits)) ;;
  modify (set_transmode v) ;;
  v <- lift (py_int (slice 1 2 bits)) ;;
  modify (set_iomode v) ;;
  v <- lift (py_int (slice 2 5 bits)) ;;
  modify (set_wutime v) ;;
  v <- lift (py_int (slice 5 6 bits)) ;;
  modify (set_fec v) ;;
  v <- lift (py_int (slice_from 6 bits)) ;;
  modify (set_txpower v).

(** [calcFrequency] *)
Definition calcFrequency : M Config unit :=
  c <- get ;;
  freqkey <- lift (py_int (split_head "T" (model c))) ;;
  band <- lift (match dict_getZ FREQ freqkey with
                | Some b => Ok b
                | None => Err TypeError
                end) ;;
  minfreq <- lift (match nth_error band 0 with Some v => Ok v | None => Err IndexError end) ;;
  maxfreq <- lift (match nth_error band 2 with Some v => Ok v | None => Err IndexError end) ;;
  ch <- lift (as_index (channel c)) ;;
  let freq := minfreq + ch in
  if freq >? maxfreq then
    modify (set_frequency maxfreq) ;;
    modify (set_channel (PStr (py_hex (maxfreq - minfreq))))
  else
    modify (set_frequency freq).

(** ** The checksum *)

Definition ord_sum (payload : text) : Z :=
  fold_right (fun c acc => Z.of_N c + acc) 0 payload.

(** [calcChecksum]: the result is the text of a hexadecimal number. *)
Definition calcChecksum (payload : text) : string :=
  format_2X (Z.land (- (ord_sum payload mod 256)) 0xFF).

Definition default_config : Config :=
  mkConfig "868T20D" "U1" (PInt 9600) (PStr "8N1") (PStr "2.4k") 0 (PInt 6) 868 0 1 0 1 0.

(** ** The driver object and the hardware around it

    [M0], [M1], [AUX] and [serdev] are [None] until [start] binds them:
    [M0] and [M1] then hold the level last written to the pin, [AUX] and
    [serdev] record that the instance is bound.
    The rest is the world the driver acts on: the level the AUX line shows
    at each successive read, the results of the successive [serdev.read()]
    calls ([None] when nothing has arrived), the writes on the serial link
    with the levels of M0 and M1 the module saw when they were made, the
    contents of [E32config.json], the console, and the time slept. *)

Inductive console_line : Type :=
| Line (s : string)
| Value (v : pyval)
| Object (attribute : string)
| Failure (context : string) (e : exn).

Record driver : Type := mkDriver {
  config : Config;
  debug : bool;
  M0 : option Z;
  M1 : option Z;
  AUX : bool;
  serdev : bool;
  aux_line : nat -> bool;
  aux_reads : nat;
  rx : list (option (list byte));
  tx : list (option Z * option Z * list byte);
  snapshot : option Config;
  console : list console_line;
  slept_ms : Z
}.

Definition with_config (f : Config -> Config) (d : driver) : driver :=
  mkDriver (f (config d)) (debug d) (M0 d) (M1 d) (AUX d) (serdev d) (aux_line d)
           (aux_reads d) (rx d) (tx d) (snapshot d) (console d) (slept_ms d).
Definition with_M0 (v : option Z) (d : driver) : driver :=
  mkDriver (config d) (debug d) v (M1 d) (AUX d) (serdev d) (aux_line d)
           (aux_reads d) (rx d) (tx d) (snapshot d) (console d) (slept_ms d).
Definition with_M1 (v : option Z) (d : driver) : driver :=
  mkDriver (config d) (debug d) (M0 d) v (AUX d) (serdev d) (aux_line d)
           (aux_reads d) (rx d) (tx d) (snapshot d) (console d) (slept_ms d).
Definition with_AUX (v : bool) (d : driver) : driver :=
  mkDriver (config d) (debug d) (M0 d) (M1 d) v (serdev d) (aux_line d)
           (aux_reads d) (rx d) (tx d) (snapshot d) (console d) (slept_ms d).
Definition with_serdev (v : bool) (d : driver) : driver :=
  mkDriver (config d) (debug d) (M0 d) (M1 d) (AUX d) v (aux_line d)
           (aux_reads d) (rx d) (tx d) (snapshot d) (console d) (slept_ms d).
Definition with_aux_reads (v : nat) (d : driver) : driver :=
  mkDriver (config d) (debug d) (M0 d) (M1 d) (AUX d) (serdev d) (aux_line d)
           v (rx d) (tx d) (snapshot d) (console d) (slept_ms d).
Definition with_rx (v : list (option (list byte))) (d : driver) : driver :=
  mkDriver (config d) (debug d) (M0 d) (M1 d) (AUX d) (serdev d) (aux_line d)
           (aux_reads d) v (tx d) (snapshot d) (console d) (slept_ms d).
Definition with_tx (v : list (option Z * option Z * list byte)) (d : driver) : driver :=
  mkDriver (config d) (debug d) (M0 d) (M1 d) (AUX d) (serdev d) (aux_line d)
           (aux_reads d) (rx d) v (snapshot d) (console d) (slept_ms d).
Definition with_snapshot (v : option Config) (d : driver) : driver :=
  mkDriver (config d) (debug d) (M0 d) (M1 d) (AUX d) (serdev d) (aux_line d)
           (aux_reads d) (rx d) (tx d) v (console d) (slept_ms d).
Definition with_console (v : list console_line) (d : driver) : driver :=
  mkDriver (config d) (debug d) (M0 d) (M1 d) (AUX d) (serdev d) (aux_line d)
           (aux_reads d) (rx d) (tx d) (snapshot d) v (slept_ms d).
Definition with_slept_ms (v : Z) (d : driver) : driver :=
  mkDriver (config d) (debug d) (M0 d) (M1 d) (AUX d) (serdev d) (aux_line d)
           (aux_reads d) (rx d) (tx d) (snapshot d) (console d) v.

(** A block over the configuration, run on the driver's dictionary. *)
Definition on_config {A} (c : M Config A) : M driver A :=
  fun d => let '(r, cfg) := c (config d) in (r, with_config (fun _ => cfg) d).

(** [print(...)] *)
Definition print (l : console_line) : M driver unit :=
  modify (fun d => with_console (console d ++ [l])%list d).

(** [if self.debug: c] *)
Definition when_debug (c : M driver unit) : M driver unit :=
  d <- get ;; when (debug d) c.

(** [utime.sleep_ms(n)] *)
Definition sleep_ms (n : Z) : M driver unit :=
  modify (fun d => with_slept_ms (slept_ms d + n) d).

(** [self.M0.value(v)], [self.M1.value(v)] *)
Definition M0_value (v : Z) : M driver unit :=
  fun d => match M0 d with
           | Some _ => (Ret tt, with_M0 (Some v) d)
           | None => (Raise AttributeError, d)
           end.
Definition M1_value (v : Z) : M driver unit :=
  fun d => match M1 d with
           | Some _ => (Ret tt, with_M1 (Some v) d)
           | None => (Raise AttributeError, d)
           end.

(** [self.AUX.value()]: one reading of the busy/idle line *)
Definition AUX_value : M driver bool :=
  fun d => if AUX d
           then (Ret (aux_line d (aux_reads d)), with_aux_reads (S (aux_reads d)) d)
           else (Raise AttributeError, d).

(** [self.serdev.write(bytes(l))] *)
Definition serdev_write (l : list pyval) : M driver unit :=
  fun d => if serdev d then
             match py_bytes l with
             | Ok b => (Ret tt, with_tx (tx d ++ [(M0 d, M1 d, b)])%list d)
             | Err e => (Raise e, d)
             end
           else (Raise AttributeError, d).

(** [self.serdev.read()] *)
Definition serdev_read : M driver pyval :=
  fun d => if serdev d then
             match rx d with
             | Some b :: rest => (Ret (PBytes b), with_rx rest d)
             | None :: rest => (Ret PNone, with_rx rest d)
             | [] => (Ret PNone, d)
             end
           else (Raise AttributeError, d).

(** ** Mode controller *)

(** [setOperationMode] *)
Definition setOperationMode (mode : string) : M driver unit :=
  let bits := match dict_get OPERMODE mode with Some b => b | None => "00" end in
  b0 <- lift (int_at (PStr bits) 0) ;;
  M0_value b0 ;;
  b1 <- lift (int_at (PStr bits) 1) ;;
  M1_value b1 ;;
  sleep_ms 50.

(** The [while] loop of [waitForDeviceIdle], [count] being its counter. *)
Fixpoint wait_loop (fuel : nat) (count : Z) : M driver unit :=
  match fuel with
  | O => fun d => (OutOfFuel, d)
  | S fuel' =>
      v <- AUX_value ;;
      if negb v then
        let count := count + 1 in
        if count =? 10 then ret tt
        else sleep_ms 10 ;; wait_loop fuel' count
      else ret tt
  end.

(** [waitForDeviceIdle] *)
Definition waitForDeviceIdle (fuel : nat) : M driver unit := wait_loop fuel 0.

(** ** Reports and the snapshot file *)

Definition percent_d (v : pyval) : result string :=
  obind (as_index v) (fun z => Ok (py_str_int z)).
Definition percent_x (width : nat) (v : pyval) : result string :=
  obind (as_index v) (fun z => Ok (format_x width z)).

(** [showConfig] *)
Definition showConfig : M driver unit :=
  d <- get ;;
  let c := config d in
  print (Line "=================== CONFIG =====================") ;;
  print (Line ("model       " ++ TAB ++ "E32-" ++ model c)) ;;
  print (Line ("frequency   " ++ TAB ++ py_str_int (frequency c) ++ "Mhz")) ;;
  print (Line ("address     " ++ TAB ++ "0x" ++ format_x 4 (address c))) ;;
  s <- lift (percent_x 2 (channel c)) ;;
  print (Line ("channel     " ++ TAB ++ "0x" ++ s)) ;;
  print (Line ("datarate    " ++ TAB ++ py_str (datarate c) ++ "bps")) ;;
  print (Line ("port        " ++ TAB ++ port c)) ;;
  s <- lift (percent_d (baudrate c)) ;;
  print (Line ("baudrate    " ++ TAB ++ s ++ "bps")) ;;
  print (Line ("parity      " ++ TAB ++ py_str (parity c))) ;;
  print (Line ("transmission" ++ TAB ++ py_str (opt_str (dict_getZ TRANSMODE (transmode c))))) ;;
  print (Line ("IO mode     " ++ TAB ++ py_str (opt_str (dict_getZ IOMODE (iomode c))))) ;;
  print (Line ("wakeup time " ++ TAB ++ py_str (opt_str (dict_getZ WUTIME (wutime c))))) ;;
  print (Line ("FEC         " ++ TAB ++ py_str (opt_str (dict_getZ FEC (fec c))))) ;;
  let maxp := match dict_get MAXPOW (slice 3 6 (model c)) with Some p => p | None => 0 end in
  powers <- lift (match dict_getZ TXPOWER (txpower c) with
                  | Some l => Ok l
                  | None => Err TypeError
                  end) ;;
  s <- lift (match nth_error powers (Z.to_nat maxp) with
             | Some s => Ok s
             | None => Err IndexError
             end) ;;
  print (Line ("TX power    " ++ TAB ++ s)) ;;
  print (Line "================================================").

(** [saveConfigToJson]: the file is replaced by the dictionary (the
    file system is taken to accept the write). *)
Definition saveConfigToJson : M driver unit :=
  modify (fun d => with_snapshot (Some (config d)) d).

(** ** Command channel *)

(** [HexCmd[0] = header] *)
Definition set_first (header : pyval) (l : list pyval) : result (list pyval) :=
  match l with
  | _ :: l' => Ok (header :: l')
  | [] => Err IndexError
  end.

(** [sendCommand] *)
Definition sendCommand (command : string) : M driver pyval :=
  try_except
    (setOperationMode "sleep" ;;
     d <- get ;;
     HexCmd <- lift (match dict_get CMDS command with
                     | Some code =>
                         if (code =? 0xC0) || (code =? 0xC2) then
                           obind (encodeConfig (config d)) (set_first (PInt code))
                         else Ok [PInt code; PInt code; PInt code]
                     | None => Ok [PNone; PNone; PNone]
                     end) ;;
     when_debug (print (Value (PList HexCmd))) ;;
     serdev_write HexCmd ;;
     sleep_ms 50 ;;
     if String.eqb command "reset" then ret (PStr "")
     else
       result <- serdev_read ;;
       sleep_ms 50 ;;
       when_debug (print (Value result)) ;;
       ret result)
    (fun E =>
       when_debug (print (Failure "Error on sendCommand: " E)) ;;
       ret (PStr "NOK")).

(** [getVersion] *)
Definition getVersion : M driver string :=
  try_except
    (result <- sendCommand "getVersion" ;;
     n <- lift (py_len result) ;;
     if negb (n =? 4) then ret "NOK"
     else
       code <- lift (obind (py_index result 1) as_index) ;;
       let freq := match dict_get FREQV (py_hex code) with
                   | Some f => PInt f
                   | None => PStr "unknown"
                   end in
       b0 <- lift (py_index result 0) ;;
       (if py_eq_int b0 0xC3 then
          print (Line "================= E32 MODULE ===================") ;;
          s <- lift (percent_d freq) ;;
          print (Line ("model       " ++ TAB ++ s ++ "Mhz")) ;;
          s <- lift (obind (py_index result 2) percent_d) ;;
          print (Line ("version     " ++ TAB ++ s)) ;;
          s <- lift (obind (py_index result 3) percent_d) ;;
          print (Line ("features    " ++ TAB ++ s)) ;;
          print (Line "================================================")
        else ret tt) ;;
       ret "OK")
    (fun E =>
       when_debug (print (Failure "Error on getVersion: " E)) ;;
       ret "NOK").

(** [getConfig] *)
Definition getConfig : M driver string :=
  try_except
    (result <- sendCommand "getConfig" ;;
     n <- lift (py_len result) ;;
     if negb (n =? 6) then ret "NOK"
     else
       on_config (decodeConfig result) ;;
       showConfig ;;
       ret "OK")
    (fun E =>
       when_debug (print (Failure "Error on getConfig: " E)) ;;
       ret "NOK").

(** [setConfig] *)
Definition setConfig (save_cmd : string) : M driver string :=
  try_except
    (result <- sendCommand save_cmd ;;
     n <- lift (py_len result) ;;
     if negb (n =? 6) then ret "NOK"
     else
       when_debug (on_config (decodeConfig result) ;; showConfig) ;;
       saveConfigToJson ;;
       ret "OK")
    (fun E =>
       when_debug (print (Failure "Error on setConfig: " E)) ;;
       ret "NOK").

(** [setTransmissionMode] *)
Definition setTransmissionMode (mode : Z) : M driver unit :=
  d <- get ;;
  if negb (mode =? transmode (config d)) then
    modify (with_config (set_transmode mode)) ;;
    _ <- setConfig "setConfigPwrDwnSave" ;;
    ret tt
  else ret tt.

(** [reset] *)
Definition reset : M driver string :=
  try_except
    (_ <- sendCommand "reset" ;; ret "OK")
    (fun E =>
       when_debug (print (Failure "error on reset" E)) ;;
       ret "NOK").

(** ** Payload transport *)

(** The mode the [if] at the head of [sendMessage] and [recvMessage]
    asks for: transparent (0) for the driver's own address and channel,
    fixed (1) for any other. *)
Definition wanted_mode (c : Config) (addr chan : Z) : Z :=
  if (addr =? address c) && py_eq_int (channel c) chan then 0 else 1.

(** The characters [chr(b)] of the bytes read from the serial link *)
Definition chars_of (v : pyval) : result text :=
  match v with
  | PBytes b => Ok (map Byte.to_N b)
  | _ => Err TypeError
  end.

Section Transport.

(** [ujson.dumps] and [ujson.loads], the JSON library of the runtime *)
Variable ujson_dumps : pyval -> result text.
Variable ujson_loads : text -> result pyval.

(** [sendMessage] *)
Definition sendMessage (fuel : nat) (to_address to_channel : Z) (payload : pyval)
           (useChecksum : bool) : M driver string :=
  try_except
    (d <- get ;;
     (if (to_address =? address (config d)) && py_eq_int (channel (config d)) to_channel
      then setTransmissionMode 0
      else setTransmissionMode 1) ;;
     setOperationMode "wakeup" ;;
     match payload with
     | PDict _ =>
         d <- get ;;
         let msg := if transmode (config d) =? 1
                    then [PInt (to_address / 256); PInt (to_address mod 256); PInt to_channel]
                    else [] in
         js_payload <- lift (ujson_dumps payload) ;;
         let msg := (msg ++ map (fun c => PInt (Z.of_N c)) js_payload)%list in
         msg <- (if useChecksum then
                   cs <- lift (py_int16 (calcChecksum js_payload)) ;;
                   ret (msg ++ [PInt cs])%list
                 else ret msg) ;;
         when_debug (print (Value (PList msg))) ;;
         waitForDeviceIdle fuel ;;
         serdev_write msg ;;
         ret "OK"
     | _ =>
         print (Line "payload is not a dictionary") ;;
         ret "NOK"
     end)
    (fun E =>
       when_debug (print (Failure "Error on sendMessage: " E)) ;;
       ret "NOK").

(** [recvMessage] *)
Definition recvMessage (from_address from_channel : Z) (useChecksum : bool)
  : M driver pyval :=
  try_except
    (d <- get ;;
     (if (from_address =? address (config d)) && py_eq_int (channel (config d)) from_channel
      then setTransmissionMode 0
      else setTransmissionMode 1) ;;
     setOperationMode "normal" ;;
     js_payload <- serdev_read ;;
     when_debug (print (Value js_payload)) ;;
     match js_payload with
     | PNone => ret (PDict [("msg", PNone)])
     | _ =>
         msg <- lift (chars_of js_payload) ;;
         if useChecksum then
           cs <- lift (py_int16 (calcChecksum msg)) ;;
           if negb (cs =? 0) then
             ret (PDict [("msg", PStr ("corrupt message, checksum " ++ py_str_int cs))])
           else
             message <- lift (ujson_loads (removelast msg)) ;;
             ret message
         else
           message <- lift (ujson_loads msg) ;;
           ret message
     end)
    (fun E =>
       when_debug (print (Failure "Error on recvMessage: " E)) ;;
       ret (PStr "NOK")).

End Transport.

(** ** Construction and start *)

(** [__init__]: the dictionary is filled, the frequency computed from the
    model and the channel, and nothing is bound to the hardware yet. *)
Definition init (Model Port : string) (Baudrate Parity AirDataRate : pyval) (Address : Z)
           (Channel : pyval) (dbg : bool)
           (line : nat -> bool) (incoming : list (option (list byte))) : outcome driver :=
  let c := mkConfig Model Port Baudrate Parity AirDataRate Address Channel 0 0 0 0 0 0 in
  match calcFrequency c with
  | (Ret _, c) =>
      let c := set_txpower 0 (set_fec 1 (set_wutime 0 (set_iomode 1 (set_transmode 0 c)))) in
      Ret (mkDriver c dbg None None false false line 0 incoming [] None [] 0)
  | (Raise e, _) => Raise e
  | (OutOfFuel, _) => OutOfFuel
  end.

Definition PORT : list (string * Z) := [("U1", 1); ("U2", 2)].
Definition PARBIT : list (string * pyval) := [("N", PNone); ("E", PInt 0); ("O", PInt 1)].

(** [start]: the parameters are checked, the UART and the three pins are
    bound (the hardware is taken to accept that, and an output pin to
    start low), and [setConfig] is called, whose result is dropped. *)
Definition start : M driver string :=
  try_except
    (d <- get ;;
     key <- lift (py_int (split_head "T" (model (config d)))) ;;
     when (missing (dict_getZ FREQ key))
          (modify (with_config (set_model "868T20D"))) ;;
     d <- get ;;
     when (missing (dict_get PORT (port (config d))))
          (modify (with_config (set_port "U1"))) ;;
     d <- get ;;
     baud <- lift (py_int_of (baudrate (config d))) ;;
     when (missing (dict_getZ BAUDRATE baud))
          (modify (with_config (set_baudrate (PInt 9600)))) ;;
     d <- get ;;
     absent <- lift (not_in PARSTR (parity (config d))) ;;
     when absent (modify (with_config (set_parity (PStr "8N1")))) ;;
     d <- get ;;
     absent <- lift (not_in DATARATE (datarate (config d))) ;;
     when absent (modify (with_config (set_datarate (PStr "2.4k")))) ;;
     d <- get ;;
     ch <- lift (as_index (channel (config d))) ;;
     when (ch >? 31) (modify (with_config (set_channel (PInt 31)))) ;;
     modify (with_serdev true) ;;
     d <- get ;;
     letter <- lift (py_index (PStr (py_str (parity (config d)))) 1) ;;
     let par := get_by_str PARBIT letter in
     when_debug (print (Object "serdev")) ;;
     modify (with_M0 (Some 0)) ;;
     modify (with_M1 (Some 0)) ;;
     modify (with_AUX true) ;;
     when_debug (print (Object "M0, M1, AUX")) ;;
     _ <- setConfig "setConfigPwrDwnSave" ;;
     ret "OK")
    (fun E =>
       when_debug (print (Failure "error on start UART" E)) ;;
       ret "NOK").

(** ** Stop, and the object around the driver state

    [stop] deletes the attribute [serdev]; it is the only place where the
    difference between an attribute that holds [None] and an attribute
    that does not exist shows.  An object is the driver state together
    with that bit.  While the attribute is deleted the state holds no
    UART, so that every use of [self.serdev] raises [AttributeError], as
    it does in Python. *)

Record ebyteE32 : Type := mkObject {
  attributes : driver;
  serdev_deleted : bool
}.

(** A method of the class run on an object.  The attribute comes back
    when the method binds a UART, which only [start] does. *)
Definition method {A} (m : M driver A) : M ebyteE32 A :=
  fun o =>
    let '(r, d) := m (attributes o) in
    (r, mkObject d (serdev_deleted o && negb (serdev d))).

(** [stop]: the UART is taken to accept [deinit]. *)
Definition stop : M ebyteE32 string :=
  try_except
    (o <- get ;;
     (if serdev_deleted o then raise AttributeError
      else
        when (serdev (attributes o))
             (modify (fun o => mkObject (with_serdev false (attributes o)) true))) ;;
     ret "OK")
    (fun E =>
       method (when_debug (print (Failure "error on stop UART" E))) ;;
       ret "NOK").

(** ** A caller: the monitor node (MonitorNodeE32.py) *)

(** [v.keys()] *)
Definition py_keys (v : pyval) : result (list string) :=
  match v with
  | PDict items => Ok (map fst items)
  | _ => Err AttributeError
  end.

(** One turn of the monitor's loop up to its test
    [if 'node' in message.keys()], which stands outside any [try]: the
    value says whether the message is taken as sensor data. *)
Definition monitor_poll (ujson_loads : text -> result pyval) : M driver bool :=
  message <- recvMessage ujson_loads 0x0001 0x02 true ;;
  keys <- lift (py_keys message) ;;
  ret (existsb (String.eqb "node") keys).

(** * Notions the statements use *)

(** ** Checks on numbers, and the checksum as a number *)

Definition result_is (o : result Z) (z : Z) : bool :=
  match o with
  | Ok x => x =? z
  | _ => false
  end.

(** The number [calcChecksum] prints. *)
Definition checksum_value (payload : text) : Z :=
  Z.land (- (ord_sum payload mod 256)) 0xFF.

(** ** What a block leaves alone

    [keeps R c]: whatever [c] does, and however it ends, the state it
    reaches is related by [R] to the one it started from. *)

Definition keeps {S A} (R : S -> S -> Prop) (c : M S A) : Prop :=
  forall s, R s (snd (c s)).

(** The state a block reaches when it only reads the AUX line, reads the
    serial link, prints or sleeps: the configuration, the pins, the
    writes made so far and the snapshot are the same. *)
Definition same_link (d d' : driver) : Prop :=
  config d' = config d /\ debug d' = debug d /\ M0 d' = M0 d /\ M1 d' = M1 d
  /\ AUX d' = AUX d /\ serdev d' = serdev d /\ aux_line d' = aux_line d
  /\ tx d' = tx d /\ snapshot d' = snapshot d.

(** [setOperationMode] with levels [b0], [b1]: it fails on the first pin
    that is not bound, and otherwise sets both and sleeps 50 ms. *)
Definition set_pins (b0 b1 : Z) (d : driver) : outcome unit * driver :=
  match M0 d with
  | None => (Raise AttributeError, d)
  | Some _ =>
      match M1 d with
      | None => (Raise AttributeError, with_M0 (Some b0) d)
      | Some _ => (Ret tt, with_slept_ms (slept_ms d + 50) (with_M1 (Some b1) (with_M0 (Some b0) d)))
      end
  end.

(** The writes on the serial link after a command may have been sent:
    none, or one more, made with the module in sleep mode. *)
Definition at_most_one_command (d d' : driver) : Prop :=
  tx d' = tx d \/ exists b, tx d' = (tx d ++ [(Some 1, Some 1, b)])%list.

(** The state after a block that neither wrote nor read the serial
    link, nor touched the snapshot: the mode pins may have been driven,
    time slept and the console written. *)
Definition nothing_sent (d d' : driver) : Prop :=
  debug d' = debug d /\ snapshot d' = snapshot d /\ tx d' = tx d /\ rx d' = rx d
  /\ AUX d' = AUX d /\ serdev d' = serdev d
  /\ aux_line d' = aux_line d /\ aux_reads d' = aux_reads d
  /\ missing (M0 d') = missing (M0 d) /\ missing (M1 d') = missing (M1 d).

(** What [sendCommand] can return: what [serdev.read()] gave, or [''],
    or ["NOK"]. *)
Definition is_response (v : pyval) : Prop :=
  v = PNone \/ (exists b, v = PBytes b) \/ v = PStr "" \/ v = PStr "NOK".

(** ** Blocks without loops end *)

Definition terminates {S A} (c : M S A) : Prop :=
  forall s, fst (c s) <> OutOfFuel.

(** ** Writing a payload frame *)

(** The part of [sendMessage] that follows the choice of the modes. *)
Definition frame_and_write (ujson_dumps : pyval -> result text) (fuel : nat)
           (to_address to_channel : Z) (payload : pyval) (useChecksum : bool)
  : M driver string :=
  match payload with
  | PDict _ =>
      d <- get ;;
      let msg := if transmode (config d) =? 1
                 then [PInt (to_address / 256); PInt (to_address mod 256); PInt to_channel]
                 else [] in
      js_payload <- lift (ujson_dumps payload) ;;
      let msg := (msg ++ map (fun c => PInt (Z.of_N c)) js_payload)%list in
      msg <- (if useChecksum then
                cs <- lift (py_int16 (calcChecksum js_payload)) ;;
                ret (msg ++ [PInt cs])%list
              else ret msg) ;;
      when_debug (print (Value (PList msg))) ;;
      waitForDeviceIdle fuel ;;
      serdev_write msg ;;
      ret "OK"
  | _ =>
      print (Line "payload is not a dictionary") ;;
      ret "NOK"
  end.

(** The frame of [sendMessage] as integers: the prefix of the fixed
    mode, the character codes, the checksum. *)
Definition frame_values (mode a c : Z) (js : text) (useChecksum : bool) : list Z :=
  ((if mode =? 1 then [a / 256; a mod 256; c] else [])
     ++ map Z.of_N js
     ++ (if useChecksum then [checksum_value js] else []))%list.

(** ** The two halves of [recvMessage] *)

(** The head of [recvMessage]: the choice of the transmission mode and
    the switch to normal mode. *)
Definition listen (from_address from_channel : Z) : M driver unit :=
  d <- get ;;
  (if (from_address =? address (config d)) && py_eq_int (channel (config d)) from_channel
   then setTransmissionMode 0
   else setTransmissionMode 1) ;;
  setOperationMode "normal".

(** The rest of it: one read of the serial link and the decoding. *)
Definition read_and_decode (ujson_loads : text -> result pyval) (useChecksum : bool)
  : M driver pyval :=
  js_payload <- serdev_read ;;
  when_debug (print (Value js_payload)) ;;
  match js_payload with
  | PNone => ret (PDict [("msg", PNone)])
  | _ =>
      msg <- lift (chars_of js_payload) ;;
      if useChecksum then
        cs <- lift (py_int16 (calcChecksum msg)) ;;
        if negb (cs =? 0) then
          ret (PDict [("msg", PStr ("corrupt message, checksum " ++ py_str_int cs))])
        else
          message <- lift (ujson_loads (removelast msg)) ;;
          ret message
      else
        message <- lift (ujson_loads msg) ;;
        ret message
  end.

(** The corrupt-message result of [recvMessage] for checksum [cs] *)
Definition corrupt_message (cs : Z) : pyval :=
  PDict [("msg", PStr ("corrupt message, checksum " ++ py_str_int cs))].

(** ** Counting reconfigurations *)

(** A write made with the module in sleep mode: a command. *)
Definition sleep_write (w : option Z * option Z * list byte) : bool :=
  match w with
  | (Some m0, Some m1, _) => (m0 =? 1) && (m1 =? 1)
  | _ => false
  end.

(** The number of commands written so far. *)
Definition commands (d : driver) : nat :=
  List.length (filter sleep_write (tx d)).

(** ** The register codec *)

(** The configurations of the enumerated domains *)
Definition valid_config (c : Config) : Prop :=
  0 <= address c <= 0xFFFF
  /\ (exists ch, channel c = PInt ch /\ 0 <= ch <= 31)
  /\ In (parity c) (map (fun kv => PStr (fst kv)) PARSTR)
  /\ In (baudrate c) (map (fun kv => PInt (fst kv)) BAUDRATE)
  /\ In (datarate c) (map (fun kv => PStr (fst kv)) DATARATE)
  /\ 0 <= transmode c <= 1 /\ 0 <= iomode c <= 1 /\ 0 <= wutime c <= 7
  /\ 0 <= fec c <= 1 /\ 0 <= txpower c <= 3.

(** The decimal number written with the binary digits of [n], for [n]
    below 8: what [int] without a base makes of a group of bits. *)
Definition bits_read_as_decimal (n : Z) : Z :=
  n / 4 * 100 + n / 2 mod 2 * 10 + n mod 2.

(** ** The register, bit by bit *)

(** The number a Python integer literal denotes: the text parsed with
    base 0, where the prefix chooses the base (['0b101'] is 5). *)
Definition literal (s : string) : result Z := parse_int s 0.

(** The key of a table of bit patterns whose pattern is [n] written in
    binary, if the table has one. *)
Definition key_of_code {K} (table : list (K * string)) (n : Z) : option K :=
  option_map fst (find (fun kv => result_is (literal ("0b" ++ snd kv)) n) table).

(** The number a table's bit pattern stands for; 0 when the key is not
    in the table. *)
Definition code_of (pattern : option string) : Z :=
  match pattern with
  | Some s => match literal ("0b" ++ s) with Ok z => z | Err _ => 0 end
  | None => 0
  end.

(** The settings [encodeConfig] can spell in bits: the configurations of
    the enumerated domains, whatever their address and channel. *)
Definition encodable (c : Config) : Prop :=
  In (parity c) (map (fun kv => PStr (fst kv)) PARSTR)
  /\ In (baudrate c) (map (fun kv => PInt (fst kv)) BAUDRATE)
  /\ In (datarate c) (map (fun kv => PStr (fst kv)) DATARATE)
  /\ 0 <= transmode c <= 1 /\ 0 <= iomode c <= 1 /\ 0 <= wutime c <= 7
  /\ 0 <= fec c <= 1 /\ 0 <= txpower c <= 3.

(** The configuration [decodeConfig] makes of the register bytes 1 to 5,
    starting from [c0]. *)
Definition decoded (b1 b2 b3 b4 b5 : byte) (c0 : Config) : Config :=
  let s := byte_val b3 in
  let o := byte_val b5 in
  mkConfig (model c0) (port c0)
    (opt_int (key_of_code BAUDRATE (s / 8 mod 8)))
    (opt_str (key_of_code PARSTR (s / 64)))
    (opt_str (key_of_code DATARATE (s mod 8)))
    (byte_val b1 * 256 + byte_val b2) (PInt (byte_val b4)) (frequency c0)
    (o / 128) (o / 64 mod 2) (bits_read_as_decimal (o / 8 mod 8)) (o / 4 mod 2)
    (bits_read_as_decimal (o mod 4)).

(** ** The serial link and the hardware *)

(** What the next [serdev.read()] returns. *)
Definition next_read (d : driver) : pyval :=
  match rx d with
  | Some b :: _ => PBytes b
  | _ => PNone
  end.

(** The hardware a block leaves as it found it: the same instances
    bound, and, when no UART is bound, no write on the serial link. *)
Definition same_hardware (d d' : driver) : Prop :=
  AUX d' = AUX d /\ serdev d' = serdev d
  /\ missing (M0 d') = missing (M0 d) /\ missing (M1 d') = missing (M1 d)
  /\ aux_line d' = aux_line d
  /\ (serdev d = false -> tx d' = tx d).

(** The objects the class can reach: a deleted attribute holds no UART. *)
Definition well_formed (o : ebyteE32) : Prop :=
  serdev_deleted o = true -> serdev (attributes o) = false.

(** [returns c]: the block [c] ends with a value, whatever the state. *)
Definition returns {S A} (c : M S A) : Prop :=
  forall s, exists a, fst (c s) = Ret a.

(** ** The two halves of [start] *)

(** The checks of the parameters at the head of [start]. *)
Definition check_parameters : M driver unit :=
  d <- get ;;
  key <- lift (py_int (split_head "T" (model (config d)))) ;;
  when (missing (dict_getZ FREQ key))
       (modify (with_config (set_model "868T20D"))) ;;
  d <- get ;;
  when (missing (dict_get PORT (port (config d))))
       (modify (with_config (set_port "U1"))) ;;
  d <- get ;;
  baud <- lift (py_int_of (baudrate (config d))) ;;
  when (missing (dict_getZ BAUDRATE baud))
       (modify (with_config (set_baudrate (PInt 9600)))) ;;
  d <- get ;;
  absent <- lift (not_in PARSTR (parity (config d))) ;;
  when absent (modify (with_config (set_parity (PStr "8N1")))) ;;
  d <- get ;;
  absent <- lift (not_in DATARATE (datarate (config d))) ;;
  when absent (modify (with_config (set_datarate (PStr "2.4k")))) ;;
  d <- get ;;
  ch <- lift (as_index (channel (config d))) ;;
  when (ch >? 31) (modify (with_config (set_channel (PInt 31)))).

(** The rest of it: the UART, the pins, and the call of [setConfig]. *)
Definition bind_hardware : M driver string :=
  modify (with_serdev true) ;;
  d <- get ;;
  letter <- lift (py_index (PStr (py_str (parity (config d)))) 1) ;;
  let par := get_by_str PARBIT letter in
  when_debug (print (Object "serdev")) ;;
  modify (with_M0 (Some 0)) ;;
  modify (with_M1 (Some 0)) ;;
  modify (with_AUX true) ;;
  when_debug (print (Object "M0, M1, AUX")) ;;
  _ <- setConfig "setConfigPwrDwnSave" ;;
  ret "OK".

(** ** What [recvMessage] returns *)

(** What [recvMessage] makes of a parser's verdict: the parsed value, or
    ["NOK"] when the parser raises. *)
Definition parsed (loads : text -> result pyval) (t : text) : pyval :=
  match loads t with
  | Ok v => v
  | Err _ => PStr "NOK"
  end.

(** The result of [recvMessage] as a function of what its read returned. *)
Definition received (loads : text -> result pyval) (useChecksum : bool)
           (incoming : option (list byte)) : pyval :=
  match incoming with
  | None => PDict [("msg", PNone)]
  | Some B =>
      let msg := map Byte.to_N B in
      if useChecksum then
        if checksum_value msg =? 0 then parsed loads (removelast msg)
        else corrupt_message (checksum_value msg)
      else parsed loads msg
  end.

(** * Inputs of the concrete runs, and the claims as they are stated *)

Definition QUOTE : string := String "034"%char EmptyString.

Definition text_of (s : string) : text := map N_of_ascii (list_ascii_of_string s).

(** A stand-in for [ujson.dumps] on dictionaries of strings and
    integers, for the concrete runs below. *)
Definition sample_value (v : pyval) : result string :=
  match v with
  | PStr s => Ok (QUOTE ++ s ++ QUOTE)
  | PInt z => Ok (py_str_int z)
  | _ => Err TypeError
  end.

Fixpoint sample_members (items : list (string * pyval)) : result string :=
  match items with
  | [] => Ok ""
  | (k, v) :: rest =>
      obind (sample_value v) (fun sv =>
      obind (sample_members rest) (fun sr =>
      Ok (QUOTE ++ k ++ QUOTE ++ ": " ++ sv
            ++ match rest with [] => "" | _ => ", " end ++ sr)))
  end.

Definition sample_dumps (v : pyval) : result text :=
  match v with
  | PDict items => obind (sample_members items) (fun s => Ok (text_of ("{" ++ s ++ "}")))
  | _ => obind (sample_value v) (fun s => Ok (text_of s))
  end.

(** A stand-in for [ujson.loads] that only knows the empty object. *)
Definition sample_loads (t : text) : result pyval :=
  match t with
  | [123%N; 125%N] => Ok (PDict [])
  | _ => Err ValueError
  end.

(** A started driver with the default configuration (address 0, channel
    6, transparent mode), an idle AUX line, and [incoming] waiting on the
    serial link. *)
Definition sample_driver (dbg : bool) (incoming : list (option (list byte))) : driver :=
  mkDriver default_config dbg (Some 0) (Some 0) true true (fun _ => true) 0 incoming [] None [] 0.

Definition sample_items : list (string * pyval) :=
  [("node", PStr "02"); ("temp", PStr "21"); ("pres", PStr "101013")].

Definition sample_payload : pyval := PDict sample_items.

(** A response of six bytes that reports address 1 and the transparent
    mode (bit 7 of the last byte is 0). *)
Definition sample_response : list byte := [xc1; x00; x01; x1a; x06; x44].


(** C8 as stated, for every response. *)
Definition getVersion_claim : Prop :=
  forall d response d1 r d',
    sendCommand "getVersion" d = (Ret response, d1) ->
    getVersion d = (Ret r, d') ->
    (r = "OK" -> py_len response = Ok 4 /\ py_index response 0 = Ok (PInt 0xC3))
    /\ (~ (py_len response = Ok 4 /\ py_index response 0 = Ok (PInt 0xC3)) -> r = "NOK")
    /\ config d' = config d.

(** The sensor node of the examples (SensorNodeE32_02.py: address 1,
    channel 2), started, and the monitor node (MonitorNodeE32.py:
    address 0xFFFF, channel 4) already in fixed mode, with [incoming]
    waiting on its serial link. *)
Definition sensor_node : driver :=
  with_config (fun c => set_channel (PInt 2) (set_address 1 c)) (sample_driver false []).

Definition monitor_node (incoming : list (option (list byte))) : driver :=
  with_config (fun c => set_transmode 1 (set_channel (PInt 4) (set_address 0xFFFF c)))
              (sample_driver false incoming).

(** The frame the sensor node writes when it sends [sample_payload] to
    (3, 4) with a checksum. *)
Definition sensor_frame : list byte :=
  Eval vm_compute in
    match tx (snd (sendMessage sample_dumps 10 3 4 sample_payload true sensor_node)) with
    | [(_, frame)] => frame
    | _ => []
    end.

Fixpoint text_eqb (p q : text) : bool :=
  match p, q with
  | [], [] => true
  | x :: p', y :: q' => (x =? y)%N && text_eqb p' q'
  | _, _ => false
  end.

(** A stand-in for [ujson.loads] that reads back what [sample_dumps]
    wrote for [sample_payload], and nothing else. *)
Definition sensor_loads (t : text) : result pyval :=
  match sample_dumps sample_payload with
  | Ok js => if text_eqb t js then Ok sample_payload else Err ValueError
  | Err e => Err e
  end.

(** A driver as the constructor leaves it: nothing bound. *)
Definition fresh_driver : driver :=
  mkDriver default_config false None None false false (fun _ => true) 0 [] [] None [] 0.

(** A driver whose AUX line goes high at the fourth reading. *)
Definition busy_driver : driver :=
  mkDriver default_config false (Some 1) (Some 0) true true (fun n => Nat.leb 3 n) 0 [] []
           None [] 0.

(** * Properties *)

(** ** Evaluations of the primitives *)

Example py_int_binary_prefix : py_int "0b00011010" = Err ValueError.
Proof. reflexivity. Qed.

Example literal_binary_prefix : literal "0b00011010" = Ok 26.
Proof. reflexivity. Qed.

Example py_int_of_bytes : py_int_of (PBytes [x39; x36; x30; x30]) = Ok 9600.
Proof. reflexivity. Qed.

Example py_int_plain_digits_are_decimal : py_int "011" = Ok 11.
Proof. reflexivity. Qed.

Example py_int_underscores :
  py_int "1_200" = Ok 1200 /\ py_int "1__200" = Err ValueError /\ py_int "_1" = Err ValueError
  /\ py_int "1_" = Err ValueError.
Proof. repeat split. Qed.

Example py_int16_padded : py_int16 (format_2X 10) = Ok 10.
Proof. reflexivity. Qed.

Example format_b_byte : format_b 8 26 = "00011010".
Proof. reflexivity. Qed.

Example py_hex_31 : py_hex 31 = "0x1f".
Proof. reflexivity. Qed.

Example py_str_int_neg : py_str_int (-120) = "-120".
Proof. reflexivity. Qed.

Example encode_default :
  speed_bits default_config = Ok "0b00011010"
  /\ option_bits default_config = "0b01000100"
  /\ encodeConfig default_config = Err ValueError.
Proof. repeat split. Qed.

Example decode_default :
  decodeConfig (PBytes [xc0; x00; x01; x1a; x06; x44]) default_config
  = (Ret tt, set_address 1 default_config).
Proof. reflexivity. Qed.

Example checksum_example :
  calcChecksum [123; 125]%N = " 8".
Proof. reflexivity. Qed.

(** ** Number formatting and parsing on bytes *)

Lemma result_is_true o z : result_is o z = true -> o = Ok z.
Proof.
  destruct o as [x | e]; simpl; try discriminate.
  intros H. apply Z.eqb_eq in H. now subst.
Qed.

(** A check made on every number below [n] holds for each of them. *)
Lemma below_all (n : nat) (p : Z -> bool) :
  forallb (fun k => p (Z.of_nat k)) (seq 0 n) = true ->
  forall z, 0 <= z < Z.of_nat n -> p z = true.
Proof.
  intros Hall z Hz.
  rewrite forallb_forall in Hall.
  specialize (Hall (Z.to_nat z)).
  rewrite Z2Nat.id in Hall by lia.
  apply Hall. apply in_seq. lia.
Qed.

Lemma format_2X_parse z : 0 <= z < 256 -> py_int16 (format_2X z) = Ok z.
Proof.
  intros Hz. apply result_is_true.
  apply (below_all 256 (fun z => result_is (py_int16 (format_2X z)) z)); [ | exact Hz].
  vm_compute. reflexivity.
Qed.

Lemma land_255 z : Z.land z 0xFF = z mod 256.
Proof. change 0xFF with (Z.ones 8). now rewrite Z.land_ones by lia. Qed.

Lemma ord_sum_app (p q : text) : ord_sum (p ++ q)%list = ord_sum p + ord_sum q.
Proof.
  induction p as [ | c p IH]; simpl; [reflexivity | ].
  fold (ord_sum (p ++ q)%list). fold (ord_sum p). rewrite IH. lia.
Qed.

Lemma ord_sum_nonneg p : 0 <= ord_sum p.
Proof.
  induction p as [ | c p IH]; simpl; [lia | ]. fold (ord_sum p). lia.
Qed.

Lemma checksum_value_range p : 0 <= checksum_value p < 256.
Proof. unfold checksum_value. rewrite land_255. apply Z.mod_pos_bound. lia. Qed.

Lemma calcChecksum_parse p : py_int16 (calcChecksum p) = Ok (checksum_value p).
Proof. apply format_2X_parse, checksum_value_range. Qed.

Lemma checksum_value_zero p : checksum_value p = 0 <-> ord_sum p mod 256 = 0.
Proof.
  unfold checksum_value. rewrite land_255.
  pose proof (Z.mod_pos_bound (ord_sum p) 256 ltac:(lia)) as Hb.
  split; intros H.
  - destruct (Z.eq_dec (ord_sum p mod 256) 0) as [ | Hne]; [assumption | ].
    rewrite Z.mod_opp_l_nz in H by (rewrite ?Z.mod_mod; lia).
    rewrite Z.mod_mod in H by lia. lia.
  - rewrite H. reflexivity.
Qed.

(** C2.  For every payload text, the text [calcChecksum] returns reads
    back (as the hexadecimal number it is) as the two's complement of the
    sum of the character codes modulo 256, kept to 8 bits; that number is
    a byte, and the codes of the payload followed by it add up to 0
    modulo 256. *)
Theorem calcChecksum_zero_sum (P : text) :
  let cs := Z.land (- (ord_sum P mod 256)) 0xFF in
  py_int16 (calcChecksum P) = Ok cs
  /\ cs = (256 - ord_sum P mod 256) mod 256
  /\ 0 <= cs < 256
  /\ ord_sum (P ++ [Z.to_N cs])%list mod 256 = 0.
Proof.
  intros cs.
  pose proof (checksum_value_range P) as Hr. fold cs in Hr. unfold checksum_value in Hr.
  assert (Hcs : cs = (256 - ord_sum P mod 256) mod 256).
  { unfold cs. rewrite land_255.
    replace (256 - ord_sum P mod 256) with (- (ord_sum P mod 256) + 1 * 256) by lia.
    now rewrite Z.mod_add by lia. }
  split; [ | split; [ | split]].
  - apply calcChecksum_parse.
  - exact Hcs.
  - exact Hr.
  - rewrite ord_sum_app. simpl. rewrite Z2N.id by lia.
    rewrite Z.add_0_r, Hcs.
    rewrite Z.add_mod_idemp_r by lia.
    replace (ord_sum P + (256 - ord_sum P mod 256))
      with (ord_sum P - ord_sum P mod 256 + 1 * 256) by lia.
    rewrite Z.mod_add by lia.
    rewrite Zminus_mod_idemp_r. rewrite Z.sub_diag. reflexivity.
Qed.

(** ** What a block leaves alone *)

Section Keeps.
Context {S : Type} (R : S -> S -> Prop).
Hypothesis R_refl : forall s, R s s.
Hypothesis R_trans : forall a b c, R a b -> R b c -> R a c.

Lemma keeps_ret {A} (a : A) : keeps R (ret a).
Proof. intros s. apply R_refl. Qed.

Lemma keeps_raise {A} (e : exn) : keeps R (@raise S A e).
Proof. intros s. apply R_refl. Qed.

Lemma keeps_lift {A} (o : result A) : keeps R (lift o).
Proof. intros s. destruct o; apply R_refl. Qed.

Lemma keeps_get : keeps R get.
Proof. intros s. apply R_refl. Qed.

Lemma keeps_bind {A B} (c : M S A) (k : A -> M S B) :
  keeps R c -> (forall a, keeps R (k a)) -> keeps R (bind c k).
Proof.
  intros Hc Hk s. unfold bind.
  specialize (Hc s). destruct (c s) as [[a | e | ] s']; simpl in *; auto.
  eapply R_trans; [exact Hc | apply Hk].
Qed.

Lemma keeps_try {A} (c : M S A) (h : exn -> M S A) :
  keeps R c -> (forall e, keeps R (h e)) -> keeps R (try_except c h).
Proof.
  intros Hc Hh s. unfold try_except.
  specialize (Hc s). destruct (c s) as [[a | e | ] s']; simpl in *; auto.
  eapply R_trans; [exact Hc | apply Hh].
Qed.

Lemma keeps_when (b : bool) (c : M S unit) : keeps R c -> keeps R (when b c).
Proof. intros Hc. destruct b; simpl; [exact Hc | apply keeps_ret]. Qed.

Lemma keeps_if {A} (b : bool) (c1 c2 : M S A) :
  keeps R c1 -> keeps R c2 -> keeps R (if b then c1 else c2).
Proof. destruct b; auto. Qed.
End Keeps.

Lemma same_link_refl d : same_link d d.
Proof. repeat split. Qed.

Lemma same_link_trans a b c : same_link a b -> same_link b c -> same_link a c.
Proof.
  unfold same_link. intros H1 H2.
  decompose [and] H1. decompose [and] H2. repeat split; congruence.
Qed.

Lemma print_same_link l : keeps same_link (print l).
Proof. intros d. repeat split. Qed.

Lemma sleep_same_link n : keeps same_link (sleep_ms n).
Proof. intros d. repeat split. Qed.

Lemma AUX_value_same_link : keeps same_link AUX_value.
Proof. intros d. unfold AUX_value. destruct (AUX d); repeat split. Qed.

Lemma serdev_read_same_link : keeps same_link serdev_read.
Proof.
  intros d. unfold serdev_read.
  destruct (serdev d); [ | repeat split].
  destruct (rx d) as [ | [b | ] rest]; repeat split.
Qed.

(** Decomposes a goal [keeps R c] along the structure of [c]; [base]
    closes the goals about the primitives. *)
Ltac keeps_with Rrefl Rtrans base :=
  repeat first
    [ apply (keeps_ret _ Rrefl) | apply (keeps_raise _ Rrefl)
    | apply (keeps_lift _ Rrefl) | apply (keeps_get _ Rrefl)
    | apply (keeps_bind _ Rtrans) | apply (keeps_try _ Rtrans)
    | apply (keeps_when _ Rrefl)
    | match goal with |- forall _, _ => intro end
    | match goal with |- keeps _ (if _ then _ else _) => apply keeps_if end
    | base ].

Create HintDb link discriminated.
#[local] Hint Resolve print_same_link sleep_same_link AUX_value_same_link
  serdev_read_same_link : link.

Ltac keeps_link :=
  keeps_with same_link_refl same_link_trans ltac:(solve [auto with link]).

Lemma when_debug_print_same_link l : keeps same_link (when_debug (print l)).
Proof. unfold when_debug. keeps_link. Qed.
#[local] Hint Resolve when_debug_print_same_link : link.

(** ** The idle wait *)

(** Reduces the projections of an updated driver, and nothing else. *)
Ltac fields :=
  cbn [config debug M0 M1 AUX serdev aux_line aux_reads rx tx snapshot console slept_ms
       with_config with_M0 with_M1 with_AUX with_serdev with_aux_reads with_rx with_tx
       with_snapshot with_console with_slept_ms fst snd negb] in *.

Lemma wait_loop_bound (fuel : nat) :
  forall (count : Z) (d : driver),
    0 <= count < 10 -> (Z.to_nat (10 - count) <= fuel)%nat ->
    exists r d',
      wait_loop fuel count d = (r, d')
      /\ r <> OutOfFuel
      /\ (AUX d = true -> r = Ret tt)
      /\ (aux_reads d <= aux_reads d' <= aux_reads d + Z.to_nat (10 - count))%nat
      /\ slept_ms d <= slept_ms d' <= slept_ms d + 10 * (9 - count)
      /\ same_link d d'
      /\ wait_loop (Z.to_nat (10 - count)) count d = (r, d').
Proof.
  induction fuel as [ | fuel IH]; intros count d Hc Hf; [lia | ].
  assert (Hn : Z.to_nat (10 - count) = S (Z.to_nat (10 - (count + 1)))) by lia.
  rewrite Hn. cbn [wait_loop]. unfold bind, AUX_value.
  destruct (AUX d) eqn:Haux.
  - destruct (aux_line d (aux_reads d)) eqn:Hline; cbn [negb].
    + eexists _, _. split; [reflexivity | ].
      unfold ret, same_link; fields.
      repeat split; try discriminate; try lia.
    + destruct (count + 1 =? 10) eqn:Hten.
      * eexists _, _. split; [reflexivity | ].
        unfold ret, same_link; fields.
        repeat split; try discriminate; try lia.
      * apply Z.eqb_neq in Hten. unfold sleep_ms, modify.
        match goal with |- context [wait_loop fuel (count + 1) ?x] => set (d1 := x) end.
        destruct (IH (count + 1) d1) as (r & d' & Hrun & Hr & Hret & Hreads & Hslept & Hsame & Hmin);
          [lia | lia | ].
        exists r, d'. rewrite Hrun, Hmin.
        split; [reflexivity | ].
        split; [exact Hr | ].
        split; [intros _; apply Hret; exact Haux | ].
        subst d1; unfold same_link in *; fields.
        split; [lia | ].
        split; [lia | ].
        split; [exact Hsame | reflexivity].
  - eexists _, _. split; [reflexivity | ].
    unfold same_link; fields.
    repeat split; try discriminate; try lia.
Qed.

(** C6.  With fuel for 10 iterations or more, [waitForDeviceIdle] ends,
    whatever levels the AUX line shows: it has read the line at most 10
    times and slept at most 90 ms, it has returned normally when the AUX
    pin is bound, and more fuel changes nothing. *)
Theorem waitForDeviceIdle_terminates (fuel : nat) (d : driver) :
  (10 <= fuel)%nat ->
  exists r d',
    waitForDeviceIdle fuel d = (r, d')
    /\ r <> OutOfFuel
    /\ (AUX d = true -> r = Ret tt)
    /\ (aux_reads d <= aux_reads d' <= aux_reads d + 10)%nat
    /\ slept_ms d <= slept_ms d' <= slept_ms d + 90
    /\ waitForDeviceIdle 10 d = (r, d').
Proof.
  intros Hf. unfold waitForDeviceIdle.
  destruct (wait_loop_bound fuel 0 d) as (r & d' & Hrun & Hr & Hret & Hreads & Hslept & _ & Hmin);
    [lia | simpl; lia | ].
  exists r, d'. change (Z.to_nat (10 - 0)) with 10%nat in *.
  repeat split; auto; lia.
Qed.

(** The theorem for a line that never goes high, with fuel to spare. *)
Lemma waitForDeviceIdle_never_idle_witness :
  exists r d',
    waitForDeviceIdle 12
      (mkDriver default_config false (Some 1) (Some 0) true true (fun _ => false) 0 [] [] None [] 0)
    = (r, d')
    /\ r <> OutOfFuel.
Proof.
  destruct (waitForDeviceIdle_terminates 12
              (mkDriver default_config false (Some 1) (Some 0) true true (fun _ => false) 0 [] [] None [] 0))
    as (r & d' & Hrun & Hr & _); [lia | ].
  exists r, d'. split; assumption.
Defined.

Example never_idle_reads_ten_times :
  let d := mkDriver default_config false (Some 1) (Some 0) true true (fun _ => false) 0 [] [] None [] 0 in
  waitForDeviceIdle 10 d = (Ret tt, with_slept_ms 90 (with_aux_reads 10%nat d)).
Proof. reflexivity. Qed.

Example idle_at_third_read :
  let d := mkDriver default_config false (Some 1) (Some 0) true true (fun n => Nat.eqb n 2) 0 [] [] None [] 0 in
  waitForDeviceIdle 10 d = (Ret tt, with_slept_ms 20 (with_aux_reads 3%nat d)).
Proof. reflexivity. Qed.

(** ** The frequency clamp *)

(** What [calcFrequency] does for a model whose band is in [FREQ] and an
    integer channel. *)
Lemma calcFrequency_spec (c : Config) (key lo mid hi ch : Z) :
  py_int (split_head "T" (model c)) = Ok key ->
  dict_getZ FREQ key = Some [lo; mid; hi] ->
  channel c = PInt ch ->
  calcFrequency c
  = (Ret tt,
     if lo + ch >? hi
     then set_channel (PStr (py_hex (hi - lo))) (set_frequency hi c)
     else set_frequency (lo + ch) c).
Proof.
  intros Hkey Hband Hch.
  unfold calcFrequency, bind, get, lift, modify.
  rewrite Hkey, Hband, Hch. cbn [nth_error as_index].
  destruct (lo + ch >? hi); reflexivity.
Qed.

Lemma calcFrequency_in_band (c : Config) (key lo mid hi ch : Z) :
  py_int (split_head "T" (model c)) = Ok key ->
  dict_getZ FREQ key = Some [lo; mid; hi] ->
  channel c = PInt ch ->
  lo + ch <= hi ->
  calcFrequency c = (Ret tt, set_frequency (lo + ch) c).
Proof.
  intros Hkey Hband Hch Hle.
  rewrite (calcFrequency_spec c key lo mid hi ch) by assumption.
  destruct (Z.gtb_spec (lo + ch) hi); [lia | reflexivity].
Qed.

(** C5.  On the 170 MHz model (band 160 to 173) with channel 14, a
    channel of the documented range, 160 + 14 is past the band:
    [calcFrequency] sets the frequency to 173 and stores in [channel] the
    text ['0xd'], the hexadecimal spelling of the offset 173 - 160 = 13,
    and not the number 13. *)
Theorem calcFrequency_clamp_stores_hex_text :
  let c := mkConfig "170T20D" "U1" (PInt 9600) (PStr "8N1") (PStr "2.4k") 0 (PInt 14)
                    0 0 0 0 0 0 in
  exists c',
    calcFrequency c = (Ret tt, c')
    /\ frequency c' = 173
    /\ channel c' = PStr "0xd"
    /\ channel c' <> PInt (173 - 160).
Proof.
  intros c.
  exists (set_channel (PStr "0xd") (set_frequency 173 c)).
  split; [vm_compute; reflexivity | ].
  repeat split. discriminate.
Qed.

(** The driver built with those parameters: the channel is not a byte
    any more, [start] fails on the comparison of the channel with 31 and
    binds nothing, and the display of the configuration fails on the
    format of the channel. *)
Example clamped_channel_breaks_start :
  exists d,
    init "170T20D" "U1" (PInt 9600) (PStr "8N1") (PStr "2.4k") 0 (PInt 14) false
         (fun _ => true) [] = Ret d
    /\ channel (config d) = PStr "0xd"
    /\ to_byte (channel (config d)) = Err TypeError
    /\ fst (start d) = Ret "NOK" /\ serdev (snd (start d)) = false
    /\ fst (showConfig d) = Raise TypeError.
Proof.
  exists (mkDriver (mkConfig "170T20D" "U1" (PInt 9600) (PStr "8N1") (PStr "2.4k") 0
                             (PStr "0xd") 173 0 1 0 1 0)
                   false None None false false (fun _ => true) 0 [] [] None [] 0).
  repeat split.
Qed.

(** ** The register codec *)

(** The bytes [bytes(...)] makes of a list of integers are those
    integers. *)
Lemma py_bytes_values (zs : list Z) :
  forall b, py_bytes (map PInt zs) = Ok b -> map byte_val b = zs.
Proof.
  induction zs as [ | z zs IH]; intros b Hb; cbn [map py_bytes] in Hb.
  - injection Hb as <-. reflexivity.
  - unfold to_byte in Hb. cbn [as_index obind] in Hb.
    destruct ((0 <=? z) && (z <? 256)) eqn:Hrange; [ | discriminate].
    apply andb_prop in Hrange. destruct Hrange as (Hlo & Hhi).
    apply Z.leb_le in Hlo. apply Z.ltb_lt in Hhi.
    destruct (Byte.of_N (Z.to_N z)) as [x | ] eqn:Hx; [ | discriminate].
    cbn [obind] in Hb.
    destruct (py_bytes (map PInt zs)) as [bs | e] eqn:Hbs; [ | discriminate].
    cbn [obind] in Hb. injection Hb as <-.
    cbn [map]. rewrite (IH bs eq_refl). f_equal.
    unfold byte_val. apply Byte.to_of_N in Hx. rewrite Hx. lia.
Qed.

(** The string [encodeConfig] builds for the speed byte of a valid
    configuration, the number it denotes, and what is decoded from that
    number. *)
Lemma speed_byte_round_trip (p b r : pyval) :
  In p (map (fun kv => PStr (fst kv)) PARSTR) ->
  In b (map (fun kv => PInt (fst kv)) BAUDRATE) ->
  In r (map (fun kv => PStr (fst kv)) DATARATE) ->
  exists bits s,
    obind (append_str "0b" (get_by_str PARSTR p)) (fun bits =>
    obind (append_str bits (get_by_int BAUDRATE b)) (fun bits =>
    append_str bits (get_by_str DATARATE r))) = Ok bits
    /\ literal bits = Ok s
    /\ s = 64 * code_of (get_by_str PARSTR p) + 8 * code_of (get_by_int BAUDRATE b)
           + code_of (get_by_str DATARATE r)
    /\ 0 <= s < 256
    /\ opt_str (dict_get PARINV (slice 0 2 (format_b 8 s))) = p
    /\ opt_int (dict_get BAUDRINV (slice 2 5 (format_b 8 s))) = b
    /\ opt_str (dict_get DATARINV (slice_from 5 (format_b 8 s))) = r.
Proof.
  intros Hp Hb Hr. cbn [map PARSTR BAUDRATE DATARATE fst In] in Hp, Hb, Hr.
  repeat (destruct Hp as [<- | Hp]; [ | ]); try contradiction;
    repeat (destruct Hb as [<- | Hb]; [ | ]); try contradiction;
    repeat (destruct Hr as [<- | Hr]; [ | ]); try contradiction.
  all: eexists _, _; split; [vm_compute; reflexivity | ].
  all: split; [vm_compute; reflexivity | ].
  all: split; [vm_compute; reflexivity | ].
  all: split; [lia | vm_compute; repeat split].
Qed.

Lemma small_cases_1 z : 0 <= z <= 1 -> z = 0 \/ z = 1.
Proof. lia. Qed.

Lemma small_cases_3 z : 0 <= z <= 3 -> z = 0 \/ z = 1 \/ z = 2 \/ z = 3.
Proof. lia. Qed.

Lemma small_cases_7 z :
  0 <= z <= 7 -> z = 0 \/ z = 1 \/ z = 2 \/ z = 3 \/ z = 4 \/ z = 5 \/ z = 6 \/ z = 7.
Proof. lia. Qed.

(** The string built for the option byte of a valid configuration, the
    number it denotes, and what is decoded from that number: the one-bit
    fields come back, the wake-up time and the power come back as the
    decimal reading of their bits. *)
Lemma option_byte_round_trip (t i w f x : Z) :
  0 <= t <= 1 -> 0 <= i <= 1 -> 0 <= w <= 7 -> 0 <= f <= 1 -> 0 <= x <= 3 ->
  let o := 128 * t + 64 * i + 8 * w + 4 * f + x in
  literal ("0b" ++ py_str_int t ++ py_str_int i ++ format_b 3 w ++ py_str_int f ++ format_b 2 x)
  = Ok o
  /\ 0 <= o < 256
  /\ py_int (slice 0 1 (format_b 8 o)) = Ok t
  /\ py_int (slice 1 2 (format_b 8 o)) = Ok i
  /\ py_int (slice 2 5 (format_b 8 o)) = Ok (bits_read_as_decimal w)
  /\ py_int (slice 5 6 (format_b 8 o)) = Ok f
  /\ py_int (slice_from 6 (format_b 8 o)) = Ok (bits_read_as_decimal x).
Proof.
  intros Ht Hi Hw Hf Hx.
  apply small_cases_1 in Ht, Hi, Hf. apply small_cases_7 in Hw. apply small_cases_3 in Hx.
  destruct Ht as [-> | ->]; destruct Hi as [-> | ->]; destruct Hf as [-> | ->];
    destruct Hx as [-> | [-> | [-> | ->]]];
    destruct Hw as [-> | [-> | [-> | [-> | [-> | [-> | [-> | ->]]]]]]];
    (split; [vm_compute; reflexivity | split; [lia | vm_compute; repeat split]]).
Qed.

(** [decodeConfig] on a list of six integers. *)
Lemma decodeConfig_list (h hi lo s ch o : Z) (c0 : Config) (t i w f x : Z) :
  py_int (slice 0 1 (format_b 8 o)) = Ok t ->
  py_int (slice 1 2 (format_b 8 o)) = Ok i ->
  py_int (slice 2 5 (format_b 8 o)) = Ok w ->
  py_int (slice 5 6 (format_b 8 o)) = Ok f ->
  py_int (slice_from 6 (format_b 8 o)) = Ok x ->
  decodeConfig (PList [PInt h; PInt hi; PInt lo; PInt s; PInt ch; PInt o]) c0
  = (Ret tt,
     mkConfig (model c0) (port c0)
              (opt_int (dict_get BAUDRINV (slice 2 5 (format_b 8 s))))
              (opt_str (dict_get PARINV (slice 0 2 (format_b 8 s))))
              (opt_str (dict_get DATARINV (slice_from 5 (format_b 8 s))))
              (hi * 256 + lo) (PInt ch) (frequency c0) t i w f x).
Proof.
  intros Ht Hi Hw Hf Hx.
  unfold decodeConfig, int_at, bits_at.
  cbn [py_index nth_error obind py_int_of as_index].
  unfold bind, lift, modify. rewrite Ht, Hi, Hw, Hf, Hx. reflexivity.
Qed.

(** Bytes are decoded as the list of their values is. *)
Lemma decodeConfig_bytes (b : list byte) (c0 : Config) :
  decodeConfig (PBytes b) c0 = decodeConfig (PList (map (fun x => PInt (byte_val x)) b)) c0.
Proof.
  assert (Hidx : forall n, py_index (PBytes b) n
                           = py_index (PList (map (fun x => PInt (byte_val x)) b)) n).
  { intros n. cbn [py_index]. rewrite nth_error_map.
    destruct (nth_error b n); reflexivity. }
  unfold decodeConfig, int_at, bits_at. rewrite !Hidx. reflexivity.
Qed.

Lemma py_bytes_in_range (zs : list Z) :
  Forall (fun z => 0 <= z < 256) zs -> exists b, py_bytes (map PInt zs) = Ok b.
Proof.
  induction 1 as [ | z zs Hz _ (b & Hb)]; cbn [map py_bytes].
  - eexists. reflexivity.
  - unfold to_byte. cbn [as_index obind].
    destruct (Z.leb_spec 0 z); [ | lia]. destruct (Z.ltb_spec z 256); [ | lia].
    cbn [andb].
    destruct (Byte.of_N (Z.to_N z)) as [x | ] eqn:Hx.
    + rewrite Hb. cbn [obind]. eexists. reflexivity.
    + apply Byte.of_N_None_iff in Hx. lia.
Qed.

(** A wake-up time above 1 and a power above 1 never come back. *)
Lemma bits_read_as_decimal_fixed (n : Z) :
  0 <= n <= 7 -> (bits_read_as_decimal n = n <-> n <= 1).
Proof.
  intros Hn. apply small_cases_7 in Hn.
  destruct Hn as [-> | [-> | [-> | [-> | [-> | [-> | [-> | ->]]]]]]]; vm_compute;
    split; intros H; try discriminate; try reflexivity; try (exfalso; apply H; reflexivity).
Qed.

(** X1.  [decodeConfig] against the layout of [encodeConfig].  For
    every configuration of the enumerated domains, the two strings
    [encodeConfig] builds are binary literals of numbers below 256, the
    speed byte 64 * parity + 8 * baud rate + air data rate and the option
    byte 128 * transmission mode + 64 * IO mode + 8 * wake-up time + 4 *
    FEC + power.  From a register that holds those two bytes, the address
    and the channel, [decodeConfig] restores the address, the channel, the
    parity, the baud rate, the air data rate, the transmission mode, the IO
    mode and the error correction flag; the wake-up time and the power come
    back as the decimal reading of their bits, which is the value itself
    only for 0 and 1. *)
Theorem decodeConfig_inverts_layout (c : Config) :
  valid_config c ->
  exists s o,
    obind (speed_bits c) literal = Ok s /\ literal (option_bits c) = Ok o
    /\ s = 64 * code_of (get_by_str PARSTR (parity c))
           + 8 * code_of (get_by_int BAUDRATE (baudrate c))
           + code_of (get_by_str DATARATE (datarate c))
    /\ o = 128 * transmode c + 64 * iomode c + 8 * wutime c + 4 * fec c + txpower c
    /\ 0 <= s < 256 /\ 0 <= o < 256
    /\ forall (b0 b1 b2 b3 b4 b5 : byte) (c0 : Config),
         map byte_val [b1; b2; b3; b5] = [address c / 256; address c mod 256; s; o] ->
         channel c = PInt (byte_val b4) ->
         exists c',
           decodeConfig (PBytes [b0; b1; b2; b3; b4; b5]) c0 = (Ret tt, c')
           /\ address c' = address c /\ channel c' = channel c
           /\ parity c' = parity c /\ baudrate c' = baudrate c /\ datarate c' = datarate c
           /\ transmode c' = transmode c /\ iomode c' = iomode c /\ fec c' = fec c
           /\ wutime c' = bits_read_as_decimal (wutime c)
           /\ txpower c' = bits_read_as_decimal (txpower c)
           /\ (wutime c' = wutime c <-> wutime c <= 1)
           /\ (txpower c' = txpower c <-> txpower c <= 1).
Proof.
  intros (Ha & (ch & Hch & Hchr) & Hp & Hb & Hr & Ht & Hi & Hw & Hf & Hx).
  destruct (speed_byte_round_trip _ _ _ Hp Hb Hr)
    as (bits & s & Hbits & Hs & Hcode & Hsr & Hsp & Hsb & Hsd).
  destruct (option_byte_round_trip _ _ _ _ _ Ht Hi Hw Hf Hx)
    as (Ho & Hor & Hot & Hoi & How & Hof & Hox).
  exists s, (128 * transmode c + 64 * iomode c + 8 * wutime c + 4 * fec c + txpower c).
  split; [unfold speed_bits; rewrite Hbits; exact Hs | ].
  split; [exact Ho | ]. split; [exact Hcode | ]. split; [reflexivity | ].
  split; [exact Hsr | ]. split; [exact Hor | ].
  intros b0 b1 b2 b3 b4 b5 c0 Hvals Hb4.
  cbn [map] in Hvals. injection Hvals as H1 H2 H3 H5.
  rewrite decodeConfig_bytes. cbn [map]. rewrite H1, H2, H3, H5.
  rewrite (decodeConfig_list _ _ _ _ _ _ c0 _ _ _ _ _ Hot Hoi How Hof Hox).
  eexists. split; [reflexivity | ].
  cbn [address channel parity baudrate datarate transmode iomode fec wutime txpower].
  repeat split; auto.
  - rewrite Z.mul_comm. symmetry. apply Z.div_mod. lia.
  - apply bits_read_as_decimal_fixed. lia.
  - apply bits_read_as_decimal_fixed. lia.
  - apply bits_read_as_decimal_fixed. lia.
  - apply bits_read_as_decimal_fixed. lia.
Qed.

Lemma decodeConfig_inverts_layout_witness :
  exists c',
    decodeConfig (PBytes [xc0; x12; x34; x1a; x06; x57]) default_config = (Ret tt, c')
    /\ address c' = 0x1234 /\ wutime c' = 10 /\ txpower c' = 11.
Proof.
  destruct (decodeConfig_inverts_layout
              (set_txpower 3 (set_wutime 2 (set_address 0x1234 default_config))))
    as (s & o & Hs & Ho & _ & _ & _ & _ & Hdec).
  - unfold valid_config. cbn. repeat split; try lia; auto 12.
    exists 6. split; [reflexivity | lia].
  - vm_compute in Hs. injection Hs as <-. vm_compute in Ho. injection Ho as <-.
    destruct (Hdec xc0 x12 x34 x1a x06 x57 default_config eq_refl eq_refl)
      as (c' & Hrun & Haddr & _ & _ & _ & _ & _ & _ & _ & Hw & Hx & _).
    exists c'. repeat split; assumption.
Defined.

(** [int] refuses the strings [encodeConfig] gives it. *)
Lemma py_int_prefixed (s : string) : py_int ("0b" ++ s) = Err ValueError.
Proof. reflexivity. Qed.

Lemma speed_bits_prefixed (c : Config) (bits : string) :
  speed_bits c = Ok bits -> exists s, bits = "0b" ++ s.
Proof.
  unfold speed_bits.
  destruct (get_by_str PARSTR (parity c)) as [p | ]; cbn [append_str obind]; [ | discriminate].
  destruct (get_by_int BAUDRATE (baudrate c)) as [b | ]; cbn [append_str obind]; [ | discriminate].
  destruct (get_by_str DATARATE (datarate c)) as [r | ]; cbn [append_str obind]; [ | discriminate].
  intros H. injection H as <-. exists ((p ++ b) ++ r). reflexivity.
Qed.

(** [speed_bits] fails exactly when a setting is not a key of its
    table. *)
Lemma speed_bits_outcome (c : Config) :
  (exists bits, speed_bits c = Ok bits
                /\ missing (get_by_str PARSTR (parity c)) = false
                /\ missing (get_by_int BAUDRATE (baudrate c)) = false
                /\ missing (get_by_str DATARATE (datarate c)) = false)
  \/ (speed_bits c = Err TypeError
      /\ (missing (get_by_str PARSTR (parity c)) = true
          \/ missing (get_by_int BAUDRATE (baudrate c)) = true
          \/ missing (get_by_str DATARATE (datarate c)) = true)).
Proof.
  unfold speed_bits.
  destruct (get_by_str PARSTR (parity c)) as [p | ]; cbn [append_str obind missing]; [ | auto].
  destruct (get_by_int BAUDRATE (baudrate c)) as [b | ]; cbn [append_str obind missing];
    [ | auto].
  destruct (get_by_str DATARATE (datarate c)) as [r | ]; cbn [append_str obind missing];
    [ | auto].
  left. eexists. repeat split.
Qed.

(** [encodeConfig] raises, whatever the configuration. *)
Lemma encodeConfig_raises (c : Config) :
  encodeConfig c
  = Err (if missing (get_by_str PARSTR (parity c))
            || missing (get_by_int BAUDRATE (baudrate c))
            || missing (get_by_str DATARATE (datarate c))
         then TypeError else ValueError).
Proof.
  unfold encodeConfig.
  destruct (speed_bits_outcome c) as [(bits & Hbits & -> & -> & ->) | (Hbits & Hcase)].
  - destruct (speed_bits_prefixed c bits Hbits) as (s & ->).
    rewrite Hbits. cbn [obind orb]. rewrite py_int_prefixed. reflexivity.
  - rewrite Hbits. cbn [obind].
    destruct Hcase as [-> | [-> | ->]]; rewrite ?orb_true_r; reflexivity.
Qed.

(** C1.  The configuration with wake-up time 2 and transmission power 3
    (the other fields as the constructor sets them) lies in the enumerated
    domains and does not come back.  [encodeConfig] builds the strings
    ['0b00011010'] and ['0b01010111'], the binary literals of 0x1A and
    0x57, and raises [ValueError] on [int] of the first: there are no six
    bytes to decode.  And [decodeConfig] on the register C0 00 00 1A 06 57
    those strings spell yields wake-up time 10 and transmission power 11,
    the bit groups ['010'] and ['11'] read as decimal numbers. *)
Theorem decode_encode_wutime_txpower :
  let c := set_txpower 3 (set_wutime 2 default_config) in
  valid_config c
  /\ speed_bits c = Ok "0b00011010" /\ literal "0b00011010" = Ok 0x1A
  /\ option_bits c = "0b01010111" /\ literal "0b01010111" = Ok 0x57
  /\ encodeConfig c = Err ValueError
  /\ decodeConfig (PBytes [xc0; x00; x00; x1a; x06; x57]) c
     = (Ret tt, set_txpower 11 (set_wutime 10 c))
  /\ decodeConfig (PList [PInt 0xC0; PInt 0; PInt 0; PInt 0x1A; PInt 6; PInt 0x57]) c
     = (Ret tt, set_txpower 11 (set_wutime 10 c))
  /\ wutime (set_txpower 11 (set_wutime 10 c)) <> wutime c
  /\ txpower (set_txpower 11 (set_wutime 10 c)) <> txpower c.
Proof.
  split.
  { unfold valid_config. cbn. repeat split; try lia; auto 12.
    exists 6. split; [reflexivity | lia]. }
  repeat split; try reflexivity; simpl; discriminate.
Qed.

(** ** Running the driver's blocks symbolically *)

(** Unfolds the plumbing of a block applied to a state. *)
Ltac run :=
  repeat (progress (
    unfold bind, ret, raise, lift, get, modify, try_except, when, when_debug, print, sleep_ms,
      serdev_write, serdev_read, M0_value, M1_value, AUX_value, on_config,
      saveConfigToJson in *;
    cbv beta iota zeta in *;
    fields)).

(** Case analysis on the innermost [match] or [if] the goal is stuck on. *)
Ltac break_match :=
  match goal with
  | |- context [match ?x with _ => _ end] =>
      lazymatch x with
      | context [match _ with _ => _ end] => fail
      | _ => destruct x eqn:?
      end
  | |- context [if ?x then _ else _] =>
      lazymatch x with
      | context [match _ with _ => _ end] => fail
      | _ => destruct x eqn:?
      end
  end.

Lemma bind_run {S A B} (c : M S A) (k : A -> M S B) (s : S) :
  bind c k s
  = match c s with
    | (Ret a, s') => k a s'
    | (Raise e, s') => (Raise e, s')
    | (OutOfFuel, s') => (OutOfFuel, s')
    end.
Proof. reflexivity. Qed.

Lemma try_run {S A} (c : M S A) (h : exn -> M S A) (s : S) :
  try_except c h s
  = match c s with
    | (Raise e, s') => h e s'
    | r => r
    end.
Proof. reflexivity. Qed.

Ltac operation_mode bits :=
  let d := fresh "d" in
  intros d; unfold setOperationMode, set_pins;
  match goal with |- context [dict_get OPERMODE ?m] =>
    change (dict_get OPERMODE m) with (Some bits) end;
  cbv zeta; cbv iota;
  match goal with |- context [int_at (PStr bits) 0] =>
    let v := eval vm_compute in (int_at (PStr bits) 0) in
    change (int_at (PStr bits) 0) with v end;
  match goal with |- context [int_at (PStr bits) 1] =>
    let v := eval vm_compute in (int_at (PStr bits) 1) in
    change (int_at (PStr bits) 1) with v end;
  run;
  destruct (M0 d); run; [ | reflexivity];
  destruct (M1 d); run; reflexivity.

Lemma setOperationMode_sleep : forall d, setOperationMode "sleep" d = set_pins 1 1 d.
Proof. operation_mode "11". Qed.

Lemma setOperationMode_wakeup : forall d, setOperationMode "wakeup" d = set_pins 1 0 d.
Proof. operation_mode "10". Qed.

Lemma setOperationMode_normal : forall d, setOperationMode "normal" d = set_pins 0 0 d.
Proof. operation_mode "00". Qed.

(** [sendCommand] always returns, leaves the configuration, the debug
    flag and the snapshot alone, and writes at most one command. *)
Lemma sendCommand_effect (cmd : string) (d : driver) :
  exists v d',
    sendCommand cmd d = (Ret v, d')
    /\ config d' = config d /\ debug d' = debug d /\ snapshot d' = snapshot d
    /\ at_most_one_command d d'
    /\ is_response v.
Proof.
  unfold sendCommand, at_most_one_command, is_response. rewrite try_run, bind_run.
  rewrite setOperationMode_sleep. unfold set_pins.
  repeat (break_match; run).
  all: eexists _, _; (split; [reflexivity | ]); run.
  all: repeat split; try congruence.
  all: try (first [left; reflexivity | right; eexists; reflexivity]).
  all: eauto 6.
Qed.

(** ** Blocks without loops end *)

Section Terminates.
Context {S : Type}.

Lemma terminates_ret {A} (a : A) : terminates (@ret S A a).
Proof. intros s. discriminate. Qed.

Lemma terminates_lift {A} (o : result A) : terminates (@lift S A o).
Proof. intros s. destruct o; discriminate. Qed.

Lemma terminates_get : terminates (@get S).
Proof. intros s. discriminate. Qed.

Lemma terminates_modify (f : S -> S) : terminates (modify f).
Proof. intros s. discriminate. Qed.

Lemma terminates_bind {A B} (c : M S A) (k : A -> M S B) :
  terminates c -> (forall a, terminates (k a)) -> terminates (bind c k).
Proof.
  intros Hc Hk s. unfold bind. specialize (Hc s).
  destruct (c s) as [[a | e | ] s']; simpl in *; [apply Hk | discriminate | congruence].
Qed.

Lemma terminates_try {A} (c : M S A) (h : exn -> M S A) :
  terminates c -> (forall e, terminates (h e)) -> terminates (try_except c h).
Proof.
  intros Hc Hh s. unfold try_except. specialize (Hc s).
  destruct (c s) as [[a | e | ] s']; simpl in *; [discriminate | apply Hh | congruence].
Qed.

Lemma terminates_when (b : bool) (c : M S unit) : terminates c -> terminates (when b c).
Proof. intros Hc. destruct b; simpl; [exact Hc | apply terminates_ret]. Qed.

Lemma terminates_if {A} (b : bool) (c1 c2 : M S A) :
  terminates c1 -> terminates c2 -> terminates (if b then c1 else c2).
Proof. destruct b; auto. Qed.
End Terminates.

Ltac ends :=
  repeat first
    [ apply terminates_ret | apply terminates_lift | apply terminates_get
    | apply terminates_modify | apply terminates_bind | apply terminates_try
    | apply terminates_when
    | match goal with |- forall _, _ => intro end
    | match goal with |- terminates (if _ then _ else _) => apply terminates_if end ].

Lemma decodeConfig_terminates message : terminates (decodeConfig message).
Proof. unfold decodeConfig. ends. Qed.

Lemma calcFrequency_terminates : terminates calcFrequency.
Proof. unfold calcFrequency. ends. Qed.

Lemma showConfig_terminates : terminates showConfig.
Proof. unfold showConfig, print. ends. Qed.

Lemma showConfig_same_link : keeps same_link showConfig.
Proof. unfold showConfig. keeps_link. Qed.

(** ** [setConfig] *)

(** What is known of the state [sendCommand] reaches. *)
Lemma sendCommand_result (cmd : string) (d d1 : driver) (v : pyval) :
  sendCommand cmd d = (Ret v, d1) ->
  config d1 = config d /\ debug d1 = debug d /\ snapshot d1 = snapshot d
  /\ at_most_one_command d d1 /\ is_response v.
Proof.
  intros Hrun.
  destruct (sendCommand_effect cmd d) as (v' & d' & Hrun' & H).
  rewrite Hrun in Hrun'. injection Hrun' as -> ->. exact H.
Qed.

(** ** [getVersion] *)

Lemma length_4 {A} (l : list A) :
  Z.of_nat (List.length l) = 4 -> exists a b c e, l = [a; b; c; e].
Proof.
  intros H.
  destruct l as [ | a [ | b [ | c [ | e [ | f l]]]]]; cbn [List.length] in H; try lia.
  now exists a, b, c, e.
Qed.

(** C8.  Relative to the response [sendCommand] returned, [getVersion]
    returns ["OK"] or ["NOK"] and leaves the configuration and the
    snapshot as they were.  It returns ["NOK"] when the response is not 4
    long, and ["OK"] only for a response 4 long.  For 4 bytes whose first
    is not 0xC3 it returns ["OK"] and prints nothing; for 4 bytes whose
    first is 0xC3 it returns ["OK"] exactly when the second is a code of
    the [FREQV] table. *)
Theorem getVersion_contract (d d1 : driver) (response : pyval) :
  sendCommand "getVersion" d = (Ret response, d1) ->
  exists r d',
    getVersion d = (Ret r, d')
    /\ (r = "OK" \/ r = "NOK")
    /\ config d' = config d /\ snapshot d' = snapshot d
    /\ (py_len response <> Ok 4 -> r = "NOK")
    /\ (r = "OK" -> py_len response = Ok 4)
    /\ (forall b0 b1 b2 b3,
          response = PBytes [b0; b1; b2; b3] -> byte_val b0 <> 0xC3 ->
          r = "OK" /\ console d' = console d1)
    /\ (forall b0 b1 b2 b3,
          response = PBytes [b0; b1; b2; b3] -> byte_val b0 = 0xC3 ->
          (r = "OK" <-> dict_get FREQV (py_hex (byte_val b1)) <> None)).
Proof.
  intros Hrun.
  destruct (sendCommand_result _ _ _ _ Hrun) as (Hcfg & Hdbg & Hsnap & _ & Hshape).
  unfold getVersion. rewrite try_run, bind_run, Hrun, bind_run.
  destruct Hshape as [-> | [(b & ->) | [-> | ->]]].
  - (* nothing was read *)
    cbn [py_len]. run. destruct (debug d1); run.
    all: eexists _, _; split; [reflexivity | ]; run.
    all: repeat split; auto; try discriminate; try (intros; discriminate).
  - (* bytes *)
    cbn [py_len]. run.
    destruct (Z.of_nat (List.length b) =? 4) eqn:H4; run.
    + apply Z.eqb_eq in H4. destruct (length_4 b H4) as (b0 & b1 & b2 & b3 & ->).
      cbn [py_index nth_error obind as_index py_eq_int]. run.
      destruct (byte_val b0 =? 195) eqn:Hc3; run.
      * apply Z.eqb_eq in Hc3.
        destruct (dict_get FREQV (py_hex (byte_val b1))) as [f | ] eqn:Hf;
          cbn [percent_d obind as_index]; run.
        -- eexists _, _; split; [reflexivity | ]; run.
           repeat split; auto; try discriminate; try congruence.
           all: try (intros ? ? ? ? Heq Hne; injection Heq as <- <- <- <-; contradiction).
           all: try (intros ? ? ? ? Heq _ Hok; injection Heq as <- <- <- <-; congruence).
        -- destruct (debug d1); run.
           all: eexists _, _; split; [reflexivity | ]; run.
           all: repeat split; auto; try discriminate; try congruence.
           all: try (intros ? ? ? ? Heq Hne; injection Heq as <- <- <- <-; contradiction).
           all: try (intros ? ? ? ? Heq _ Hok; injection Heq as <- <- <- <-; congruence).
      * apply Z.eqb_neq in Hc3.
        eexists _, _; split; [reflexivity | ]; run.
        repeat split; auto; try discriminate; try congruence.
        all: try (intros ? ? ? ? Heq Hne; injection Heq as <- <- <- <-; contradiction).
    + apply Z.eqb_neq in H4.
      eexists _, _; split; [reflexivity | ]; run.
      repeat split; auto; try discriminate.
      all: exfalso;
        match goal with Heq : PBytes _ = PBytes _ |- _ => injection Heq as -> end;
        apply H4; reflexivity.
  - (* the empty string *)
    cbn [py_len String.length]. run.
    eexists _, _; split; [reflexivity | ]; run.
    repeat split; auto; try discriminate; try (intros; discriminate).
  - (* the string the command channel returns on an error *)
    cbn [py_len String.length]. run.
    eexists _, _; split; [reflexivity | ]; run.
    repeat split; auto; try discriminate; try (intros; discriminate).
Qed.

(** ** Changing the transmission mode *)

(** [setConfig] always returns, keeps the debug flag, writes at most one
    command, and with the debug flag off leaves the configuration alone. *)
Lemma setConfig_effect (save_cmd : string) (d : driver) :
  exists r d',
    setConfig save_cmd d = (Ret r, d')
    /\ debug d' = debug d
    /\ at_most_one_command d d'
    /\ (debug d = false -> config d' = config d).
Proof.
  destruct (sendCommand_effect save_cmd d) as (v & d1 & Hrun & Hcfg & Hdbg & Hsnap & Htx & _).
  unfold setConfig, at_most_one_command in *. rewrite try_run, bind_run, Hrun, bind_run.
  destruct (py_len v) as [n | e]; run.
  - destruct (n =? 6); run.
    + destruct (debug d1) eqn:Hd1; run.
      * pose proof (decodeConfig_terminates v (config d1)) as Hend.
        destruct (decodeConfig v (config d1)) as [[[] | e | ] cfg]; run;
          [ | | exfalso; apply Hend; reflexivity].
        -- pose proof (showConfig_terminates (with_config (fun _ => cfg) d1)) as Hend'.
           pose proof (showConfig_same_link (with_config (fun _ => cfg) d1)) as Hlink.
           destruct (showConfig (with_config (fun _ => cfg) d1)) as [[[] | e | ] d2]; run;
             [ | | exfalso; apply Hend'; reflexivity];
             destruct Hlink as (_ & Hd2 & _ & _ & _ & _ & _ & Htx2 & _); run;
             rewrite ?Hd2, ?Hd1; run;
             (eexists _, _; split; [reflexivity | ]); run;
             rewrite ?Hd2, ?Htx2; repeat split; auto; intros; congruence.
        -- rewrite Hd1. eexists _, _; split; [reflexivity | ]; run.
           repeat split; auto; intros; congruence.
      * eexists _, _; split; [reflexivity | ]; run.
        repeat split; auto; intros; congruence.
    + eexists _, _; split; [reflexivity | ]; run.
      repeat split; auto; intros; congruence.
  - destruct (debug d1) eqn:Hd1; run.
    all: eexists _, _; split; [reflexivity | ]; run.
    all: repeat split; auto; intros; congruence.
Qed.

Lemma set_transmode_same (c : Config) : set_transmode (transmode c) c = c.
Proof. destruct c; reflexivity. Qed.

(** [setTransmissionMode] always returns.  Asked for the mode already
    configured it does nothing at all; otherwise it writes at most one
    command, and with the debug flag off the configuration it leaves is
    the old one with the new mode. *)
Lemma setTransmissionMode_effect (mode : Z) (d : driver) :
  exists d',
    setTransmissionMode mode d = (Ret tt, d')
    /\ debug d' = debug d
    /\ at_most_one_command d d'
    /\ (mode = transmode (config d) -> d' = d)
    /\ (debug d = false -> config d' = set_transmode mode (config d)).
Proof.
  unfold setTransmissionMode. rewrite bind_run. run.
  destruct (mode =? transmode (config d)) eqn:Hm; run.
  - apply Z.eqb_eq in Hm. exists d. repeat split; auto.
    + left. reflexivity.
    + intros _. rewrite Hm. symmetry. apply set_transmode_same.
  - apply Z.eqb_neq in Hm.
    destruct (setConfig_effect "setConfigPwrDwnSave" (with_config (set_transmode mode) d))
      as (r & d' & Hrun & Hdbg & Htx & Hcfg).
    rewrite Hrun. exists d'. run. unfold at_most_one_command in *. run.
    repeat split; auto. contradiction.
Qed.

(** ** The commands that carry the register

    [encodeConfig] raises on every configuration, so that the two
    commands that carry the register never reach the serial link. *)

Lemma nothing_sent_refl d : nothing_sent d d.
Proof. repeat split. Qed.

(** [sendCommand] with a command that carries the register: the module
    is put in sleep mode when its pins are bound, [encodeConfig] raises,
    and the handler returns ["NOK"]. *)
Lemma sendCommand_register_effect (cmd : string) (d : driver) :
  cmd = "setConfigPwrDwnSave" \/ cmd = "setConfigPwrDwnNoSave" ->
  exists d',
    sendCommand cmd d = (Ret (PStr "NOK"), d')
    /\ config d' = config d /\ nothing_sent d d'
    /\ (M0 d', M1 d', slept_ms d')
       = (M0 (snd (set_pins 1 1 d)), M1 (snd (set_pins 1 1 d)), slept_ms (snd (set_pins 1 1 d))).
Proof.
  intros Hcmd.
  unfold sendCommand, nothing_sent. rewrite try_run, bind_run, setOperationMode_sleep.
  unfold set_pins.
  destruct (M0 d) as [m0 | ] eqn:E0.
  2: { run. destruct (debug d) eqn:Hd; run; eexists; (split; [reflexivity | ]); run;
       rewrite ?E0; repeat split; auto. }
  destruct (M1 d) as [m1 | ] eqn:E1.
  2: { run. destruct (debug d) eqn:Hd; run; eexists; (split; [reflexivity | ]); run;
       rewrite ?E1; repeat split; auto. }
  assert (Hlist : exists e,
    match dict_get CMDS cmd with
    | Some code =>
        if (code =? 0xC0) || (code =? 0xC2)
        then obind (encodeConfig (config d)) (set_first (PInt code))
        else Ok [PInt code; PInt code; PInt code]
    | None => Ok [PNone; PNone; PNone]
    end = Err e).
  { rewrite encodeConfig_raises. eexists. destruct Hcmd as [-> | ->]; reflexivity. }
  destruct Hlist as (e & Hlist). run. rewrite Hlist. run.
  destruct (debug d) eqn:Hd; run; eexists; (split; [reflexivity | ]); run;
    rewrite ?E0, ?E1; repeat split; auto.
Qed.

(** [setConfig] with such a command returns ["NOK"]: the string ["NOK"]
    it gets from [sendCommand] is 3 long. *)
Lemma setConfig_register_effect (cmd : string) (d : driver) :
  cmd = "setConfigPwrDwnSave" \/ cmd = "setConfigPwrDwnNoSave" ->
  exists d',
    setConfig cmd d = (Ret "NOK", d')
    /\ config d' = config d /\ nothing_sent d d'
    /\ (M0 d', M1 d', slept_ms d')
       = (M0 (snd (set_pins 1 1 d)), M1 (snd (set_pins 1 1 d)), slept_ms (snd (set_pins 1 1 d))).
Proof.
  intros Hcmd.
  destruct (sendCommand_register_effect cmd d Hcmd) as (d' & Hrun & Hrest).
  unfold setConfig. rewrite try_run, bind_run, Hrun. run.
  exists d'. split; [reflexivity | exact Hrest].
Qed.

(** [setTransmissionMode] always returns and stores the mode asked for;
    it writes nothing, reads nothing and leaves the snapshot alone, and
    asked for the mode already configured it does nothing at all. *)
Lemma setTransmissionMode_stores (mode : Z) (d : driver) :
  exists d',
    setTransmissionMode mode d = (Ret tt, d')
    /\ config d' = set_transmode mode (config d)
    /\ nothing_sent d d'
    /\ (mode = transmode (config d) -> d' = d).
Proof.
  unfold setTransmissionMode. rewrite bind_run. run.
  destruct (mode =? transmode (config d)) eqn:Hm; run.
  - apply Z.eqb_eq in Hm. exists d.
    split; [reflexivity | ]. split; [rewrite Hm; symmetry; apply set_transmode_same | ].
    split; [apply nothing_sent_refl | reflexivity].
  - apply Z.eqb_neq in Hm.
    destruct (setConfig_register_effect "setConfigPwrDwnSave"
                (with_config (set_transmode mode) d) (or_introl eq_refl))
      as (d' & Hrun & Hcfg & Hsent & _).
    rewrite Hrun. exists d'. run.
    split; [reflexivity | ]. split; [exact Hcfg | ]. split; [exact Hsent | contradiction].
Qed.

(** ** Writing a payload frame *)

Lemma sendMessage_parts dumps fuel a c payload useChecksum :
  sendMessage dumps fuel a c payload useChecksum
  = try_except
      (d <- get ;;
       (if (a =? address (config d)) && py_eq_int (channel (config d)) c
        then setTransmissionMode 0
        else setTransmissionMode 1) ;;
       setOperationMode "wakeup" ;;
       frame_and_write dumps fuel a c payload useChecksum)
      (fun E =>
         when_debug (print (Failure "Error on sendMessage: " E)) ;;
         ret "NOK").
Proof. reflexivity. Qed.

Lemma frame_as_values (mode a c : Z) (js : text) :
  ((if mode =? 1 then [PInt (a / 256); PInt (a mod 256); PInt c] else [])
     ++ map (fun x => PInt (Z.of_N x)) js)%list
  = map PInt ((if mode =? 1 then [a / 256; a mod 256; c] else []) ++ map Z.of_N js)%list.
Proof.
  rewrite map_app, map_map. destruct (mode =? 1); reflexivity.
Qed.

(** With the module in wake-up mode and fuel for the idle wait,
    [frame_and_write] ends without touching the configuration, the debug
    flag or the snapshot.  It returns ["OK"] exactly when it has written
    one frame, which is then the expected one; otherwise nothing was
    written. *)
Lemma frame_and_write_effect dumps fuel a c payload useChecksum d :
  (10 <= fuel)%nat -> M0 d = Some 1 -> M1 d = Some 0 ->
  exists r d',
    frame_and_write dumps fuel a c payload useChecksum d = (r, d')
    /\ r <> OutOfFuel
    /\ config d' = config d /\ debug d' = debug d /\ snapshot d' = snapshot d
    /\ ((r = Ret "OK"
         /\ exists items js frame,
             payload = PDict items /\ dumps payload = Ok js
             /\ tx d' = (tx d ++ [(Some 1, Some 0, frame)])%list
             /\ map byte_val frame = frame_values (transmode (config d)) a c js useChecksum)
        \/ ((r = Ret "NOK" \/ exists e, r = Raise e) /\ tx d' = tx d))
    /\ ((forall items, payload <> PDict items) -> r = Ret "NOK").
Proof.
  intros Hfuel H0 H1. unfold frame_and_write.
  assert (Hother :
    exists r d',
      (print (Line "payload is not a dictionary") ;; ret "NOK") d = (r, d')
      /\ r <> OutOfFuel
      /\ config d' = config d /\ debug d' = debug d /\ snapshot d' = snapshot d
      /\ ((r = Ret "OK"
           /\ exists items js frame,
               payload = PDict items /\ dumps payload = Ok js
               /\ tx d' = (tx d ++ [(Some 1, Some 0, frame)])%list
               /\ map byte_val frame = frame_values (transmode (config d)) a c js useChecksum)
          \/ ((r = Ret "NOK" \/ exists e, r = Raise e) /\ tx d' = tx d))
      /\ r = Ret "NOK").
  { run. eexists _, _. split; [reflexivity | ]. run.
    repeat split; try discriminate. right. split; [first [left; reflexivity | right; eexists; reflexivity] | reflexivity]. }
  destruct payload as [ | | | | | | items];
    try (destruct Hother as (r & d' & Hr & Hx1 & Hx2 & Hx3 & Hx4 & Hx5 & Hx6);
         exists r, d'; repeat split; auto; fail).
  clear Hother.
  rewrite bind_run. run.
  destruct (dumps (PDict items)) as [js | e] eqn:Hjs; run.
  2: { eexists _, _. split; [reflexivity | ]. run.
       repeat split; try discriminate.
       - right. split; [first [left; reflexivity | right; eexists; reflexivity] | reflexivity].
       - intros Hno. exfalso. apply (Hno items). reflexivity. }
  rewrite frame_as_values.
  set (body := ((if transmode (config d) =? 1 then [a / 256; a mod 256; c] else [])
                  ++ map Z.of_N js)%list).
  assert (Hmsg :
    exists vals,
      vals = frame_values (transmode (config d)) a c js useChecksum
      /\ (if useChecksum
          then (cs <- lift (py_int16 (calcChecksum js)) ;; ret (map PInt body ++ [PInt cs])%list)
          else ret (map PInt body)) d
         = (Ret (map PInt vals), d)).
  { eexists. split; [reflexivity | ]. unfold frame_values. fold body.
    destruct useChecksum; run.
    - rewrite calcChecksum_parse.
      rewrite app_assoc, map_app. reflexivity.
    - rewrite app_nil_r. reflexivity. }
  destruct Hmsg as (vals & Hvals & Hmsg).
  run. rewrite Hmsg. run.
  destruct (debug d) eqn:Hdbg; run.
  all: match goal with |- context [waitForDeviceIdle ?f ?x] =>
         destruct (wait_loop_bound f 0 x) as (r & d2 & Hwait & Hr & _ & _ & _ & Hlink & _);
           [lia | change (Z.to_nat (10 - 0)) with 10%nat; lia | ];
         fold (waitForDeviceIdle f) in Hwait; rewrite Hwait;
         destruct Hlink as (Lc & Ld & L0 & L1 & _ & _ & _ & Ltx & Ls)
       end; run.
  all: (destruct r as [[] | e | ]; [ | | contradiction]); run.
  all: try (eexists _, _; split; [reflexivity | ]; run;
            repeat split; try discriminate; try congruence;
            try (right; split; [first [left; reflexivity | right; eexists; reflexivity] | congruence]);
            try (intros Hno; exfalso; apply (Hno items); reflexivity); fail).
  all: destruct (serdev d2); run.
  all: try (eexists _, _; split; [reflexivity | ]; run;
            repeat split; try discriminate; try congruence;
            try (right; split; [first [left; reflexivity | right; eexists; reflexivity] | congruence]);
            try (intros Hno; exfalso; apply (Hno items); reflexivity); fail).
  all: destruct (py_bytes (map PInt vals)) as [frame | e] eqn:Hframe; run.
  all: try (eexists _, _; split; [reflexivity | ]; run;
            repeat split; try discriminate; try congruence;
            try (right; split; [first [left; reflexivity | right; eexists; reflexivity] | congruence]);
            try (intros Hno; exfalso; apply (Hno items); reflexivity); fail).
  all: eexists _, _; split; [reflexivity | ]; run.
  all: repeat split; try discriminate; try congruence.
  all: try (intros Hno; exfalso; apply (Hno items); reflexivity).
  all: left; split; [reflexivity | ].
  all: exists items, js, frame; repeat split; auto.
  all: try (rewrite Ltx, L0, L1, H0, H1; reflexivity).
  all: rewrite <- Hvals; apply py_bytes_values; exact Hframe.
Qed.

(** ** [sendMessage] *)

Lemma mode_choice (b : bool) :
  (if b then setTransmissionMode 0 else setTransmissionMode 1)
  = setTransmissionMode (if b then 0 else 1).
Proof. destruct b; reflexivity. Qed.

(** [sendMessage], relative to the state [d2] the choice of the
    transmission mode leaves: with enough fuel it returns ["OK"] or
    ["NOK"]; on ["OK"] exactly one frame has been written after [d2], in
    wake-up mode, which carries the prefix when the mode held by the
    configuration of [d2] is 1; on ["NOK"] nothing has been written after
    [d2]. *)
Lemma sendMessage_run dumps fuel a c payload useChecksum d :
  (10 <= fuel)%nat ->
  exists d2 r d',
    setTransmissionMode (wanted_mode (config d) a c) d = (Ret tt, d2)
    /\ sendMessage dumps fuel a c payload useChecksum d = (Ret r, d')
    /\ (r = "OK" \/ r = "NOK")
    /\ config d' = config d2 /\ debug d' = debug d2 /\ snapshot d' = snapshot d2
    /\ (r = "OK" ->
        exists items js frame,
          payload = PDict items /\ dumps payload = Ok js
          /\ tx d' = (tx d2 ++ [(Some 1, Some 0, frame)])%list
          /\ map byte_val frame = frame_values (transmode (config d2)) a c js useChecksum)
    /\ (r = "NOK" -> tx d' = tx d2)
    /\ ((forall items, payload <> PDict items) -> r = "NOK").
Proof.
  intros Hfuel.
  destruct (setTransmissionMode_effect (wanted_mode (config d) a c) d)
    as (d2 & Hmode & _).
  exists d2.
  enough (exists r d',
    sendMessage dumps fuel a c payload useChecksum d = (Ret r, d')
    /\ (r = "OK" \/ r = "NOK")
    /\ config d' = config d2 /\ debug d' = debug d2 /\ snapshot d' = snapshot d2
    /\ (r = "OK" ->
        exists items js frame,
          payload = PDict items /\ dumps payload = Ok js
          /\ tx d' = (tx d2 ++ [(Some 1, Some 0, frame)])%list
          /\ map byte_val frame = frame_values (transmode (config d2)) a c js useChecksum)
    /\ (r = "NOK" -> tx d' = tx d2)
    /\ ((forall items, payload <> PDict items) -> r = "NOK"))
    as (r & d' & Hsend & Hrest)
    by (exists r, d'; split; [exact Hmode | split; assumption]).
  rewrite sendMessage_parts, try_run, bind_run.
  change (get d) with (Ret d, d). cbv beta iota.
  rewrite mode_choice. fold (wanted_mode (config d) a c).
  rewrite bind_run, Hmode, bind_run, setOperationMode_wakeup. unfold set_pins.
  destruct (M0 d2) as [m0 | ] eqn:H0.
  - destruct (M1 d2) as [m1 | ] eqn:H1.
    + match goal with |- context [frame_and_write _ _ _ _ _ _ ?x] =>
        destruct (frame_and_write_effect dumps fuel a c payload useChecksum x Hfuel eq_refl eq_refl)
          as (r & d' & Hrun & Hr & Hcfg & Hdbg & Hsnap & Hframe & Hnot)
      end.
      rewrite Hrun. run.
      destruct Hframe as [(-> & items & js & frame & Hp & Hjs & Htx & Hvals)
                         | ([-> | (e & ->)] & Htx)].
      * exists "OK", d'. repeat split; auto.
        -- intros _. exists items, js, frame. repeat split; auto.
        -- discriminate.
        -- intros Hno. exfalso. apply (Hno items). exact Hp.
      * exists "NOK", d'. repeat split; auto. discriminate.
      * run. destruct (debug d') eqn:Hd'; run.
        all: eexists _, _; split; [reflexivity | ]; run.
        all: repeat split; run; auto; try discriminate; try congruence.
    + run. destruct (debug d2) eqn:Hd2; run.
      all: eexists _, _; split; [reflexivity | ]; run.
      all: repeat split; run; auto; try discriminate; try congruence.
  - run. destruct (debug d2) eqn:Hd2; run.
    all: eexists _, _; split; [reflexivity | ]; run.
    all: repeat split; run; auto; try discriminate; try congruence.
Qed.

Lemma wanted_mode_cases (cfg : Config) (a c : Z) :
  (wanted_mode cfg a c = 0 /\ a = address cfg /\ py_eq_int (channel cfg) c = true)
  \/ (wanted_mode cfg a c = 1 /\ (a <> address cfg \/ py_eq_int (channel cfg) c = false)).
Proof.
  unfold wanted_mode.
  destruct (a =? address cfg) eqn:Ha; cbn [andb].
  - apply Z.eqb_eq in Ha. destruct (py_eq_int (channel cfg) c); auto.
  - apply Z.eqb_neq in Ha. auto.
Qed.

(** C3.  A [sendMessage] of a dictionary returns ["OK"] or ["NOK"].
    When it returns ["NOK"] nothing was written.  When it returns ["OK"]
    it has made exactly one write on the serial link, the payload frame,
    with the module in wake-up mode: the character codes of the serialized
    payload, then the checksum if one was asked for, with no prefix for
    the driver's own address and channel, and behind the three bytes
    [to_address / 256], [to_address mod 256], [to_channel] for any other
    destination. *)
Theorem sendMessage_framing dumps fuel a c items useChecksum d :
  (10 <= fuel)%nat ->
  exists r d',
    sendMessage dumps fuel a c (PDict items) useChecksum d = (Ret r, d')
    /\ (r = "OK" \/ r = "NOK")
    /\ (r = "NOK" -> tx d' = tx d)
    /\ (r = "OK" ->
        exists js frame,
          dumps (PDict items) = Ok js
          /\ tx d' = (tx d ++ [(Some 1, Some 0, frame)])%list
          /\ (a = address (config d) /\ py_eq_int (channel (config d)) c = true ->
              map byte_val frame
              = (map Z.of_N js ++ (if useChecksum then [checksum_value js] else []))%list)
          /\ (a <> address (config d) \/ py_eq_int (channel (config d)) c = false ->
              map byte_val frame
              = ([a / 256; a mod 256; c] ++ map Z.of_N js
                   ++ (if useChecksum then [checksum_value js] else []))%list)).
Proof.
  intros Hfuel.
  destruct (sendMessage_run dumps fuel a c (PDict items) useChecksum d Hfuel)
    as (d2 & r & d' & Hmode & Hsend & Hr & _ & _ & _ & Hok & Hnok & _).
  destruct (setTransmissionMode_stores (wanted_mode (config d) a c) d)
    as (d2' & Hmode' & Hcfg & Hsent & _).
  rewrite Hmode in Hmode'. injection Hmode' as <-.
  destruct Hsent as (_ & _ & Htx & _).
  assert (Hm : transmode (config d2) = wanted_mode (config d) a c)
    by (rewrite Hcfg; reflexivity).
  exists r, d'. split; [exact Hsend | ]. split; [exact Hr | ]. split.
  - intros Hn. rewrite (Hnok Hn). exact Htx.
  - intros Ho. destruct (Hok Ho) as (items' & js & frame & _ & Hjs & Hw & Hvals).
    exists js, frame. rewrite Hm in Hvals. unfold frame_values in Hvals.
    split; [exact Hjs | ]. split; [rewrite <- Htx; exact Hw | ].
    destruct (wanted_mode_cases (config d) a c) as [(Hw0 & Ha & Hc) | (Hw1 & Hother)];
      rewrite ?Hw0, ?Hw1 in Hvals; cbn [Z.eqb Pos.eqb] in Hvals.
    + split; [intros _; exact Hvals | ].
      intros [Hne | Hne]; [contradiction | congruence].
    + split; [ | intros _; exact Hvals].
      intros (Ha & Hc). destruct Hother as [Hne | Hne]; [contradiction | congruence].
Qed.

(** C9.  A [sendMessage] whose payload is not a dictionary returns
    ["NOK"] and writes nothing on the serial link, whatever the state of
    the driver and whatever the destination. *)
Theorem sendMessage_rejects_non_dict dumps fuel a c payload useChecksum d :
  (forall items, payload <> PDict items) ->
  exists d',
    sendMessage dumps fuel a c payload useChecksum d = (Ret "NOK", d')
    /\ tx d' = tx d.
Proof.
  intros Hno.
  destruct (setTransmissionMode_stores (wanted_mode (config d) a c) d)
    as (d2 & Hmode & _ & Hsent & _).
  destruct Hsent as (_ & _ & Htx & _).
  rewrite sendMessage_parts, try_run, bind_run.
  change (get d) with (Ret d, d). cbv beta iota.
  rewrite mode_choice. fold (wanted_mode (config d) a c).
  rewrite bind_run, Hmode, bind_run, setOperationMode_wakeup. unfold set_pins, frame_and_write.
  destruct (M0 d2) as [m0 | ] eqn:H0; [destruct (M1 d2) as [m1 | ] eqn:H1 | ].
  - destruct payload as [ | | | | | | items];
      try (exfalso; apply (Hno items); reflexivity); run.
    all: eexists; split; [reflexivity | exact Htx].
  - run. destruct (debug d2); run; eexists; (split; [reflexivity | exact Htx]).
  - run. destruct (debug d2); run; eexists; (split; [reflexivity | exact Htx]).
Qed.

(** ** [recvMessage] *)

Lemma bind_assoc {S A B C} (c : M S A) (k1 : A -> M S B) (k2 : B -> M S C) (s : S) :
  bind (bind c k1) k2 s = bind c (fun a => bind (k1 a) k2) s.
Proof. unfold bind. destruct (c s) as [[a | e | ] s']; reflexivity. Qed.

Lemma recvMessage_parts loads a c useChecksum d :
  recvMessage loads a c useChecksum d
  = try_except
      (listen a c ;; read_and_decode loads useChecksum)
      (fun E =>
         when_debug (print (Failure "Error on recvMessage: " E)) ;;
         ret (PStr "NOK")) d.
Proof.
  unfold recvMessage, listen. rewrite !try_run.
  rewrite bind_assoc.
  rewrite !(bind_run get). change (get d) with (Ret d, d). cbv beta iota.
  rewrite bind_assoc. reflexivity.
Qed.

Lemma byte_code_range (b : byte) : 0 <= Z.of_N (Byte.to_N b) < 256.
Proof. pose proof (Byte.to_N_bounded b). lia. Qed.

Lemma byte_code_inj (b b' : byte) : Byte.to_N b = Byte.to_N b' -> b = b'.
Proof.
  intros H. pose proof (Byte.of_to_N b) as H1. pose proof (Byte.of_to_N b') as H2.
  rewrite H in H1. congruence.
Qed.

(** Replacing one byte of a frame whose bytes add up to 0 modulo 256
    yields a frame whose bytes do not. *)
Lemma one_byte_changes_sum (pre post : list byte) (b b' : byte) :
  b <> b' ->
  ord_sum (map Byte.to_N (pre ++ b :: post)) mod 256 = 0 ->
  ord_sum (map Byte.to_N (pre ++ b' :: post)) mod 256 <> 0.
Proof.
  intros Hne Hzero Hzero'.
  rewrite map_app, ord_sum_app in Hzero, Hzero'. cbn [map ord_sum fold_right] in Hzero, Hzero'.
  fold (ord_sum (map Byte.to_N post)) in Hzero, Hzero'.
  apply Z.mod_divide in Hzero; [ | lia]. apply Z.mod_divide in Hzero'; [ | lia].
  destruct Hzero as (k & Hk). destruct Hzero' as (k' & Hk').
  pose proof (byte_code_range b). pose proof (byte_code_range b').
  assert (Z.of_N (Byte.to_N b) = Z.of_N (Byte.to_N b')) as Heq by lia.
  apply Hne, byte_code_inj. lia.
Qed.

(** C7.  When [recvMessage] with the checksum asked for gets to its read
    and the read returns the bytes [B]: the checksum of [B] is 0 exactly
    when the bytes add up to 0 modulo 256; if it is not 0 the call returns
    the corrupt-message result carrying it, whatever parser is plugged in;
    if it is 0 the call parses [B] without its last byte and returns the
    parsed value (["NOK"] if the parser raises).  In particular, if [B]
    differs in exactly one byte from a frame whose checksum is 0, the call
    returns the corrupt-message result. *)
Theorem recvMessage_checksum loads a c d d1 B rest :
  listen a c d = (Ret tt, d1) ->
  serdev d1 = true ->
  rx d1 = Some B :: rest ->
  let msg := map Byte.to_N B in
  let cs := checksum_value msg in
  (cs = 0 <-> ord_sum msg mod 256 = 0)
  /\ (cs <> 0 -> fst (recvMessage loads a c true d) = Ret (corrupt_message cs))
  /\ (cs = 0 ->
      fst (recvMessage loads a c true d)
      = match loads (removelast msg) with
        | Ok v => Ret v
        | Err _ => Ret (PStr "NOK")
        end)
  /\ (forall pre b b' post,
        B = (pre ++ b' :: post)%list -> b <> b' ->
        checksum_value (map Byte.to_N (pre ++ b :: post)) = 0 ->
        cs <> 0 /\ fst (recvMessage loads a c true d) = Ret (corrupt_message cs)).
Proof.
  intros Hlisten Hser Hrx msg cs.
  assert (Hbad : cs <> 0 -> fst (recvMessage loads a c true d) = Ret (corrupt_message cs)).
  { intros Hcs. rewrite recvMessage_parts, try_run, bind_run, Hlisten.
    unfold read_and_decode. run. rewrite Hser, Hrx. run.
    cbn [chars_of]. fold msg. rewrite calcChecksum_parse. fold cs.
    destruct (cs =? 0) eqn:H0; [apply Z.eqb_eq in H0; contradiction | ].
    destruct (debug d1); run; reflexivity. }
  split; [apply checksum_value_zero | ].
  split; [exact Hbad | ].
  split.
  - intros Hcs. rewrite recvMessage_parts, try_run, bind_run, Hlisten.
    unfold read_and_decode. run. rewrite Hser, Hrx. run.
    cbn [chars_of]. fold msg. rewrite calcChecksum_parse. fold cs.
    rewrite Hcs. cbn [Z.eqb]. run.
    destruct (debug d1) eqn:Hd; run; destruct (loads (removelast msg)); run;
      rewrite ?Hd; reflexivity.
  - intros pre b b' post HB Hne Hzero.
    assert (Hcs : cs <> 0).
    { unfold cs, msg. rewrite HB. rewrite checksum_value_zero.
      apply one_byte_changes_sum with (b := b); [exact Hne | ].
      apply checksum_value_zero. exact Hzero. }
    split; [exact Hcs | exact (Hbad Hcs)].
Qed.

(** [read_and_decode] ends and writes nothing. *)
Lemma read_and_decode_effect loads useChecksum d :
  exists r d',
    read_and_decode loads useChecksum d = (r, d')
    /\ r <> OutOfFuel /\ same_link d d'.
Proof.
  unfold read_and_decode, same_link.
  repeat (break_match; run).
  all: eexists _, _; (split; [reflexivity | ]); run.
  all: repeat split; try discriminate; try congruence.
Qed.

(** [recvMessage], relative to the state [d2] the choice of the
    transmission mode leaves: it returns, and nothing is written after
    [d2]. *)
Lemma recvMessage_run loads a c useChecksum d :
  exists d2 r d',
    setTransmissionMode (wanted_mode (config d) a c) d = (Ret tt, d2)
    /\ recvMessage loads a c useChecksum d = (Ret r, d')
    /\ config d' = config d2 /\ debug d' = debug d2 /\ snapshot d' = snapshot d2
    /\ tx d' = tx d2.
Proof.
  destruct (setTransmissionMode_effect (wanted_mode (config d) a c) d)
    as (d2 & Hmode & _).
  exists d2.
  enough (exists r d',
    recvMessage loads a c useChecksum d = (Ret r, d')
    /\ config d' = config d2 /\ debug d' = debug d2 /\ snapshot d' = snapshot d2
    /\ tx d' = tx d2)
    as (r & d' & Hrecv & Hrest)
    by (exists r, d'; split; [exact Hmode | split; assumption]).
  rewrite recvMessage_parts, try_run, bind_run. unfold listen.
  rewrite bind_run. change (get d) with (Ret d, d). cbv beta iota.
  rewrite mode_choice. fold (wanted_mode (config d) a c).
  rewrite bind_run, Hmode, setOperationMode_normal. unfold set_pins.
  destruct (M0 d2) as [m0 | ] eqn:H0.
  - destruct (M1 d2) as [m1 | ] eqn:H1.
    + match goal with |- context [read_and_decode _ _ ?x] =>
        destruct (read_and_decode_effect loads useChecksum x)
          as (r & d' & Hrun & Hr & Hlink)
      end.
      rewrite Hrun. destruct Hlink as (Lc & Ld & _ & _ & _ & _ & _ & Ltx & Ls). run.
      destruct r as [v | e | ]; [ | | contradiction]; run.
      * eexists _, _; split; [reflexivity | ]. repeat split; assumption.
      * destruct (debug d') eqn:Hd'; run.
        all: eexists _, _; split; [reflexivity | ]; run.
        all: repeat split; congruence.
    + run. destruct (debug d2) eqn:Hd2; run.
      all: eexists _, _; split; [reflexivity | ]; run.
      all: repeat split; congruence.
  - run. destruct (debug d2) eqn:Hd2; run.
    all: eexists _, _; split; [reflexivity | ]; run.
    all: repeat split; congruence.
Qed.

(** ** Counting reconfigurations *)

Lemma commands_after_frame d d' frame :
  tx d' = (tx d ++ [(Some 1, Some 0, frame)])%list -> commands d' = commands d.
Proof.
  unfold commands. intros ->.
  rewrite filter_app, length_app. cbn. lia.
Qed.

(** [sendMessage] leaves the configuration in the mode its destination
    asks for and otherwise as it was; it writes no command and leaves the
    snapshot alone. *)
Lemma sendMessage_mode dumps fuel a c payload useChecksum d :
  (10 <= fuel)%nat ->
  exists r d',
    sendMessage dumps fuel a c payload useChecksum d = (Ret r, d')
    /\ config d' = set_transmode (wanted_mode (config d) a c) (config d)
    /\ commands d' = commands d /\ snapshot d' = snapshot d.
Proof.
  intros Hfuel.
  destruct (sendMessage_run dumps fuel a c payload useChecksum d Hfuel)
    as (d2 & r & d' & Hmode & Hsend & Hr & Hcfg & Hdbg & Hsnap & Hok & Hnok & _).
  destruct (setTransmissionMode_stores (wanted_mode (config d) a c) d)
    as (d2' & Hmode' & Hc2 & Hsent & _).
  rewrite Hmode in Hmode'. injection Hmode' as <-.
  destruct Hsent as (_ & Hs2 & Htx & _).
  assert (Hcount : commands d' = commands d2).
  { destruct Hr as [-> | ->].
    - destruct (Hok eq_refl) as (items & js & frame & _ & _ & Hw & _).
      apply (commands_after_frame _ _ _ Hw).
    - unfold commands. rewrite (Hnok eq_refl). reflexivity. }
  exists r, d'. split; [exact Hsend | ].
  split; [congruence | ].
  split; [rewrite Hcount; unfold commands; rewrite Htx; reflexivity | congruence].
Qed.

Lemma recvMessage_mode loads a c useChecksum d :
  exists r d',
    recvMessage loads a c useChecksum d = (Ret r, d')
    /\ config d' = set_transmode (wanted_mode (config d) a c) (config d)
    /\ commands d' = commands d /\ snapshot d' = snapshot d.
Proof.
  destruct (recvMessage_run loads a c useChecksum d)
    as (d2 & r & d' & Hmode & Hrecv & Hcfg & Hdbg & Hsnap & Hw).
  destruct (setTransmissionMode_stores (wanted_mode (config d) a c) d)
    as (d2' & Hmode' & Hc2 & Hsent & _).
  rewrite Hmode in Hmode'. injection Hmode' as <-.
  destruct Hsent as (_ & Hs2 & Htx & _).
  exists r, d'. split; [exact Hrecv | ].
  split; [congruence | ].
  split; [unfold commands; rewrite Hw, Htx; reflexivity | congruence].
Qed.

(** Once a call has stored the mode its destination asks for, the same
    destination asks for the mode that is stored. *)
Lemma wanted_mode_stored (cfg : Config) (a c : Z) :
  let cfg' := set_transmode (wanted_mode cfg a c) cfg in
  transmode cfg' = wanted_mode cfg' a c.
Proof. reflexivity. Qed.

(** C10.  [setTransmissionMode] asked for the mode already configured
    does nothing: no command, no snapshot, the same configuration; so it
    changes the state only when the mode asked for differs.  After a
    [sendMessage] the configuration holds the mode its destination asks
    for, so that a second [sendMessage] to the same destination finds
    nothing to reconfigure: its [setTransmissionMode] leaves the state as
    it is, and the second call writes no command and leaves the
    configuration and the snapshot alone.  The two calls together write at
    most one command.  The same holds for two consecutive [recvMessage]
    calls. *)
Theorem reconfiguration_only_when_needed :
  (forall mode d, mode = transmode (config d) -> setTransmissionMode mode d = (Ret tt, d))
  /\ (forall mode d d',
        setTransmissionMode mode d = (Ret tt, d') -> d' <> d -> mode <> transmode (config d))
  /\ (forall dumps fuel a c p1 k1 p2 k2 d,
        (10 <= fuel)%nat ->
        exists r1 d1 r2 d2,
          sendMessage dumps fuel a c p1 k1 d = (Ret r1, d1)
          /\ sendMessage dumps fuel a c p2 k2 d1 = (Ret r2, d2)
          /\ transmode (config d1) = wanted_mode (config d1) a c
          /\ setTransmissionMode (wanted_mode (config d1) a c) d1 = (Ret tt, d1)
          /\ (commands d2 <= commands d + 1)%nat
          /\ commands d2 = commands d1 /\ snapshot d2 = snapshot d1 /\ config d2 = config d1)
  /\ (forall loads a c k1 k2 d,
        exists r1 d1 r2 d2,
          recvMessage loads a c k1 d = (Ret r1, d1)
          /\ recvMessage loads a c k2 d1 = (Ret r2, d2)
          /\ transmode (config d1) = wanted_mode (config d1) a c
          /\ setTransmissionMode (wanted_mode (config d1) a c) d1 = (Ret tt, d1)
          /\ (commands d2 <= commands d + 1)%nat
          /\ commands d2 = commands d1 /\ snapshot d2 = snapshot d1 /\ config d2 = config d1).
Proof.
  assert (Hskip : forall mode d,
             mode = transmode (config d) -> setTransmissionMode mode d = (Ret tt, d)).
  { intros mode d Heq.
    destruct (setTransmissionMode_stores mode d) as (d' & Hrun & _ & _ & Hsame).
    rewrite Hrun, (Hsame Heq). reflexivity. }
  split; [exact Hskip | ]. split; [ | split].
  - intros mode d d' Hrun Hne Heq. rewrite (Hskip mode d Heq) in Hrun.
    injection Hrun as <-. apply Hne. reflexivity.
  - intros dumps fuel a c p1 k1 p2 k2 d Hfuel.
    destruct (sendMessage_mode dumps fuel a c p1 k1 d Hfuel)
      as (r1 & d1 & Hs1 & Hcfg1 & Hn1 & _).
    destruct (sendMessage_mode dumps fuel a c p2 k2 d1 Hfuel)
      as (r2 & d2 & Hs2 & Hcfg2 & Hn2 & Hsnap).
    assert (Hstored : transmode (config d1) = wanted_mode (config d1) a c)
      by (rewrite Hcfg1; apply wanted_mode_stored).
    exists r1, d1, r2, d2.
    split; [exact Hs1 | ]. split; [exact Hs2 | ]. split; [exact Hstored | ].
    split; [apply Hskip; symmetry; exact Hstored | ].
    split; [lia | ]. split; [exact Hn2 | ]. split; [exact Hsnap | ].
    rewrite Hcfg2, <- Hstored. apply set_transmode_same.
  - intros loads a c k1 k2 d.
    destruct (recvMessage_mode loads a c k1 d) as (r1 & d1 & Hs1 & Hcfg1 & Hn1 & _).
    destruct (recvMessage_mode loads a c k2 d1) as (r2 & d2 & Hs2 & Hcfg2 & Hn2 & Hsnap).
    assert (Hstored : transmode (config d1) = wanted_mode (config d1) a c)
      by (rewrite Hcfg1; apply wanted_mode_stored).
    exists r1, d1, r2, d2.
    split; [exact Hs1 | ]. split; [exact Hs2 | ]. split; [exact Hstored | ].
    split; [apply Hskip; symmetry; exact Hstored | ].
    split; [lia | ]. split; [exact Hn2 | ]. split; [exact Hsnap | ].
    rewrite Hcfg2, <- Hstored. apply set_transmode_same.
Qed.

(** ** The claims that fail as they are stated *)

(** Four bytes that do not start with 0xC3 are accepted. *)
Lemma getVersion_claim_fails : ~ getVersion_claim.
Proof.
  intros H.
  set (d := sample_driver false [Some [x00; x45; x01; x02]]).
  assert (Hcmd : sendCommand "getVersion" d
                 = (Ret (PBytes [x00; x45; x01; x02]), snd (sendCommand "getVersion" d)))
    by (vm_compute; reflexivity).
  assert (Hget : getVersion d = (Ret "OK", snd (getVersion d)))
    by (vm_compute; reflexivity).
  destruct (H _ _ _ _ _ Hcmd Hget) as (Hok & _).
  destruct (Hok eq_refl) as (_ & Hb0).
  vm_compute in Hb0. discriminate.
Qed.

(** ** The theorems at concrete inputs *)

Lemma sendMessage_framing_witness :
  exists d' frame,
    sendMessage sample_dumps 10 1 2 (PDict sample_items) false (sample_driver false [])
    = (Ret "OK", d')
    /\ tx d' = [(Some 1, Some 0, frame)]
    /\ firstn 3 (map byte_val frame) = [0; 1; 2].
Proof.
  destruct (sendMessage_framing sample_dumps 10 1 2 sample_items false (sample_driver false []))
    as (r & d' & Hrun & Hr & _ & Hok); [lia | ].
  assert (Hfst : fst (sendMessage sample_dumps 10 1 2 (PDict sample_items) false
                        (sample_driver false [])) = Ret "OK") by (vm_compute; reflexivity).
  rewrite Hrun in Hfst. cbn [fst] in Hfst. injection Hfst as ->.
  destruct (Hok eq_refl) as (js & frame & _ & Htx & _ & Hother).
  exists d', frame. split; [exact Hrun | ]. split; [exact Htx | ].
  rewrite Hother by (left; discriminate). reflexivity.
Defined.

Lemma recvMessage_checksum_witness :
  fst (recvMessage sample_loads 0 6 true (sample_driver false [Some [x7b; x7c; x08]]))
  = Ret (corrupt_message 1).
Proof.
  assert (Hlisten : listen 0 6 (sample_driver false [Some [x7b; x7c; x08]])
                    = (Ret tt, snd (listen 0 6 (sample_driver false [Some [x7b; x7c; x08]]))))
    by (vm_compute; reflexivity).
  destruct (recvMessage_checksum sample_loads 0 6 _ _ [x7b; x7c; x08] [] Hlisten eq_refl eq_refl)
    as (_ & Hbad & _).
  apply Hbad. vm_compute. discriminate.
Defined.

Lemma getVersion_contract_witness :
  exists r d',
    getVersion (sample_driver false [Some [xc3; x45; x0d; x14]]) = (Ret r, d')
    /\ (r = "OK" \/ r = "NOK")
    /\ config d' = config (sample_driver false [Some [xc3; x45; x0d; x14]]).
Proof.
  assert (Hcmd : sendCommand "getVersion" (sample_driver false [Some [xc3; x45; x0d; x14]])
                 = (Ret (PBytes [xc3; x45; x0d; x14]),
                    snd (sendCommand "getVersion"
                           (sample_driver false [Some [xc3; x45; x0d; x14]]))))
    by (vm_compute; reflexivity).
  destruct (getVersion_contract _ _ _ Hcmd) as (r & d' & Hrun & Hr & Hcfg & _).
  exists r, d'. repeat split; assumption.
Defined.

Lemma sendMessage_rejects_non_dict_witness :
  exists d',
    sendMessage sample_dumps 10 1 2 (PInt 3) false (sample_driver false []) = (Ret "NOK", d')
    /\ tx d' = [].
Proof.
  destruct (sendMessage_rejects_non_dict sample_dumps 10 1 2 (PInt 3) false
              (sample_driver false []))
    as (d' & Hrun & Htx); [intros items; discriminate | ].
  exists d'. split; assumption.
Defined.

(** ** Further runs *)

(** [__init__] then [start] with the default parameters: the hardware
    is bound and [start] returns ["OK"], but the module has received
    nothing.  The configuration command was not written, the module is
    left in sleep mode (M0 and M1 high), and no snapshot was made. *)
Example start_binds_the_hardware :
  exists d0 d1,
    init "868T20D" "U1" (PInt 9600) (PStr "8N1") (PStr "2.4k") 0 (PInt 6) false
         (fun _ => true) [Some sample_response] = Ret d0
    /\ start d0 = (Ret "OK", d1)
    /\ config d1 = default_config
    /\ (M0 d1, M1 d1, AUX d1, serdev d1) = (Some 1, Some 1, true, true)
    /\ snapshot d1 = None
    /\ tx d1 = [] /\ rx d1 = [Some sample_response].
Proof.
  eexists (mkDriver default_config false None None false false (fun _ => true) 0
                    [Some sample_response] [] None [] 0), _.
  split; [reflexivity | ]. split; [vm_compute; reflexivity | ].
  repeat split.
Qed.

(** A version response with the right opcode and an unknown frequency
    code: the header line is printed, the model line raises, ["NOK"]. *)
Example getVersion_unknown_code :
  let r := getVersion (sample_driver false [Some [xc3; x47; x01; x02]]) in
  fst r = Ret "NOK"
  /\ console (snd r) = [Line "================= E32 MODULE ==================="].
Proof. vm_compute. repeat split. Qed.

(** The sensor node of the examples (address 1, channel 2) sending to
    (3, 4) with a checksum: the one write is the frame 00 03 04, the
    serialized payload and the checksum byte; the configuration holds the
    fixed mode, which the module was not told. *)
Example sensor_node_send :
  let d := with_config (fun c => set_channel (PInt 2) (set_address 1 c)) (sample_driver false []) in
  let r := sendMessage sample_dumps 10 3 4 sample_payload true d in
  fst r = Ret "OK"
  /\ transmode (config (snd r)) = 1
  /\ exists js frame,
      sample_dumps sample_payload = Ok js
      /\ tx (snd r) = [(Some 1, Some 0, frame)]
      /\ map byte_val frame = ([0; 3; 4] ++ map Z.of_N js ++ [checksum_value js])%list.
Proof.
  vm_compute. split; [reflexivity | ]. split; [reflexivity | ].
  eexists _, _. repeat split.
Qed.

(** Nothing on the serial link: the empty-message result. *)
Example recvMessage_no_data :
  fst (recvMessage sample_loads 0 6 true (sample_driver false []))
  = Ret (PDict [("msg", PNone)]).
Proof. reflexivity. Qed.

(** * Further properties *)

(** ** The register, bit by bit *)

Lemma byte_val_range (b : byte) : 0 <= byte_val b < 256.
Proof. unfold byte_val. pose proof (Byte.to_N_bounded b). lia. Qed.

(** The slices of the speed byte, for each of the 256 bytes. *)
Lemma speed_bits_decoded (b : byte) :
  let s := byte_val b in
  opt_str (dict_get PARINV (slice 0 2 (format_b 8 s))) = opt_str (key_of_code PARSTR (s / 64))
  /\ opt_int (dict_get BAUDRINV (slice 2 5 (format_b 8 s)))
     = opt_int (key_of_code BAUDRATE (s / 8 mod 8))
  /\ opt_str (dict_get DATARINV (slice_from 5 (format_b 8 s)))
     = opt_str (key_of_code DATARATE (s mod 8)).
Proof. destruct b; vm_compute; repeat split. Qed.

(** The slices of the option byte, for each of the 256 bytes. *)
Lemma option_bits_decoded (b : byte) :
  let o := byte_val b in
  py_int (slice 0 1 (format_b 8 o)) = Ok (o / 128)
  /\ py_int (slice 1 2 (format_b 8 o)) = Ok (o / 64 mod 2)
  /\ py_int (slice 2 5 (format_b 8 o)) = Ok (bits_read_as_decimal (o / 8 mod 8))
  /\ py_int (slice 5 6 (format_b 8 o)) = Ok (o / 4 mod 2)
  /\ py_int (slice_from 6 (format_b 8 o)) = Ok (bits_read_as_decimal (o mod 4)).
Proof. destruct b; vm_compute; repeat split. Qed.

(** The bit patterns of the speed byte that no table entry has. *)
Lemma speed_bits_reserved (b : byte) :
  let s := byte_val b in
  missing (key_of_code PARSTR (s / 64)) = (s / 64 =? 3)
  /\ missing (key_of_code BAUDRATE (s / 8 mod 8)) = false
  /\ missing (key_of_code DATARATE (s mod 8)) = (6 <=? s mod 8).
Proof. destruct b; vm_compute; repeat split. Qed.

Lemma opt_str_none (o : option string) : opt_str o = PNone <-> missing o = true.
Proof. destruct o; cbn; split; intros H; try discriminate; reflexivity. Qed.

Lemma opt_int_none (o : option Z) : opt_int o = PNone <-> missing o = true.
Proof. destruct o; cbn; split; intros H; try discriminate; reflexivity. Qed.

(** [decodeConfig] never fails on six bytes. *)
Lemma decodeConfig_decoded (b0 b1 b2 b3 b4 b5 : byte) (c0 : Config) :
  decodeConfig (PBytes [b0; b1; b2; b3; b4; b5]) c0 = (Ret tt, decoded b1 b2 b3 b4 b5 c0).
Proof.
  rewrite decodeConfig_bytes. cbn [map].
  destruct (option_bits_decoded b5) as (Ht & Hi & Hw & Hf & Hx).
  destruct (speed_bits_decoded b3) as (Hp & Hb & Hd).
  rewrite (decodeConfig_list _ _ _ _ _ _ c0 _ _ _ _ _ Ht Hi Hw Hf Hx).
  unfold decoded. cbv zeta. rewrite Hp, Hb, Hd. reflexivity.
Qed.

(** X2.  [decodeConfig] succeeds on every response of six bytes, and
    the configuration it leaves is given by arithmetic on the bytes: the
    address is byte 1 * 256 + byte 2, the channel is byte 4 as it comes
    (no check against 31), the one-bit fields are the bits of byte 5, and
    the wake-up time and the power are the decimal reading of their bits.
    The parity and the air data rate are the keys of the class tables for
    the bits of byte 3, and [None] for the patterns no key has (parity 11,
    air data rate 110 and 111); every baud rate pattern has a key.  The
    model, the port and the frequency are left as they were: the
    frequency is not computed again from the new channel. *)
Theorem decodeConfig_six_bytes (b0 b1 b2 b3 b4 b5 : byte) (c0 : Config) :
  let s := byte_val b3 in
  let o := byte_val b5 in
  exists c',
    decodeConfig (PBytes [b0; b1; b2; b3; b4; b5]) c0 = (Ret tt, c')
    /\ (model c', port c', frequency c') = (model c0, port c0, frequency c0)
    /\ address c' = byte_val b1 * 256 + byte_val b2
    /\ channel c' = PInt (byte_val b4)
    /\ parity c' = opt_str (key_of_code PARSTR (s / 64))
    /\ baudrate c' = opt_int (key_of_code BAUDRATE (s / 8 mod 8))
    /\ datarate c' = opt_str (key_of_code DATARATE (s mod 8))
    /\ (parity c' = PNone <-> s / 64 = 3)
    /\ baudrate c' <> PNone
    /\ (datarate c' = PNone <-> 6 <= s mod 8)
    /\ transmode c' = o / 128 /\ iomode c' = o / 64 mod 2 /\ fec c' = o / 4 mod 2
    /\ wutime c' = bits_read_as_decimal (o / 8 mod 8)
    /\ txpower c' = bits_read_as_decimal (o mod 4).
Proof.
  intros s o. exists (decoded b1 b2 b3 b4 b5 c0).
  split; [apply decodeConfig_decoded | ].
  destruct (speed_bits_reserved b3) as (Hp & Hb & Hd). fold s in Hp, Hb, Hd.
  unfold decoded.
  cbn [model port frequency address channel parity baudrate datarate transmode iomode fec
       wutime txpower].
  fold s o. repeat split.
  - intros H. apply opt_str_none in H. rewrite Hp in H. apply Z.eqb_eq. exact H.
  - intros H. apply opt_str_none. rewrite Hp. apply Z.eqb_eq. exact H.
  - intros H. apply opt_int_none in H. rewrite Hb in H. discriminate.
  - intros H. apply opt_str_none in H. rewrite Hd in H. apply Z.leb_le. exact H.
  - intros H. apply opt_str_none. rewrite Hd. apply Z.leb_le. exact H.
Qed.

Lemma high_byte_range (a : Z) : 0 <= a / 256 < 256 <-> 0 <= a < 65536.
Proof.
  split; intros H.
  - destruct (Z.lt_ge_cases a 0) as [Hneg | Hpos].
    + assert (a / 256 < 0) by (apply Z.div_lt_upper_bound; lia). lia.
    + split; [exact Hpos | ].
      destruct (Z.lt_ge_cases a 65536) as [Hlt | Hge]; [exact Hlt | ].
      assert (256 <= a / 256) by (apply Z.div_le_lower_bound; lia). lia.
  - split; [apply Z.div_pos | apply Z.div_lt_upper_bound]; lia.
Qed.

(** The settings of the enumerated domains are keys of their tables. *)
Lemma encodable_keys (c : Config) :
  encodable c ->
  missing (get_by_str PARSTR (parity c)) = false
  /\ missing (get_by_int BAUDRATE (baudrate c)) = false
  /\ missing (get_by_str DATARATE (datarate c)) = false.
Proof.
  intros (Hp & Hb & Hr & _). cbn [map PARSTR BAUDRATE DATARATE fst In] in Hp, Hb, Hr.
  repeat (destruct Hp as [<- | Hp]; [ | ]); try contradiction;
    repeat (destruct Hb as [<- | Hb]; [ | ]); try contradiction;
    repeat (destruct Hr as [<- | Hr]; [ | ]); try contradiction.
  all: repeat split.
Qed.

(** X3.  [encodeConfig] never returns a register.  Each of the two
    strings it builds starts with ['0b'], and [int] without a base refuses
    such a text: for settings that are keys of the class tables, so for
    every configuration of the enumerated domains, it raises [ValueError]
    on the speed byte; when the parity, the baud rate or the air data rate
    is not a key of its table it raises [TypeError] before, on appending
    [None] to the string.  The address and the channel play no part. *)
Theorem encodeConfig_always_raises (c : Config) :
  let unknown := missing (get_by_str PARSTR (parity c))
                 || missing (get_by_int BAUDRATE (baudrate c))
                 || missing (get_by_str DATARATE (datarate c)) in
  encodeConfig c = Err (if unknown then TypeError else ValueError)
  /\ (forall register, encodeConfig c <> Ok register)
  /\ (encodable c -> encodeConfig c = Err ValueError)
  /\ (forall bits, speed_bits c = Ok bits -> py_int bits = Err ValueError)
  /\ py_int (option_bits c) = Err ValueError.
Proof.
  intros unknown. pose proof (encodeConfig_raises c) as Hraise. fold unknown in Hraise.
  split; [exact Hraise | ]. split; [ | split; [ | split]].
  - intros register H. rewrite Hraise in H. discriminate.
  - intros Henc. destruct (encodable_keys c Henc) as (Hp & Hb & Hr).
    rewrite Hraise. unfold unknown. rewrite Hp, Hb, Hr. reflexivity.
  - intros bits Hbits. destruct (speed_bits_prefixed c bits Hbits) as (s & ->).
    apply py_int_prefixed.
  - apply py_int_prefixed.
Qed.

(** The string built for the speed byte from what was decoded from the
    byte [b]: the binary literal of [b], unless a pattern has no key. *)
Lemma speed_bits_reencoded (b : byte) :
  let s := byte_val b in
  obind (append_str "0b" (get_by_str PARSTR (opt_str (key_of_code PARSTR (s / 64)))))
    (fun bits =>
  obind (append_str bits (get_by_int BAUDRATE (opt_int (key_of_code BAUDRATE (s / 8 mod 8)))))
    (fun bits =>
  append_str bits (get_by_str DATARATE (opt_str (key_of_code DATARATE (s mod 8))))))
  = if (s / 64 <? 3) && (s mod 8 <? 6) then Ok ("0b" ++ format_b 8 s) else Err TypeError.
Proof. destruct b; vm_compute; reflexivity. Qed.

(** The string built for the option byte from what was decoded from the
    byte [b], and the number it denotes. *)
Lemma option_bits_reencoded (b : byte) :
  let o := byte_val b in
  exists o',
    literal ("0b" ++ py_str_int (o / 128) ++ py_str_int (o / 64 mod 2)
                  ++ format_b 3 (bits_read_as_decimal (o / 8 mod 8))
                  ++ py_str_int (o / 4 mod 2)
                  ++ format_b 2 (bits_read_as_decimal (o mod 4)))
    = Ok o'
    /\ (o' =? o) = ((o / 8 mod 8 <=? 1) && (o mod 4 <=? 1)).
Proof. destruct b; eexists; split; vm_compute; reflexivity. Qed.

Lemma literal_of_byte (b : byte) : literal ("0b" ++ format_b 8 (byte_val b)) = Ok (byte_val b).
Proof. destruct b; vm_compute; reflexivity. Qed.

(** X4.  The register the other way round: decoding six bytes and
    encoding the result.  [encodeConfig] raises on the decoded
    configuration: [TypeError] when the speed byte holds a pattern no table
    key has (parity 11, air data rate 110 or 111), [ValueError] otherwise.
    In the second case the string it has built for the speed byte is the
    binary literal of the byte that was decoded; the string it builds for
    the option byte denotes the byte that was decoded exactly when its
    wake-up bits and its power bits are 0 or 1. *)
Theorem encodeConfig_after_decode (b0 b1 b2 b3 b4 b5 : byte) (c0 : Config) :
  let s := byte_val b3 in
  let o := byte_val b5 in
  exists c',
    decodeConfig (PBytes [b0; b1; b2; b3; b4; b5]) c0 = (Ret tt, c')
    /\ encodeConfig c'
       = Err (if (s / 64 <? 3) && (s mod 8 <? 6) then ValueError else TypeError)
    /\ (s / 64 = 3 \/ 6 <= s mod 8 -> speed_bits c' = Err TypeError)
    /\ (s / 64 < 3 -> s mod 8 < 6 ->
        speed_bits c' = Ok ("0b" ++ format_b 8 s) /\ literal ("0b" ++ format_b 8 s) = Ok s)
    /\ exists o',
         literal (option_bits c') = Ok o'
         /\ (o' = o <-> o / 8 mod 8 <= 1 /\ o mod 4 <= 1).
Proof.
  intros s o. exists (decoded b1 b2 b3 b4 b5 c0).
  split; [apply decodeConfig_decoded | ].
  pose proof (speed_bits_reencoded b3) as Hs. cbv zeta in Hs. fold s in Hs.
  destruct (option_bits_reencoded b5) as (o' & Ho & Hsame). fold o in Ho, Hsame.
  assert (Hbits : speed_bits (decoded b1 b2 b3 b4 b5 c0)
                  = if (s / 64 <? 3) && (s mod 8 <? 6)
                    then Ok ("0b" ++ format_b 8 s) else Err TypeError)
    by exact Hs.
  pose proof (byte_val_range b3) as R3. fold s in R3.
  split; [ | split; [ | split; [ | exists o'; split]]].
  - unfold encodeConfig. rewrite Hbits.
    destruct ((s / 64 <? 3) && (s mod 8 <? 6)); cbn [obind]; [ | reflexivity].
    rewrite py_int_prefixed. reflexivity.
  - intros Hres. rewrite Hbits.
    destruct (Z.ltb_spec (s / 64) 3) as [Hp | Hp]; cbn [andb]; [ | reflexivity].
    destruct (Z.ltb_spec (s mod 8) 6) as [Hd | Hd]; [ | reflexivity].
    assert (s / 64 < 4) by (apply Z.div_lt_upper_bound; lia). lia.
  - intros Hp Hd. rewrite Hbits.
    destruct (Z.ltb_spec (s / 64) 3) as [_ | Hp']; [ | lia].
    destruct (Z.ltb_spec (s mod 8) 6) as [_ | Hd']; [ | lia]. cbn [andb].
    split; [reflexivity | apply literal_of_byte].
  - exact Ho.
  - rewrite <- Z.eqb_eq, Hsame, andb_true_iff, !Z.leb_le. reflexivity.
Qed.

(** ** The checksum and the order of the characters *)

Lemma ord_sum_permutation (p q : text) : Permutation p q -> ord_sum p = ord_sum q.
Proof.
  induction 1 as [ | x p q _ IH | x y p | p q r _ IH1 _ IH2]; cbn [ord_sum fold_right].
  - reflexivity.
  - fold (ord_sum p) (ord_sum q). rewrite IH. reflexivity.
  - fold (ord_sum p). lia.
  - congruence.
Qed.

(** X5.  The checksum does not see the order of the characters: two
    texts that are permutations of each other get the same checksum
    text, and one passes the receiver's test (checksum 0) exactly when the
    other does.  A frame whose bytes arrive in another order is not
    reported as corrupt. *)
Theorem calcChecksum_order_blind (p q : text) :
  Permutation p q ->
  calcChecksum p = calcChecksum q
  /\ py_int16 (calcChecksum p) = py_int16 (calcChecksum q)
  /\ (checksum_value p = 0 <-> checksum_value q = 0).
Proof.
  intros H. unfold calcChecksum, checksum_value.
  rewrite (ord_sum_permutation p q H). repeat split; auto.
Qed.

Lemma calcChecksum_order_blind_witness :
  calcChecksum [123; 49; 50; 125]%N = calcChecksum [123; 50; 49; 125]%N.
Proof.
  destruct (calcChecksum_order_blind [123; 49; 50; 125]%N [123; 50; 49; 125]%N) as (H & _).
  - apply perm_skip, perm_swap.
  - exact H.
Defined.

(** ** The mode controller *)

Lemma dict_get_OPERMODE (mode : string) :
  dict_get OPERMODE mode
  = if String.eqb mode "normal" then Some "00"
    else if String.eqb mode "wakeup" then Some "10"
    else if String.eqb mode "powersave" then Some "01"
    else if String.eqb mode "sleep" then Some "11"
    else None.
Proof.
  unfold dict_get, OPERMODE. cbn [find fst snd].
  rewrite !(String.eqb_sym _ mode).
  repeat (destruct (String.eqb mode _); [reflexivity | ]). reflexivity.
Qed.

(** X6.  [setOperationMode] for every mode name: M0 is driven high for
    ["wakeup"] and ["sleep"], M1 for ["powersave"] and ["sleep"], and any
    other name, known or not, gives the normal mode (both low).  The pins
    are set one after the other and 50 ms are slept; on pins that are not
    bound it raises [AttributeError] (the meaning of [set_pins]). *)
Theorem setOperationMode_pins (mode : string) (d : driver) :
  setOperationMode mode d
  = set_pins (if String.eqb mode "wakeup" || String.eqb mode "sleep" then 1 else 0)
             (if String.eqb mode "powersave" || String.eqb mode "sleep" then 1 else 0) d.
Proof.
  destruct (String.eqb_spec mode "sleep") as [-> | Hs]; [apply setOperationMode_sleep | ].
  destruct (String.eqb_spec mode "wakeup") as [-> | Hw]; [apply setOperationMode_wakeup | ].
  destruct (String.eqb_spec mode "normal") as [-> | Hn]; [apply setOperationMode_normal | ].
  unfold setOperationMode. rewrite dict_get_OPERMODE.
  apply String.eqb_neq in Hs, Hw, Hn. rewrite Hs, Hw, Hn. cbn [orb].
  destruct (String.eqb mode "powersave").
  - cbv zeta. change (int_at (PStr "01") 0) with (Ok 0). change (int_at (PStr "01") 1) with (Ok 1).
    unfold set_pins. run. destruct (M0 d); run; [ | reflexivity]. destruct (M1 d); run; reflexivity.
  - cbv zeta. change (int_at (PStr "00") 0) with (Ok 0). change (int_at (PStr "00") 1) with (Ok 0).
    unfold set_pins. run. destruct (M0 d); run; [ | reflexivity]. destruct (M1 d); run; reflexivity.
Qed.

(** The loop when the line goes high at the reading [k] from now. *)
Lemma wait_loop_idle_at (k : nat) :
  forall (fuel : nat) (count : Z) (d : driver),
    0 <= count -> count + Z.of_nat k < 10 -> (k < fuel)%nat ->
    AUX d = true ->
    (forall j, (j < k)%nat -> aux_line d (aux_reads d + j) = false) ->
    aux_line d (aux_reads d + k) = true ->
    wait_loop fuel count d
    = (Ret tt, with_slept_ms (slept_ms d + 10 * Z.of_nat k) (with_aux_reads (aux_reads d + k + 1) d)).
Proof.
  induction k as [ | k IH]; intros fuel count d Hc Hk Hf Haux Hlow Hhigh;
    (destruct fuel as [ | fuel]; [lia | ]); cbn [wait_loop]; unfold bind, AUX_value; rewrite Haux.
  - rewrite Nat.add_0_r in Hhigh. rewrite Hhigh. cbn [negb]. unfold ret.
    unfold with_slept_ms, with_aux_reads; fields; do 2 f_equal; lia.
  - pose proof (Hlow 0%nat ltac:(lia)) as Hfirst. rewrite Nat.add_0_r in Hfirst.
    rewrite Hfirst. cbn [negb].
    destruct (Z.eqb_spec (count + 1) 10) as [H10 | _]; [lia | ].
    unfold sleep_ms, modify.
    rewrite (IH fuel (count + 1)); fields; auto; try lia.
    + unfold with_slept_ms, with_aux_reads; fields; do 2 f_equal; lia.
    + intros j Hj. replace (S (aux_reads d) + j)%nat with (aux_reads d + S j)%nat by lia.
      apply Hlow. lia.
    + replace (S (aux_reads d) + k)%nat with (aux_reads d + S k)%nat by lia. exact Hhigh.
Qed.

(** The loop when the line stays low until the counter reaches 10. *)
Lemma wait_loop_gives_up (k : nat) :
  forall (fuel : nat) (count : Z) (d : driver),
    0 <= count -> count + Z.of_nat k = 10 -> (0 < k <= fuel)%nat ->
    AUX d = true ->
    (forall j, (j < k)%nat -> aux_line d (aux_reads d + j) = false) ->
    wait_loop fuel count d
    = (Ret tt, with_slept_ms (slept_ms d + 10 * (Z.of_nat k - 1)) (with_aux_reads (aux_reads d + k) d)).
Proof.
  induction k as [ | k IH]; intros fuel count d Hc Hk Hf Haux Hlow; [lia | ].
  destruct fuel as [ | fuel]; [lia | ]. cbn [wait_loop]. unfold bind, AUX_value. rewrite Haux.
  pose proof (Hlow 0%nat ltac:(lia)) as Hfirst. rewrite Nat.add_0_r in Hfirst.
  rewrite Hfirst. cbn [negb].
  destruct (Z.eqb_spec (count + 1) 10) as [H10 | H10].
  - assert (k = 0%nat) by lia. subst k. unfold ret.
    unfold with_slept_ms, with_aux_reads; fields; do 2 f_equal; lia.
  - unfold sleep_ms, modify.
    rewrite (IH fuel (count + 1)); fields; auto; try lia.
    + unfold with_slept_ms, with_aux_reads; fields; do 2 f_equal; lia.
    + intros j Hj. replace (S (aux_reads d) + j)%nat with (aux_reads d + S j)%nat by lia.
      apply Hlow. lia.
Qed.

(** X7.  What [waitForDeviceIdle] costs.  If the AUX line is low for
    the next [k] readings and high at the one after ([k] below 10), the
    wait reads the line [k + 1] times and sleeps [10 * k] ms; if it is low
    for the next 10 readings, the wait reads it 10 times, sleeps 90 ms and
    returns all the same: the caller gets no sign that the module is still
    busy.  Nothing else of the state changes. *)
Theorem waitForDeviceIdle_polls (fuel : nat) (d : driver) (k : nat) :
  (10 <= fuel)%nat -> AUX d = true -> (k <= 10)%nat ->
  (forall j, (j < k)%nat -> aux_line d (aux_reads d + j) = false) ->
  ((k < 10)%nat -> aux_line d (aux_reads d + k) = true) ->
  waitForDeviceIdle fuel d
  = (Ret tt,
     with_slept_ms (slept_ms d + 10 * Z.of_nat (Nat.min k 9))
       (with_aux_reads (aux_reads d + Nat.min (k + 1) 10) d)).
Proof.
  intros Hf Haux Hk Hlow Hhigh. unfold waitForDeviceIdle.
  destruct (Nat.eq_dec k 10) as [-> | Hne].
  - rewrite (wait_loop_gives_up 10 fuel 0 d); auto; try lia.
  - assert (Hh : aux_line d (aux_reads d + k) = true) by (apply Hhigh; lia).
    rewrite (wait_loop_idle_at k fuel 0 d); auto; try lia.
    replace (Nat.min k 9) with k by lia. replace (Nat.min (k + 1) 10) with (k + 1)%nat by lia.
    rewrite Nat.add_assoc. reflexivity.
Qed.

Lemma waitForDeviceIdle_polls_witness :
  waitForDeviceIdle 10 busy_driver
  = (Ret tt, with_slept_ms 30 (with_aux_reads 4 busy_driver)).
Proof.
  apply (waitForDeviceIdle_polls 10 busy_driver 3).
  - lia.
  - reflexivity.
  - lia.
  - intros j Hj. destruct j as [ | [ | [ | j]]]; try reflexivity. lia.
  - intros _. reflexivity.
Defined.

(** ** The command channel *)

(** X8.  The commands that carry no register, on bound hardware:
    [sendCommand] puts the module in sleep mode and writes the opcode
    three times (C1 C1 C1 for [getConfig], C3 C3 C3 for [getVersion],
    C4 C4 C4 for [reset]).  For [reset] it then returns the empty string
    without reading, after 100 ms of sleep in all; for the two others it
    returns what one [serdev.read()] gives ([None] when nothing has
    arrived), after 150 ms.  The configuration is not touched. *)
Theorem sendCommand_query (cmd : string) (code : Z) (d : driver) :
  (cmd = "getConfig" /\ code = 0xC1) \/ (cmd = "getVersion" /\ code = 0xC3)
  \/ (cmd = "reset" /\ code = 0xC4) ->
  M0 d <> None -> M1 d <> None -> serdev d = true ->
  exists b d',
    sendCommand cmd d = (Ret (if String.eqb cmd "reset" then PStr "" else next_read d), d')
    /\ tx d' = (tx d ++ [(Some 1, Some 1, b)])%list
    /\ map byte_val b = [code; code; code]
    /\ rx d' = (if String.eqb cmd "reset" then rx d else tl (rx d))
    /\ slept_ms d' = slept_ms d + (if String.eqb cmd "reset" then 100 else 150)
    /\ M0 d' = Some 1 /\ M1 d' = Some 1 /\ config d' = config d.
Proof.
  intros Hcmd H0 H1 Hser.
  unfold sendCommand. rewrite try_run, bind_run, setOperationMode_sleep. unfold set_pins, next_read.
  destruct (M0 d) as [m0 | ] eqn:E0; [ | contradiction].
  destruct (M1 d) as [m1 | ] eqn:E1; [ | contradiction].
  destruct Hcmd as [(-> & ->) | [(-> & ->) | (-> & ->)]].
  all: cbn [dict_get CMDS find fst snd String.eqb Ascii.eqb Bool.eqb option_map Z.eqb Pos.eqb orb andb].
  all: run; rewrite ?Hser; run.
  all: match goal with |- context [py_bytes ?l] =>
         let v := eval vm_compute in (py_bytes l) in change (py_bytes l) with v end.
  all: destruct (debug d) eqn:Hd.
  all: destruct (rx d) as [ | [r | ] rest] eqn:Hrx.
  all: repeat (progress (run; try rewrite Hser; try rewrite Hd; try rewrite Hrx)).
  all: eexists _, _; (split; [reflexivity | ]); run.
  all: repeat split; try reflexivity; try lia; cbn [tl]; assumption.
Qed.

Lemma sendCommand_query_witness :
  exists b d',
    sendCommand "getVersion" (sample_driver false [Some [xc3; x45; x0d; x14]])
    = (Ret (PBytes [xc3; x45; x0d; x14]), d')
    /\ tx d' = [(Some 1, Some 1, b)]
    /\ map byte_val b = [0xC3; 0xC3; 0xC3].
Proof.
  destruct (sendCommand_query "getVersion" 0xC3 (sample_driver false [Some [xc3; x45; x0d; x14]]))
    as (b & d' & Hrun & Htx & Hb & _).
  - right. left. split; reflexivity.
  - discriminate.
  - discriminate.
  - reflexivity.
  - exists b, d'. repeat split; assumption.
Defined.

Lemma encodeConfig_shape (c : Config) (reg : list pyval) :
  encodeConfig c = Ok reg ->
  exists s o,
    reg = [PInt 0xC0; PInt (address c / 256); PInt (address c mod 256); PInt s; channel c; PInt o].
Proof.
  unfold encodeConfig. intros H.
  repeat match type of H with
         | obind ?x _ = _ => destruct x; cbn [obind] in H; [ | discriminate]
         end.
  injection H as <-. eexists _, _. reflexivity.
Qed.

(** X9.  The two commands that carry the register never reach the
    module.  Whatever the configuration and the state of the hardware,
    [sendCommand] returns the string ["NOK"] for them, having written
    nothing and read nothing: on bound pins it has put the module in sleep
    mode (M0 and M1 high, 50 ms), then [encodeConfig] has raised.
    [setConfig] with such a command therefore returns ["NOK"] as well,
    with the configuration and the snapshot as they were: the length it
    checks is that of the string ["NOK"]. *)
Theorem sendCommand_register_never_sent (cmd : string) (d : driver) :
  cmd = "setConfigPwrDwnSave" \/ cmd = "setConfigPwrDwnNoSave" ->
  (exists d',
     sendCommand cmd d = (Ret (PStr "NOK"), d')
     /\ tx d' = tx d /\ rx d' = rx d /\ config d' = config d /\ snapshot d' = snapshot d
     /\ (M0 d <> None -> M1 d <> None ->
         M0 d' = Some 1 /\ M1 d' = Some 1 /\ slept_ms d' = slept_ms d + 50))
  /\ (exists d',
        setConfig cmd d = (Ret "NOK", d')
        /\ tx d' = tx d /\ rx d' = rx d /\ config d' = config d /\ snapshot d' = snapshot d).
Proof.
  intros Hcmd. split.
  - destruct (sendCommand_register_effect cmd d Hcmd) as (d' & Hrun & Hcfg & Hsent & Hpins).
    destruct Hsent as (_ & Hsnap & Htx & Hrx & _).
    exists d'. do 5 (split; [assumption | ]).
    intros Hm0 Hm1. unfold set_pins in Hpins.
    destruct (M0 d); [ | contradiction]. destruct (M1 d); [ | contradiction].
    fields. injection Hpins as -> -> ->. repeat split.
  - destruct (setConfig_register_effect cmd d Hcmd) as (d' & Hrun & Hcfg & Hsent & _).
    destruct Hsent as (_ & Hsnap & Htx & Hrx & _).
    exists d'. repeat split; auto.
Qed.

Lemma sendCommand_register_never_sent_witness :
  exists d',
    sendCommand "setConfigPwrDwnSave" (sample_driver false [Some sample_response])
    = (Ret (PStr "NOK"), d')
    /\ tx d' = [] /\ rx d' = [Some sample_response].
Proof.
  destruct (sendCommand_register_never_sent "setConfigPwrDwnSave"
              (sample_driver false [Some sample_response]))
    as ((d' & Hrun & Htx & Hrx & _) & _).
  - left. reflexivity.
  - exists d'. repeat split; assumption.
Defined.

Lemma py_bytes_header (code : Z) (rest : list pyval) :
  (forall b, py_bytes (PInt 0xC0 :: rest) <> Ok b) ->
  exists e, obind (to_byte (PInt code)) (fun b => obind (py_bytes rest) (fun bs => Ok (b :: bs)))
            = Err e.
Proof.
  intros Hno. cbn [py_bytes] in Hno.
  change (to_byte (PInt 192)) with (Ok xc0) in Hno. cbn [obind] in Hno.
  destruct (py_bytes rest) as [bs | e].
  - exfalso. apply (Hno (xc0 :: bs)). reflexivity.
  - destruct (to_byte (PInt code)) as [b | e']; cbn [obind]; eexists; reflexivity.
Qed.

(** X10.  When [sendCommand] refuses.  For a command name that is not
    in [CMDS], on hardware that is not bound (a pin or the UART), and for
    a register command whose configuration cannot be turned into bytes
    ([encodeConfig] raises, or an element is not a byte), [sendCommand]
    returns ["NOK"], has written nothing and read nothing, and leaves the
    configuration and the snapshot as they were. *)
Theorem sendCommand_refused (cmd : string) (d : driver) :
  dict_get CMDS cmd = None
  \/ M0 d = None \/ M1 d = None \/ serdev d = false
  \/ ((cmd = "setConfigPwrDwnSave" \/ cmd = "setConfigPwrDwnNoSave")
      /\ forall b, obind (encodeConfig (config d)) py_bytes <> Ok b) ->
  exists d',
    sendCommand cmd d = (Ret (PStr "NOK"), d')
    /\ tx d' = tx d /\ rx d' = rx d /\ config d' = config d /\ snapshot d' = snapshot d.
Proof.
  intros Hcase.
  unfold sendCommand. rewrite try_run, bind_run, setOperationMode_sleep. unfold set_pins.
  destruct (M0 d) as [m0 | ] eqn:E0.
  2: { run. destruct (debug d) eqn:Hd; run; eexists; repeat split. }
  destruct (M1 d) as [m1 | ] eqn:E1.
  2: { run. destruct (debug d) eqn:Hd; run; eexists; repeat split. }
  destruct Hcase as [Hcmd | [H | [H | [Hser | (Hcmd & Hno)]]]]; try discriminate.
  - rewrite Hcmd. run. destruct (debug d) eqn:Hd; run; rewrite ?Hd; run.
    all: change (py_bytes [PNone; PNone; PNone]) with (@Err (list byte) TypeError).
    all: destruct (serdev d); run; rewrite ?Hd; run; eexists; repeat split.
  - run. rewrite ?Hser. repeat (break_match; run; rewrite ?Hser).
    all: eexists; repeat split.
  - assert (Hlist : exists e,
      match dict_get CMDS cmd with
      | Some code0 =>
          if (code0 =? 0xC0) || (code0 =? 0xC2)
          then obind (encodeConfig (config d)) (set_first (PInt code0))
          else Ok [PInt code0; PInt code0; PInt code0]
      | None => Ok [PNone; PNone; PNone]
      end = Err e
      \/ exists l e',
      match dict_get CMDS cmd with
      | Some code0 =>
          if (code0 =? 0xC0) || (code0 =? 0xC2)
          then obind (encodeConfig (config d)) (set_first (PInt code0))
          else Ok [PInt code0; PInt code0; PInt code0]
      | None => Ok [PNone; PNone; PNone]
      end = Ok l /\ py_bytes l = Err e').
    { destruct (encodeConfig (config d)) as [reg | e] eqn:Hreg.
      - destruct (encodeConfig_shape _ _ Hreg) as (s & o & ->). cbn [obind] in Hno.
        exists TypeError. right.
        destruct Hcmd as [-> | ->];
          cbn [dict_get CMDS find fst snd String.eqb Ascii.eqb Bool.eqb option_map Z.eqb Pos.eqb
               orb andb obind set_first].
        + destruct (py_bytes_header 0xC0 _ Hno) as (e' & He'). eexists _, e'.
          split; [reflexivity | exact He'].
        + destruct (py_bytes_header 0xC2 _ Hno) as (e' & He'). eexists _, e'.
          split; [reflexivity | exact He'].
      - exists e. left. destruct Hcmd as [-> | ->]; reflexivity. }
    destruct Hlist as (e & [Hl | (l & e' & Hl & Hb)]); run; rewrite Hl; run.
    + destruct (debug d) eqn:Hd; run; eexists; repeat split.
    + destruct (debug d) eqn:Hd; run; rewrite ?Hd; run.
      all: destruct (serdev d); run; rewrite ?Hb, ?Hd; run; rewrite ?Hd; run; eexists; repeat split.
Qed.

Lemma sendCommand_refused_witness :
  exists d',
    sendCommand "getStatus" (sample_driver false [Some [xc1; x00]]) = (Ret (PStr "NOK"), d')
    /\ tx d' = [] /\ rx d' = [Some [xc1; x00]].
Proof.
  destruct (sendCommand_refused "getStatus" (sample_driver false [Some [xc1; x00]]))
    as (d' & Hrun & Htx & Hrx & _).
  - left. reflexivity.
  - exists d'. repeat split; assumption.
Defined.

(** X11.  [reset] returns ["OK"] whatever happens: [sendCommand] turns
    its own failures into the value ["NOK"], which [reset] discards, so the
    [except] branch of [reset] is never taken.  A reset on a driver that
    was never started, which writes nothing, reports ["OK"] too.  At most
    the three bytes C4 C4 C4 are written; nothing is read, and the
    configuration and the snapshot are left alone. *)
Theorem reset_always_OK (d : driver) :
  exists d',
    reset d = (Ret "OK", d')
    /\ config d' = config d /\ snapshot d' = snapshot d /\ rx d' = rx d
    /\ (tx d' = tx d \/ tx d' = (tx d ++ [(Some 1, Some 1, [xc4; xc4; xc4])])%list)
    /\ (M0 d = None \/ M1 d = None \/ serdev d = false -> tx d' = tx d).
Proof.
  unfold reset, sendCommand.
  rewrite !try_run, bind_run, try_run, bind_run, setOperationMode_sleep. unfold set_pins.
  change (dict_get CMDS "reset") with (Some 0xC4).
  cbn [Z.eqb Pos.eqb orb String.eqb Ascii.eqb Bool.eqb andb].
  change (py_bytes [PInt 196; PInt 196; PInt 196]) with (Ok [xc4; xc4; xc4]).
  destruct (M0 d) as [m0 | ] eqn:E0; [destruct (M1 d) as [m1 | ] eqn:E1 | ]; run.
  all: destruct (debug d) eqn:Hd; run; rewrite ?Hd; run.
  all: try (destruct (serdev d) eqn:Hser; run; rewrite ?Hd; run).
  all: eexists; (split; [reflexivity | ]); run.
  all: repeat split; try (left; reflexivity); try (right; reflexivity).
  all: intros [H | [H | H]]; try discriminate; reflexivity.
Qed.

(** ** [getConfig] *)

Lemma maxpow_index (s : string) :
  let p := match dict_get MAXPOW s with Some p => p | None => 0 end in
  p = 0 \/ p = 1 \/ p = 2.
Proof.
  unfold dict_get, MAXPOW. cbn [find fst snd].
  repeat (destruct (String.eqb _ s); [cbn; auto | ]). cbn; auto.
Qed.

(** [showConfig] on a configuration whose channel and baud rate are
    integers: it fails exactly on a power that is not a key of
    [TXPOWER]. *)
Lemma showConfig_outcome (d : driver) (ch b : Z) :
  channel (config d) = PInt ch -> baudrate (config d) = PInt b ->
  fst (showConfig d)
  = if missing (dict_getZ TXPOWER (txpower (config d))) then Raise TypeError else Ret tt.
Proof.
  intros Hch Hb. unfold showConfig. run. rewrite Hch, Hb.
  cbn [percent_x percent_d as_index obind]. run.
  pose proof (maxpow_index (slice 3 6 (model (config d)))) as Hp. cbv zeta in Hp.
  destruct (dict_getZ TXPOWER (txpower (config d))) as [powers | ] eqn:Hpow; cbn [missing]; run;
    [ | reflexivity].
  assert (Hlen : exists p0 p1 p2, powers = [p0; p1; p2]).
  { unfold dict_getZ, TXPOWER in Hpow. cbn [find fst snd] in Hpow.
    repeat match type of Hpow with
           | context [if ?c then _ else _] => destruct c
           end; cbn in Hpow; try discriminate; injection Hpow as <-; eexists _, _, _; reflexivity. }
  destruct Hlen as (p0 & p1 & p2 & ->).
  destruct Hp as [-> | [-> | ->]]; reflexivity.
Qed.

Lemma baudrate_always_decoded (b : byte) :
  exists z, opt_int (key_of_code BAUDRATE (byte_val b / 8 mod 8)) = PInt z.
Proof. destruct b; vm_compute; eexists; reflexivity. Qed.

Lemma power_bits_displayed (b : byte) :
  missing (dict_getZ TXPOWER (bits_read_as_decimal (byte_val b mod 4)))
  = negb (byte_val b mod 4 <=? 1).
Proof. destruct b; vm_compute; reflexivity. Qed.

Lemma length_6 {A} (l : list A) :
  Z.of_nat (List.length l) = 6 -> exists a b c e f g, l = [a; b; c; e; f; g].
Proof.
  intros H.
  destruct l as [ | a [ | b [ | c [ | e [ | f [ | g [ | h l]]]]]]]; cbn [List.length] in H; try lia.
  now exists a, b, c, e, f, g.
Qed.

(** X12.  [getConfig], relative to the response [sendCommand] returned.
    It returns ["OK"] or ["NOK"], never writes the snapshot and writes
    nothing after the command.  A response that is not 6 long gives
    ["NOK"] with the configuration as it was.  Six bytes are decoded into
    the configuration whatever the debug flag says, and the call then
    returns ["OK"] exactly when the power bits of the last byte are 00 or
    01: for 10 and 11 the decoded power is not a key of [TXPOWER], the
    display raises, and the call returns ["NOK"] with the configuration
    already replaced. *)
Theorem getConfig_contract (d d1 : driver) (response : pyval) :
  sendCommand "getConfig" d = (Ret response, d1) ->
  exists r d',
    getConfig d = (Ret r, d')
    /\ (r = "OK" \/ r = "NOK")
    /\ snapshot d' = snapshot d /\ tx d' = tx d1
    /\ (py_len response <> Ok 6 -> r = "NOK" /\ config d' = config d)
    /\ (forall b0 b1 b2 b3 b4 b5,
          response = PBytes [b0; b1; b2; b3; b4; b5] ->
          config d' = decoded b1 b2 b3 b4 b5 (config d)
          /\ (r = "OK" <-> byte_val b5 mod 4 <= 1)).
Proof.
  intros Hrun.
  destruct (sendCommand_result _ _ _ _ Hrun) as (Hcfg & Hdbg & Hsnap & _ & Hshape).
  unfold getConfig. rewrite try_run, bind_run, Hrun, bind_run.
  destruct Hshape as [-> | [(b & ->) | [-> | ->]]].
  - cbn [py_len]. run. destruct (debug d1); run.
    all: eexists _, _; split; [reflexivity | ]; run.
    all: repeat split; auto; try discriminate; try (intros; discriminate).
  - cbn [py_len]. run.
    destruct (Z.of_nat (List.length b) =? 6) eqn:H6; run.
    + apply Z.eqb_eq in H6. destruct (length_6 b H6) as (b0 & b1 & b2 & b3 & b4 & b5 & ->).
      rewrite decodeConfig_decoded. run.
      set (d2 := with_config (fun _ => decoded b1 b2 b3 b4 b5 (config d1)) d1).
      destruct (baudrate_always_decoded b3) as (z & Hz).
      pose proof (showConfig_outcome d2 (byte_val b4) z eq_refl Hz) as Hshow.
      pose proof (showConfig_same_link d2) as Hlink.
      change (txpower (config d2)) with (bits_read_as_decimal (byte_val b5 mod 4)) in Hshow.
      rewrite power_bits_displayed in Hshow.
      destruct (showConfig d2) as [o d3]. cbn [fst snd] in Hshow, Hlink. subst o.
      destruct Hlink as (Lc & Ld & _ & _ & _ & _ & _ & Ltx & Ls).
      unfold d2 in Lc, Ld, Ltx, Ls. clearbody d2. fields.
      destruct (Z.leb_spec (byte_val b5 mod 4) 1) as [Hle | Hgt]; cbn [negb]; run.
      * eexists _, _; split; [reflexivity | ].
        split; [left; reflexivity | ].
        split; [congruence | ]. split; [exact Ltx | ].
        split; [intros Hne; exfalso; apply Hne; reflexivity | ].
        intros ? ? ? ? ? ? Heq. injection Heq as <- <- <- <- <- <-.
        rewrite Lc, Hcfg. split; [reflexivity | ].
        split; [intros _; exact Hle | reflexivity].
      * destruct (debug d3) eqn:Hd3; run.
        all: eexists _, _; split; [reflexivity | ]; run.
        all: split; [right; reflexivity | ].
        all: split; [congruence | ]; split; [exact Ltx | ].
        all: split; [intros Hne; exfalso; apply Hne; reflexivity | ].
        all: intros ? ? ? ? ? ? Heq; injection Heq as <- <- <- <- <- <-.
        all: rewrite Lc, Hcfg; split; [reflexivity | ].
        all: split; [discriminate | lia].
    + apply Z.eqb_neq in H6.
      eexists _, _; split; [reflexivity | ]; run.
      repeat split; auto; try discriminate.
      all: exfalso;
        match goal with Heq : PBytes _ = PBytes _ |- _ => injection Heq as -> end;
        apply H6; reflexivity.
  - cbn [py_len String.length]. run.
    eexists _, _; split; [reflexivity | ]; run.
    repeat split; auto; try discriminate; try (intros; discriminate).
  - cbn [py_len String.length]. run.
    eexists _, _; split; [reflexivity | ]; run.
    repeat split; auto; try discriminate; try (intros; discriminate).
Qed.

Lemma getConfig_contract_witness :
  exists d',
    getConfig (sample_driver false [Some [xc0; x00; x01; x1a; x06; x46]]) = (Ret "NOK", d')
    /\ address (config d') = 1.
Proof.
  assert (Hcmd : sendCommand "getConfig" (sample_driver false [Some [xc0; x00; x01; x1a; x06; x46]])
                 = (Ret (PBytes [xc0; x00; x01; x1a; x06; x46]),
                    snd (sendCommand "getConfig"
                           (sample_driver false [Some [xc0; x00; x01; x1a; x06; x46]]))))
    by (vm_compute; reflexivity).
  destruct (getConfig_contract _ _ _ Hcmd) as (r & d' & Hrun & Hr & _ & _ & _ & Hsix).
  destruct (Hsix _ _ _ _ _ _ eq_refl) as (Hcfg & Hok).
  exists d'. split.
  - destruct Hr as [-> | ->]; [ | exact Hrun].
    exfalso. assert (H : byte_val x46 mod 4 <= 1) by (apply Hok; reflexivity).
    vm_compute in H. apply H. reflexivity.
  - rewrite Hcfg. reflexivity.
Defined.

(** ** [setConfig] *)





(** ** What only [start] and [stop] change *)

Lemma same_hardware_refl d : same_hardware d d.
Proof. repeat split. Qed.

Lemma same_hardware_trans a b c : same_hardware a b -> same_hardware b c -> same_hardware a c.
Proof.
  unfold same_hardware. intros (A1 & A2 & A3 & A4 & A5 & A6) (B1 & B2 & B3 & B4 & B5 & B6).
  repeat split; try congruence.
  intros H. rewrite B6 by congruence. auto.
Qed.

Lemma same_link_hardware d d' : same_link d d' -> same_hardware d d'.
Proof.
  intros (_ & _ & L0 & L1 & La & Ls & Ll & Lt & _). unfold same_hardware.
  rewrite L0, L1. repeat split; auto.
Qed.

Lemma print_same_hardware l : keeps same_hardware (print l).
Proof. intros d. repeat split. Qed.

Lemma sleep_same_hardware n : keeps same_hardware (sleep_ms n).
Proof. intros d. repeat split. Qed.

Lemma AUX_value_same_hardware : keeps same_hardware AUX_value.
Proof. intros d. apply same_link_hardware, AUX_value_same_link. Qed.

Lemma serdev_read_same_hardware : keeps same_hardware serdev_read.
Proof. intros d. apply same_link_hardware, serdev_read_same_link. Qed.

Lemma serdev_write_same_hardware l : keeps same_hardware (serdev_write l).
Proof.
  intros d. unfold serdev_write. destruct (serdev d) eqn:Hs; [ | repeat split].
  destruct (py_bytes l); repeat split; fields; auto; congruence.
Qed.

Lemma M0_value_same_hardware v : keeps same_hardware (M0_value v).
Proof.
  intros d. unfold M0_value. destruct (M0 d) eqn:H; repeat split; fields; auto.
  rewrite H. reflexivity.
Qed.

Lemma M1_value_same_hardware v : keeps same_hardware (M1_value v).
Proof.
  intros d. unfold M1_value. destruct (M1 d) eqn:H; repeat split; fields; auto.
  rewrite H. reflexivity.
Qed.

Lemma on_config_same_hardware {A} (c : M Config A) : keeps same_hardware (on_config c).
Proof. intros d. unfold on_config. destruct (c (config d)). repeat split. Qed.

Lemma with_config_same_hardware f : keeps same_hardware (modify (with_config f)).
Proof. intros d. repeat split. Qed.

Lemma saveConfigToJson_same_hardware : keeps same_hardware saveConfigToJson.
Proof. intros d. repeat split. Qed.

Lemma when_debug_same_hardware c : keeps same_hardware c -> keeps same_hardware (when_debug c).
Proof.
  intros H d. unfold when_debug, bind, get, when.
  destruct (debug d); [apply H | apply same_hardware_refl].
Qed.

Create HintDb hardware discriminated.
#[local] Hint Resolve print_same_hardware sleep_same_hardware AUX_value_same_hardware
  serdev_read_same_hardware serdev_write_same_hardware M0_value_same_hardware
  M1_value_same_hardware on_config_same_hardware with_config_same_hardware
  saveConfigToJson_same_hardware : hardware.

(** Decomposes a goal [keeps same_hardware c] along the syntax of [c]. *)
Ltac keeps_hardware :=
  repeat first
    [ match goal with
      | |- keeps _ (bind _ _) => apply (keeps_bind _ same_hardware_trans)
      | |- keeps _ (try_except _ _) => apply (keeps_try _ same_hardware_trans)
      | |- keeps _ (ret _) => apply (keeps_ret _ same_hardware_refl)
      | |- keeps _ (raise _) => apply (keeps_raise _ same_hardware_refl)
      | |- keeps _ (lift _) => apply (keeps_lift _ same_hardware_refl)
      | |- keeps _ get => apply (keeps_get _ same_hardware_refl)
      | |- keeps _ (when _ _) => apply (keeps_when _ same_hardware_refl)
      | |- keeps _ (when_debug _) => apply when_debug_same_hardware
      | |- keeps _ (if _ then _ else _) => apply keeps_if
      | |- keeps _ (match ?x with _ => _ end) => destruct x
      | |- forall _, _ => intro
      end
    | solve [auto with hardware] ].

Lemma setOperationMode_same_hardware mode : keeps same_hardware (setOperationMode mode).
Proof. unfold setOperationMode. keeps_hardware. Qed.
#[local] Hint Resolve setOperationMode_same_hardware : hardware.

Lemma showConfig_same_hardware : keeps same_hardware showConfig.
Proof. intros d. apply same_link_hardware, showConfig_same_link. Qed.
#[local] Hint Resolve showConfig_same_hardware : hardware.

Lemma sendCommand_same_hardware cmd : keeps same_hardware (sendCommand cmd).
Proof. unfold sendCommand. keeps_hardware. Qed.
#[local] Hint Resolve sendCommand_same_hardware : hardware.

Lemma setConfig_same_hardware cmd : keeps same_hardware (setConfig cmd).
Proof. unfold setConfig. keeps_hardware. Qed.
#[local] Hint Resolve setConfig_same_hardware : hardware.

Lemma setTransmissionMode_same_hardware mode : keeps same_hardware (setTransmissionMode mode).
Proof. unfold setTransmissionMode. keeps_hardware. Qed.
#[local] Hint Resolve setTransmissionMode_same_hardware : hardware.

Lemma wait_loop_same_hardware fuel : forall count, keeps same_hardware (wait_loop fuel count).
Proof.
  induction fuel as [ | fuel IH]; intros count; cbn [wait_loop].
  - intros d. apply same_hardware_refl.
  - keeps_hardware; try apply IH.
Qed.

Lemma waitForDeviceIdle_same_hardware fuel : keeps same_hardware (waitForDeviceIdle fuel).
Proof. apply wait_loop_same_hardware. Qed.
#[local] Hint Resolve waitForDeviceIdle_same_hardware : hardware.

Lemma sendMessage_same_hardware dumps fuel a c payload k :
  keeps same_hardware (sendMessage dumps fuel a c payload k).
Proof. unfold sendMessage. keeps_hardware. Qed.

Lemma recvMessage_same_hardware loads a c k : keeps same_hardware (recvMessage loads a c k).
Proof. unfold recvMessage. keeps_hardware. Qed.

(** ** Construction and start *)

Lemma FREQ_bands (key : Z) (band : list Z) :
  dict_getZ FREQ key = Some band ->
  exists lo mid hi, band = [lo; mid; hi] /\ lo <= mid <= hi.
Proof.
  unfold dict_getZ, FREQ. cbn [find fst snd].
  repeat (destruct (_ =? key);
          [cbn; intros H; injection H as <-; eexists _, _, _; split; [reflexivity | lia] | ]).
  cbn. discriminate.
Qed.

(** X13.  The constructor, which stands outside any [try].  It builds
    a driver exactly when the text of the model before its first ['T'] is
    a number, that number is a key of [FREQ], and the channel is an
    integer; otherwise it raises.  The driver it builds has the frequency
    min(lowest frequency of the band + channel, highest frequency of the
    band), so never one above the band, and below the band for a negative
    channel; the channel is the argument when the sum fits in the band and
    the text of [hex(highest - lowest)] when it does not; the other
    parameters are stored unchecked, the five option fields are 0, 1, 0, 1,
    0, and nothing is bound to the hardware. *)
Theorem init_contract (Model Port : string) (Baudrate Parity AirDataRate : pyval) (Address : Z)
        (Channel : pyval) (dbg : bool) (line : nat -> bool) (incoming : list (option (list byte))) :
  let built := init Model Port Baudrate Parity AirDataRate Address Channel dbg line incoming in
  built <> OutOfFuel
  /\ ((exists d, built = Ret d)
      <-> exists key band ch,
            py_int (split_head "T" Model) = Ok key /\ dict_getZ FREQ key = Some band
            /\ as_index Channel = Ok ch)
  /\ forall d, built = Ret d ->
       exists key lo mid hi ch,
         py_int (split_head "T" Model) = Ok key /\ dict_getZ FREQ key = Some [lo; mid; hi]
         /\ as_index Channel = Ok ch
         /\ frequency (config d) = Z.min (lo + ch) hi
         /\ channel (config d) = (if lo + ch >? hi then PStr (py_hex (hi - lo)) else Channel)
         /\ (model (config d), port (config d), baudrate (config d), parity (config d),
             datarate (config d), address (config d))
            = (Model, Port, Baudrate, Parity, AirDataRate, Address)
         /\ (transmode (config d), iomode (config d), wutime (config d), fec (config d),
             txpower (config d)) = (0, 1, 0, 1, 0)
         /\ (M0 d, M1 d, AUX d, serdev d) = (None, None, false, false)
         /\ tx d = [] /\ snapshot d = None /\ debug d = dbg.
Proof.
  intros built. subst built. unfold init, calcFrequency. run. cbn [model channel].
  destruct (py_int (split_head "T" Model)) as [key | e] eqn:Hkey; run.
  2: { split; [discriminate | ]. split; [ | intros d H; discriminate].
       split; [intros (d & H); discriminate | intros (k & b & c & H & _); discriminate]. }
  destruct (dict_getZ FREQ key) as [band | ] eqn:Hband; run.
  2: { split; [discriminate | ]. split; [ | intros d H; discriminate].
       split; [intros (d & H); discriminate | intros (k & b & c & H1 & H2 & _)].
       injection H1 as <-. rewrite Hband in H2. discriminate. }
  destruct (FREQ_bands _ _ Hband) as (lo & mid & hi & -> & Hord). cbn [nth_error]. run.
  destruct (as_index Channel) as [ch | e] eqn:Hch; run.
  2: { split; [discriminate | ]. split; [ | intros d H; discriminate].
       split; [intros (d & H); discriminate | intros (k & b & c & _ & _ & H); discriminate]. }
  destruct (Z.gtb_spec (lo + ch) hi) as [Hgt | Hle]; run.
  all: split; [discriminate | ].
  all: split; [split; [intros _; eexists _, _, _; repeat split; eassumption
                      | intros _; eexists; reflexivity] | ].
  all: intros d Hd; injection Hd as <-.
  all: exists key, lo, mid, hi, ch; fields.
  all: cbn [frequency channel model port baudrate parity datarate address transmode iomode
            wutime fec txpower set_txpower set_fec set_wutime set_iomode set_transmode
            set_channel set_frequency].
  all: repeat split; auto; try lia.
  - destruct (Z.gtb_spec (lo + ch) hi); [reflexivity | lia].
  - destruct (Z.gtb_spec (lo + ch) hi); [lia | reflexivity].
Qed.

(** Reduces the projections of an updated configuration. *)
Ltac cfields :=
  cbn [model port baudrate parity datarate address channel frequency transmode iomode wutime
       fec txpower set_model set_port set_baudrate set_parity set_datarate set_address
       set_channel set_frequency set_transmode set_iomode set_wutime set_fec set_txpower] in *.

Ltac run_config := repeat (progress (run; cfields)).

Lemma parity_letter (p : pyval) :
  missing (get_by_str PARSTR p) = false ->
  exists s, py_index (PStr (py_str p)) 1 = Ok s.
Proof.
  destruct p as [ | b | z | s | b | l | items]; cbn [get_by_str missing]; try discriminate.
  unfold dict_get, PARSTR. cbn [find fst snd].
  destruct (String.eqb_spec "8N1" s) as [<- | _]; [intros _; eexists; reflexivity | ].
  destruct (String.eqb_spec "8O1" s) as [<- | _]; [intros _; eexists; reflexivity | ].
  destruct (String.eqb_spec "8E1" s) as [<- | _]; [intros _; eexists; reflexivity | ].
  cbn. discriminate.
Qed.

Lemma bind_cong {S A B} (c : M S A) (k1 k2 : A -> M S B) (s : S) :
  (forall a s', k1 a s' = k2 a s') -> bind c k1 s = bind c k2 s.
Proof. intros H. unfold bind. destruct (c s) as [[a | e | ] s']; auto. Qed.

Lemma start_parts (d : driver) :
  start d
  = try_except
      (check_parameters ;; bind_hardware)
      (fun E => when_debug (print (Failure "error on start UART" E)) ;; ret "NOK") d.
Proof.
  unfold start. rewrite !try_run.
  match goal with
  | |- match ?x with _ => _ end = match ?y with _ => _ end => assert (H : y = x)
  end.
  { unfold check_parameters. repeat (rewrite ?bind_assoc; apply bind_cong; intros).
    reflexivity. }
  rewrite H. reflexivity.
Qed.

(** Ends a case of [check_parameters] in which a conversion has failed. *)
Ltac check_fails :=
  eexists _, _; (split; [reflexivity | ]);
  split; [discriminate | ];
  split; [reflexivity | ]; split; [reflexivity | ];
  split; [split; [discriminate
                 | intros ((? & ?) & (? & ?) & ? & ? & (? & ?)); congruence]
         | discriminate].

(** The checks touch the configuration only, and fail exactly when one
    of their five conversions does; when they pass, the port, the parity
    and the air data rate are keys of their tables and the channel is at
    most 31. *)
Lemma check_parameters_effect (d : driver) :
  exists r d',
    check_parameters d = (r, d')
    /\ r <> OutOfFuel
    /\ (debug d', M0 d', M1 d', AUX d', serdev d') = (debug d, M0 d, M1 d, AUX d, serdev d)
    /\ (tx d', rx d', snapshot d') = (tx d, rx d, snapshot d)
    /\ (r = Ret tt <->
        (exists key, py_int (split_head "T" (model (config d))) = Ok key)
        /\ (exists baud, py_int_of (baudrate (config d)) = Ok baud)
        /\ hashable (parity (config d)) = true
        /\ hashable (datarate (config d)) = true
        /\ (exists ch, as_index (channel (config d)) = Ok ch))
    /\ (r = Ret tt ->
        address (config d') = address (config d)
        /\ frequency (config d') = frequency (config d)
        /\ (transmode (config d'), iomode (config d'), wutime (config d'), fec (config d'),
            txpower (config d'))
           = (transmode (config d), iomode (config d), wutime (config d), fec (config d),
              txpower (config d))
        /\ missing (dict_get PORT (port (config d'))) = false
        /\ missing (get_by_str PARSTR (parity (config d'))) = false
        /\ missing (get_by_str DATARATE (datarate (config d'))) = false
        /\ (exists ch, as_index (channel (config d')) = Ok ch /\ ch <= 31)
        /\ (forall ch, as_index (channel (config d)) = Ok ch -> ch <= 31 ->
            channel (config d') = channel (config d))).
Proof.
  unfold check_parameters, not_in. run.
  destruct (py_int (split_head "T" (model (config d)))) as [key | e] eqn:Hkey; run;
    [ | check_fails].
  destruct (missing (dict_getZ FREQ key)); run_config.
  all: destruct (missing (dict_get PORT (port (config d)))) eqn:Hport; run_config.
  all: destruct (py_int_of (baudrate (config d))) as [baud | e] eqn:Hbaud; run_config;
    [ | check_fails].
  all: destruct (missing (dict_getZ BAUDRATE baud)); run_config.
  all: destruct (hashable (parity (config d))) eqn:Hhp; run_config; [ | check_fails].
  all: destruct (missing (get_by_str PARSTR (parity (config d)))) eqn:Hpar; run_config.
  all: destruct (hashable (datarate (config d))) eqn:Hhd; run_config; [ | check_fails].
  all: destruct (missing (get_by_str DATARATE (datarate (config d)))) eqn:Hdr; run_config.
  all: destruct (as_index (channel (config d))) as [ch | e] eqn:Hch; run_config;
    [ | check_fails].
  all: destruct (Z.gtb_spec ch 31) as [Hgt | Hle]; run_config.
  all: eexists _, _; (split; [reflexivity | ]); run_config.
  all: split; [discriminate | ].
  all: split; [reflexivity | ]; split; [reflexivity | ].
  all: split; [split; [intros _; repeat split; try assumption; eexists; reflexivity
                      | reflexivity] | ].
  all: intros _; repeat split; try assumption; try reflexivity.
  all: try (eexists; split; [reflexivity | lia]).
  all: try (exists ch; split; [exact Hch | lia]).
  all: intros ch0 Hch0 Hle0; first [reflexivity | injection Hch0 as <-; lia].
Qed.

(** The second half of [start], after checks that have passed: it binds
    the UART and the pins and returns ["OK"], whatever [setConfig] has
    returned; [setConfig] has put the module in sleep mode and has written
    nothing. *)
Lemma bind_hardware_effect (d : driver) :
  missing (get_by_str PARSTR (parity (config d))) = false ->
  exists d',
    bind_hardware d = (Ret "OK", d')
    /\ config d' = config d /\ debug d' = debug d
    /\ (tx d', rx d', snapshot d') = (tx d, rx d, snapshot d)
    /\ (M0 d', M1 d', AUX d', serdev d') = (Some 1, Some 1, true, true).
Proof.
  intros Hpar. unfold bind_hardware. run.
  destruct (parity_letter _ Hpar) as (letter & Hletter). rewrite Hletter. run.
  destruct (debug d) eqn:Hd; repeat (progress (run; rewrite ?Hd)).
  all: match goal with |- context [setConfig "setConfigPwrDwnSave" ?x] =>
         destruct (setConfig_register_effect "setConfigPwrDwnSave" x (or_introl eq_refl))
           as (d' & Hset & Hcfg & Hsent & Hpins);
         rewrite Hset
       end.
  all: unfold nothing_sent, set_pins in *; run.
  all: destruct Hsent as (Hdbg & Hsnap & Htx & Hrx & Haux & Hser & _).
  all: injection Hpins as Hm0 Hm1 _.
  all: exists d'; split; [reflexivity | ].
  all: rewrite Hcfg, Hdbg, Hsnap, Htx, Hrx, Haux, Hser, Hm0, Hm1, ?Hd; repeat split.
Qed.

(** X14.  [start] on any driver state.  It returns ["OK"] or ["NOK"],
    and ["OK"] exactly when the model's text before its first ['T'] reads
    as a number, [int] accepts the baud rate, the parity and the air data
    rate can be hashed, and the channel is an integer.  Nothing is written
    to the module in either case: the result of the [setConfig] call it
    ends with is dropped, and that call fails.  On ["OK"] the UART and the
    three pins are bound, the module is left in sleep mode (M0 and M1
    high), the port, the parity and the air data rate are keys of their
    tables and the channel is at most 31 (a channel that was at most 31 is
    kept, a negative one too), while the address is not checked and the
    frequency is not computed again after the channel was cut to 31.  On
    ["NOK"] the bindings are as they were. *)
Theorem start_contract (d : driver) :
  exists r d',
    start d = (Ret r, d')
    /\ (r = "OK" \/ r = "NOK")
    /\ debug d' = debug d
    /\ (tx d', rx d', snapshot d') = (tx d, rx d, snapshot d)
    /\ (r = "OK" <->
        (exists key, py_int (split_head "T" (model (config d))) = Ok key)
        /\ (exists baud, py_int_of (baudrate (config d)) = Ok baud)
        /\ hashable (parity (config d)) = true
        /\ hashable (datarate (config d)) = true
        /\ (exists ch, as_index (channel (config d)) = Ok ch))
    /\ (r = "OK" -> (M0 d', M1 d', AUX d', serdev d') = (Some 1, Some 1, true, true))
    /\ (r = "NOK" -> (M0 d', M1 d', AUX d', serdev d') = (M0 d, M1 d, AUX d, serdev d))
    /\ (r = "OK" ->
        address (config d') = address (config d)
        /\ frequency (config d') = frequency (config d)
        /\ dict_get PORT (port (config d')) <> None
        /\ get_by_str PARSTR (parity (config d')) <> None
        /\ get_by_str DATARATE (datarate (config d')) <> None
        /\ (exists ch, as_index (channel (config d')) = Ok ch /\ ch <= 31)
        /\ (forall ch, as_index (channel (config d)) = Ok ch -> ch <= 31 ->
            channel (config d') = channel (config d))).
Proof.
  rewrite start_parts, try_run, bind_run.
  destruct (check_parameters_effect d)
    as (r1 & d1 & Hcheck & Hfuel & Hhw & Hlink & Hpass & Hcfg).
  rewrite Hcheck. injection Hhw as Hdbg H0 H1 Haux Hser. injection Hlink as Htx Hrx Hsnap.
  destruct r1 as [[] | e | ]; [ | | contradiction].
  - destruct (Hcfg eq_refl) as (Ha & Hf & _ & Hport & Hpar & Hdr & Hch & Hkeep).
    destruct (bind_hardware_effect d1 Hpar) as (d' & Hbind & Hc' & Hd' & Hl' & Hh').
    rewrite Hbind. injection Hl' as Htx' Hrx' Hsnap'.
    exists "OK", d'. split; [reflexivity | ]. split; [left; reflexivity | ].
    split; [congruence | ]. split; [f_equal; [f_equal | ]; congruence | ].
    split; [split; [intros _; apply Hpass; reflexivity | reflexivity] | ].
    split; [intros _; exact Hh' | ]. split; [discriminate | ].
    intros _. rewrite Hc'.
    split; [exact Ha | ]. split; [exact Hf | ].
    split; [intros H; rewrite H in Hport; discriminate | ].
    split; [intros H; rewrite H in Hpar; discriminate | ].
    split; [intros H; rewrite H in Hdr; discriminate | ].
    split; [exact Hch | exact Hkeep].
  - assert (Hno : ~ (Raise e = Ret tt :> outcome unit)) by discriminate.
    run. destruct (debug d1) eqn:Hd1; run.
    all: eexists _, _; (split; [reflexivity | ]); run.
    all: split; [right; reflexivity | ].
    all: split; [congruence | ].
    all: split; [f_equal; [f_equal | ]; congruence | ].
    all: split; [split; [discriminate | intros H; exfalso; apply Hno, Hpass; exact H] | ].
    all: split; [discriminate | ].
    all: split; [intros _; rewrite H0, H1, Haux, Hser; reflexivity | discriminate].
Qed.

(** ** Before [start] and after [stop] *)

Lemma tx_grows_not (l : list (option Z * option Z * list byte)) x : l <> (l ++ [x])%list.
Proof.
  intros H. apply (f_equal (@List.length _)) in H. rewrite length_app in H. cbn in H. lia.
Qed.

Lemma sendCommand_unbound (cmd : string) (d : driver) :
  serdev d = false ->
  exists d', sendCommand cmd d = (Ret (PStr "NOK"), d') /\ tx d' = tx d.
Proof.
  intros Hser.
  pose proof (sendCommand_same_hardware cmd d) as Hhw.
  destruct Hhw as (_ & _ & _ & _ & _ & Htx). specialize (Htx Hser).
  exists (snd (sendCommand cmd d)). split; [ | exact Htx]. clear Htx.
  unfold sendCommand. rewrite try_run, bind_run, setOperationMode_sleep. unfold set_pins.
  destruct (M0 d) as [m0 | ] eqn:E0.
  2: { run. destruct (debug d) eqn:Hd; run; reflexivity. }
  destruct (M1 d) as [m1 | ] eqn:E1.
  2: { run. destruct (debug d) eqn:Hd; run; reflexivity. }
  run. rewrite ?Hser. repeat (break_match; run; rewrite ?Hser).
  all: reflexivity.
Qed.

Lemma sendMessage_unbound dumps fuel a c payload k (d : driver) :
  (10 <= fuel)%nat -> serdev d = false ->
  exists d', sendMessage dumps fuel a c payload k d = (Ret "NOK", d') /\ tx d' = tx d.
Proof.
  intros Hfuel Hser.
  destruct (sendMessage_run dumps fuel a c payload k d Hfuel)
    as (d2 & r & d' & Hmode & Hsend & Hr & _ & _ & _ & Hok & _).
  pose proof (sendMessage_same_hardware dumps fuel a c payload k d) as Hhw.
  pose proof (setTransmissionMode_same_hardware (wanted_mode (config d) a c) d) as Hhw2.
  rewrite Hsend in Hhw. rewrite Hmode in Hhw2.
  destruct Hhw as (_ & _ & _ & _ & _ & Htx). destruct Hhw2 as (_ & _ & _ & _ & _ & Htx2).
  cbn [snd] in Htx, Htx2. specialize (Htx Hser). specialize (Htx2 Hser).
  exists d'. destruct Hr as [-> | ->]; [ | auto].
  destruct (Hok eq_refl) as (items & js & frame & _ & _ & Hw & _).
  rewrite Htx, Htx2 in Hw. exfalso. exact (tx_grows_not _ _ Hw).
Qed.

Lemma recvMessage_unbound loads a c k (d : driver) :
  serdev d = false ->
  exists d', recvMessage loads a c k d = (Ret (PStr "NOK"), d') /\ tx d' = tx d.
Proof.
  intros Hser.
  pose proof (recvMessage_same_hardware loads a c k d) as Hhw.
  destruct Hhw as (_ & _ & _ & _ & _ & Htx). specialize (Htx Hser).
  pose proof (setTransmissionMode_same_hardware (wanted_mode (config d) a c) d) as Hhw2.
  destruct (setTransmissionMode_effect (wanted_mode (config d) a c) d) as (d2 & Hmode & _).
  rewrite Hmode in Hhw2. destruct Hhw2 as (_ & Hser2 & _). cbn [snd] in Hser2.
  rewrite Hser in Hser2.
  exists (snd (recvMessage loads a c k d)). split; [ | exact Htx].
  rewrite recvMessage_parts, try_run, bind_run. unfold listen.
  rewrite bind_run. change (get d) with (Ret d, d). cbv beta iota.
  rewrite mode_choice. fold (wanted_mode (config d) a c).
  rewrite bind_run, Hmode, setOperationMode_normal. unfold set_pins, read_and_decode.
  destruct (M0 d2); [destruct (M1 d2) | ]; run; rewrite ?Hser2; run.
  all: destruct (debug d2); run; reflexivity.
Qed.

(** X16.  A driver that holds no UART, as the constructor leaves it, as
    a failed [start] leaves it and as [stop] leaves it, writes nothing on
    the serial link, whatever is called: [sendMessage], [setConfig],
    [getConfig] and [getVersion] return ["NOK"], [recvMessage] and
    [sendCommand] return the string ["NOK"], and [reset] returns ["OK"]. *)
Theorem unbound_driver_is_silent (d : driver) :
  serdev d = false ->
  (forall dumps fuel a c payload k, (10 <= fuel)%nat ->
     exists d', sendMessage dumps fuel a c payload k d = (Ret "NOK", d') /\ tx d' = tx d)
  /\ (forall loads a c k,
        exists d', recvMessage loads a c k d = (Ret (PStr "NOK"), d') /\ tx d' = tx d)
  /\ (forall cmd,
        exists d', sendCommand cmd d = (Ret (PStr "NOK"), d') /\ tx d' = tx d)
  /\ (forall cmd, exists d', setConfig cmd d = (Ret "NOK", d') /\ tx d' = tx d)
  /\ (exists d', getConfig d = (Ret "NOK", d') /\ tx d' = tx d)
  /\ (exists d', getVersion d = (Ret "NOK", d') /\ tx d' = tx d)
  /\ (exists d', reset d = (Ret "OK", d') /\ tx d' = tx d).
Proof.
  intros Hser.
  split; [ | split; [ | split; [ | split; [ | split; [ | split]]]]].
  - intros dumps fuel a c payload k Hfuel. apply sendMessage_unbound; assumption.
  - intros loads a c k. apply recvMessage_unbound; assumption.
  - intros cmd. apply sendCommand_unbound; assumption.
  - intros cmd. destruct (sendCommand_unbound cmd d Hser) as (d1 & Hrun & Htx).
    unfold setConfig. rewrite try_run, bind_run, Hrun. run.
    eexists. split; [reflexivity | exact Htx].
  - destruct (sendCommand_unbound "getConfig" d Hser) as (d1 & Hrun & Htx).
    unfold getConfig. rewrite try_run, bind_run, Hrun. run.
    eexists. split; [reflexivity | exact Htx].
  - destruct (sendCommand_unbound "getVersion" d Hser) as (d1 & Hrun & Htx).
    unfold getVersion. rewrite try_run, bind_run, Hrun. run.
    eexists. split; [reflexivity | exact Htx].
  - destruct (sendCommand_unbound "reset" d Hser) as (d1 & Hrun & Htx).
    unfold reset. rewrite try_run, bind_run, Hrun. run.
    eexists. split; [reflexivity | exact Htx].
Qed.

Lemma unbound_driver_is_silent_witness :
  exists d',
    sendMessage sample_dumps 10 3 4 sample_payload true fresh_driver = (Ret "NOK", d')
    /\ tx d' = [].
Proof.
  destruct (unbound_driver_is_silent fresh_driver) as (Hsend & _).
  - reflexivity.
  - apply (Hsend sample_dumps 10%nat 3 4 sample_payload true). lia.
Defined.

(** Unfolds a method run on an object. *)
Ltac run_object :=
  repeat (progress (unfold method in *; run; cbn [attributes serdev_deleted negb andb orb] in *)).

(** [stop] by cases on the attribute. *)
Lemma stop_effect (o : ebyteE32) :
  well_formed o ->
  exists r o',
    stop o = (Ret r, o')
    /\ well_formed o'
    /\ serdev (attributes o') = false
    /\ config (attributes o') = config (attributes o)
    /\ M0 (attributes o') = M0 (attributes o) /\ M1 (attributes o') = M1 (attributes o)
    /\ tx (attributes o') = tx (attributes o) /\ rx (attributes o') = rx (attributes o)
    /\ snapshot (attributes o') = snapshot (attributes o)
    /\ (r = "OK" <-> serdev_deleted o = false)
    /\ (r = "NOK" <-> serdev_deleted o = true)
    /\ serdev_deleted o' = (serdev_deleted o || serdev (attributes o))
    /\ (serdev (attributes o) = true ->
        r = "OK" /\ exists o'', stop o' = (Ret "NOK", o'')).
Proof.
  intros Hwf. unfold well_formed in *.
  destruct o as [d deleted]. cbn [attributes serdev_deleted] in *.
  unfold stop. rewrite !try_run. run_object.
  destruct deleted.
  - specialize (Hwf eq_refl). run_object.
    destruct (debug d) eqn:Hd; run_object; rewrite ?Hwf; run_object.
    all: eexists _, _; (split; [reflexivity | ]); run_object.
    all: rewrite ?Hwf; repeat split; auto; try discriminate; try congruence.
  - destruct (serdev d) eqn:Hser; run_object.
    + eexists _, _; (split; [reflexivity | ]); run_object.
      repeat split; auto; try discriminate.
      destruct (debug d); run_object; eexists; reflexivity.
    + eexists _, _; (split; [reflexivity | ]); run_object.
      repeat split; auto; try discriminate.
Qed.

(** X15.  [stop] on an object the class can reach.  It returns ["OK"]
    when the attribute [serdev] exists (holding a UART or [None]) and
    ["NOK"] when an earlier [stop] has deleted it: after a [stop] that
    released a UART, the next [stop] returns ["NOK"].  Afterwards no UART
    is bound; the configuration, the levels of the pins, the snapshot and
    the serial link are as they were, and [sendMessage] and [recvMessage]
    return ["NOK"] without writing. *)
Theorem stop_contract (o : ebyteE32) :
  well_formed o ->
  exists r o',
    stop o = (Ret r, o')
    /\ well_formed o'
    /\ serdev (attributes o') = false
    /\ config (attributes o') = config (attributes o)
    /\ M0 (attributes o') = M0 (attributes o) /\ M1 (attributes o') = M1 (attributes o)
    /\ tx (attributes o') = tx (attributes o) /\ rx (attributes o') = rx (attributes o)
    /\ snapshot (attributes o') = snapshot (attributes o)
    /\ (r = "OK" <-> serdev_deleted o = false)
    /\ (r = "NOK" <-> serdev_deleted o = true)
    /\ serdev_deleted o' = (serdev_deleted o || serdev (attributes o))
    /\ (serdev (attributes o) = true ->
        r = "OK" /\ exists o'', stop o' = (Ret "NOK", o''))
    /\ (forall dumps fuel a c payload k, (10 <= fuel)%nat ->
          exists o'',
            method (sendMessage dumps fuel a c payload k) o' = (Ret "NOK", o'')
            /\ tx (attributes o'') = tx (attributes o))
    /\ (forall loads a c k,
          exists o'',
            method (recvMessage loads a c k) o' = (Ret (PStr "NOK"), o'')
            /\ tx (attributes o'') = tx (attributes o)).
Proof.
  intros Hwf.
  destruct (stop_effect o Hwf)
    as (r & o' & Hrun & Hwf' & Hser & Hcfg & H0 & H1 & Htx & Hrx & Hsnap & Hok & Hnok & Hdel
        & Htwice).
  exists r, o'.
  repeat (split; [assumption | ]). split.
  - intros dumps fuel a c payload k Hfuel.
    destruct (sendMessage_unbound dumps fuel a c payload k (attributes o') Hfuel Hser)
      as (d' & Hsend & Htx').
    unfold method. rewrite Hsend. eexists. split; [reflexivity | ].
    cbn [attributes]. congruence.
  - intros loads a c k.
    destruct (recvMessage_unbound loads a c k (attributes o') Hser) as (d' & Hrecv & Htx').
    unfold method. rewrite Hrecv. eexists. split; [reflexivity | ].
    cbn [attributes]. congruence.
Qed.

Lemma stop_contract_witness :
  exists o' o'',
    stop (mkObject (sample_driver false []) false) = (Ret "OK", o')
    /\ stop o' = (Ret "NOK", o'').
Proof.
  destruct (stop_contract (mkObject (sample_driver false []) false))
    as (r & o' & Hrun & _ & _ & _ & _ & _ & _ & _ & _ & _ & _ & _ & Htwice & _).
  - intros H. discriminate H.
  - destruct (Htwice eq_refl) as (-> & o'' & Hagain).
    exists o', o''. split; assumption.
Defined.

(** ** Nothing raised to the caller *)

Lemma try_returns {S A} (c : M S A) (h : exn -> M S A) :
  terminates c -> (forall e, returns (h e)) -> returns (try_except c h).
Proof.
  intros Hc Hh s. unfold try_except. specialize (Hc s).
  destruct (c s) as [[a | e | ] s']; cbn [fst] in *.
  - eexists. reflexivity.
  - apply Hh.
  - contradiction.
Qed.

Lemma handler_returns {A} (context : string) (e : exn) (a : A) :
  returns (when_debug (print (Failure context e)) ;; ret a).
Proof. intros d. run. destruct (debug d); run; eexists; reflexivity. Qed.

Lemma terminates_M0_value v : terminates (M0_value v).
Proof. intros d. unfold M0_value. destruct (M0 d); discriminate. Qed.

Lemma terminates_M1_value v : terminates (M1_value v).
Proof. intros d. unfold M1_value. destruct (M1 d); discriminate. Qed.

Lemma terminates_serdev_write l : terminates (serdev_write l).
Proof.
  intros d. unfold serdev_write.
  destruct (serdev d); [destruct (py_bytes l) | ]; discriminate.
Qed.

Lemma terminates_serdev_read : terminates serdev_read.
Proof.
  intros d. unfold serdev_read.
  destruct (serdev d); [destruct (rx d) as [ | [b | ] rest] | ]; discriminate.
Qed.

Lemma terminates_on_config {A} (c : M Config A) : terminates c -> terminates (on_config c).
Proof.
  intros H d. unfold on_config. specialize (H (config d)).
  destruct (c (config d)) as [r cfg]. exact H.
Qed.

Lemma terminates_print l : terminates (print l).
Proof. intros d. discriminate. Qed.

Lemma terminates_sleep_ms n : terminates (sleep_ms n).
Proof. intros d. discriminate. Qed.

Lemma terminates_saveConfigToJson : terminates saveConfigToJson.
Proof. intros d. discriminate. Qed.

Lemma terminates_when_debug c : terminates c -> terminates (when_debug c).
Proof.
  intros H d. unfold when_debug, bind, get, when.
  destruct (debug d); [apply H | discriminate].
Qed.

Lemma terminates_waitForDeviceIdle fuel : (10 <= fuel)%nat -> terminates (waitForDeviceIdle fuel).
Proof.
  intros Hf d. unfold waitForDeviceIdle.
  destruct (wait_loop_bound fuel 0 d) as (r & d' & Hrun & Hr & _); [lia | simpl; lia | ].
  rewrite Hrun. exact Hr.
Qed.

Create HintDb ends discriminated.
#[local] Hint Resolve terminates_M0_value terminates_M1_value terminates_serdev_write
  terminates_serdev_read terminates_print terminates_sleep_ms terminates_saveConfigToJson
  terminates_waitForDeviceIdle decodeConfig_terminates showConfig_terminates : ends.

(** Decomposes a goal [terminates c] along the syntax of [c]. *)
Ltac ends_steps :=
  repeat first
    [ match goal with
      | |- terminates (bind _ _) => apply terminates_bind
      | |- terminates (try_except _ _) => apply terminates_try
      | |- terminates (ret _) => apply terminates_ret
      | |- terminates (lift _) => apply terminates_lift
      | |- terminates get => apply terminates_get
      | |- terminates (modify _) => apply terminates_modify
      | |- terminates (when _ _) => apply terminates_when
      | |- terminates (when_debug _) => apply terminates_when_debug
      | |- terminates (on_config _) => apply terminates_on_config
      | |- terminates (if _ then _ else _) => apply terminates_if
      | |- terminates (match ?x with _ => _ end) => destruct x
      | |- forall _, _ => intro
      end
    | solve [auto with ends] ].

Lemma terminates_setOperationMode mode : terminates (setOperationMode mode).
Proof. unfold setOperationMode. ends_steps. Qed.
#[local] Hint Resolve terminates_setOperationMode : ends.

Lemma terminates_sendCommand cmd : terminates (sendCommand cmd).
Proof. unfold sendCommand. ends_steps. Qed.
#[local] Hint Resolve terminates_sendCommand : ends.

Lemma terminates_setConfig cmd : terminates (setConfig cmd).
Proof. unfold setConfig. ends_steps. Qed.
#[local] Hint Resolve terminates_setConfig : ends.

Lemma terminates_setTransmissionMode mode : terminates (setTransmissionMode mode).
Proof. unfold setTransmissionMode. ends_steps. Qed.
#[local] Hint Resolve terminates_setTransmissionMode : ends.

(** X17.  No method a caller uses lets an exception out: [start],
    [sendMessage], [recvMessage], [sendCommand], [setConfig], [getConfig],
    [getVersion], [reset] and [stop] end with a value in every state of
    the driver, the hardware and the serial link, and for every behaviour
    of the JSON library.  (The constructor is not among them; X13.) *)
Theorem public_methods_never_raise :
  returns start
  /\ (forall dumps fuel a c payload k,
        (10 <= fuel)%nat -> returns (sendMessage dumps fuel a c payload k))
  /\ (forall loads a c k, returns (recvMessage loads a c k))
  /\ (forall cmd, returns (sendCommand cmd))
  /\ (forall cmd, returns (setConfig cmd))
  /\ returns getConfig /\ returns getVersion /\ returns reset /\ returns stop.
Proof.
  split; [ | split; [ | split; [ | split; [ | split; [ | split; [ | split; [ | split]]]]]]].
  - unfold start. apply try_returns; [ | intros e; apply handler_returns]. ends_steps.
  - intros dumps fuel a c payload k Hf. unfold sendMessage.
    apply try_returns; [ | intros e; apply handler_returns]. ends_steps.
  - intros loads a c k. unfold recvMessage.
    apply try_returns; [ | intros e; apply handler_returns]. ends_steps.
  - intros cmd. unfold sendCommand.
    apply try_returns; [ | intros e; apply handler_returns]. ends_steps.
  - intros cmd. unfold setConfig.
    apply try_returns; [ | intros e; apply handler_returns]. ends_steps.
  - unfold getConfig. apply try_returns; [ | intros e; apply handler_returns]. ends_steps.
  - unfold getVersion. apply try_returns; [ | intros e; apply handler_returns]. ends_steps.
  - unfold reset. apply try_returns; [ | intros e; apply handler_returns]. ends_steps.
  - unfold stop. apply try_returns.
    + ends_steps. intros o. discriminate.
    + intros e o. unfold method. run. destruct (debug (attributes o)); run; eexists; reflexivity.
Qed.

(** ** What [recvMessage] returns, and what [sendMessage] accepts *)

Lemma recvMessage_after_listen loads a c useChecksum d d1 :
  listen a c d = (Ret tt, d1) -> serdev d1 = true ->
  exists d',
    recvMessage loads a c useChecksum d
    = (Ret (received loads useChecksum (hd None (rx d1))), d')
    /\ rx d' = tl (rx d1) /\ tx d' = tx d1 /\ config d' = config d1
    /\ snapshot d' = snapshot d1.
Proof.
  intros Hlisten Hser.
  rewrite recvMessage_parts, try_run, bind_run, Hlisten.
  unfold read_and_decode, received, parsed, corrupt_message. run. rewrite Hser.
  destruct (rx d1) as [ | [B | ] rest] eqn:Hrx; cbn [hd tl]; run.
  1, 3: destruct (debug d1); run; eexists; repeat split; auto.
  cbn [chars_of].
  destruct useChecksum; destruct (debug d1) eqn:Hd; run; rewrite ?calcChecksum_parse; run.
  all: try (destruct (checksum_value (map Byte.to_N B) =? 0); run).
  all: try (destruct (loads _); run; rewrite ?Hd; run).
  all: eexists; repeat split; auto.
Qed.

(** X19.  The result of [recvMessage] is a function of the one read it
    makes, once the modes are set: the empty-message dictionary when
    nothing has arrived; without checksum, what the parser makes of all
    the bytes; with checksum, the corrupt-message dictionary when the
    bytes do not add up to 0 modulo 256 and what the parser makes of the
    bytes without the last one when they do; and the string ["NOK"]
    whenever the parser raises.  The call consumes that one read and
    writes nothing. *)
Theorem recvMessage_result loads a c useChecksum d d1 :
  listen a c d = (Ret tt, d1) -> serdev d1 = true ->
  fst (recvMessage loads a c useChecksum d) = Ret (received loads useChecksum (hd None (rx d1)))
  /\ (hd None (rx d1) = None ->
      fst (recvMessage loads a c useChecksum d) = Ret (PDict [("msg", PNone)]))
  /\ (forall B, hd None (rx d1) = Some B -> useChecksum = false ->
      fst (recvMessage loads a c useChecksum d)
      = match loads (map Byte.to_N B) with
        | Ok v => Ret v
        | Err _ => Ret (PStr "NOK")
        end)
  /\ rx (snd (recvMessage loads a c useChecksum d)) = tl (rx d1)
  /\ tx (snd (recvMessage loads a c useChecksum d)) = tx d1.
Proof.
  intros Hlisten Hser.
  destruct (recvMessage_after_listen loads a c useChecksum d d1 Hlisten Hser)
    as (d' & Hrun & Hrx & Htx & _).
  rewrite Hrun. cbn [fst snd]. repeat split; auto.
  - intros ->. reflexivity.
  - intros B -> ->. cbn [received]. unfold parsed. destruct (loads _); reflexivity.
Qed.

Lemma recvMessage_result_witness :
  fst (recvMessage sample_loads 0 6 false (sample_driver false [Some [x7b; x7d]]))
  = Ret (PDict []).
Proof.
  assert (Hlisten : listen 0 6 (sample_driver false [Some [x7b; x7d]])
                    = (Ret tt, snd (listen 0 6 (sample_driver false [Some [x7b; x7d]]))))
    by (vm_compute; reflexivity).
  destruct (recvMessage_result sample_loads 0 6 false _ _ Hlisten eq_refl) as (H & _).
  exact H.
Defined.

Lemma frame_values_as_list (mode a c : Z) (js : text) (k : bool) :
  frame_values mode a c js k
  = ((if mode =? 1 then [a / 256; a mod 256; c] else [])
       ++ map Z.of_N js ++ (if k then [checksum_value js] else []))%list.
Proof. reflexivity. Qed.

(** With the AUX pin and the UART bound, a dictionary that serializes
    to a frame of bytes is written. *)
Lemma frame_and_write_accepts dumps fuel a c items js useChecksum d :
  (10 <= fuel)%nat -> AUX d = true -> serdev d = true ->
  dumps (PDict items) = Ok js ->
  Forall (fun z => 0 <= z < 256) (frame_values (transmode (config d)) a c js useChecksum) ->
  fst (frame_and_write dumps fuel a c (PDict items) useChecksum d) = Ret "OK".
Proof.
  intros Hfuel Haux Hser Hjs Hrange. unfold frame_and_write.
  rewrite bind_run. run. rewrite Hjs. run.
  rewrite frame_as_values.
  set (body := ((if transmode (config d) =? 1 then [a / 256; a mod 256; c] else [])
                  ++ map Z.of_N js)%list) in *.
  assert (Hmsg :
    (if useChecksum
     then (cs <- lift (py_int16 (calcChecksum js)) ;; ret (map PInt body ++ [PInt cs])%list)
     else ret (map PInt body)) d
    = (Ret (map PInt (frame_values (transmode (config d)) a c js useChecksum)), d)).
  { unfold frame_values. fold body.
    destruct useChecksum; run.
    - rewrite calcChecksum_parse. rewrite app_assoc, map_app. reflexivity.
    - rewrite app_nil_r. reflexivity. }
  run. rewrite Hmsg. run.
  destruct (py_bytes_in_range _ Hrange) as (frame & Hframe).
  destruct (debug d) eqn:Hdbg; run.
  all: match goal with |- context [waitForDeviceIdle ?f ?x] =>
         destruct (wait_loop_bound f 0 x) as (r & d2 & Hwait & _ & Hret & _ & _ & Hlink & _);
           [lia | change (Z.to_nat (10 - 0)) with 10%nat; lia | ];
         fold (waitForDeviceIdle f) in Hwait; rewrite Hwait;
         destruct Hlink as (_ & _ & _ & _ & _ & Ls & _)
       end; run.
  all: rewrite (Hret Haux); run; rewrite Ls; run; rewrite ?Hser, Hframe; reflexivity.
Qed.

(** X18.  When [sendMessage] says ["OK"].  On bound hardware with the
    debug flag off, [sendMessage] returns ["OK"] exactly when the payload
    is a dictionary, the JSON library serializes it, every character of
    the text has a code below 256, and, for a destination other than the
    driver's own address and channel, the address is a 16-bit number and
    the channel a byte.  Whether the module has become idle plays no
    part. *)
Theorem sendMessage_accepts dumps fuel a c payload useChecksum d :
  (10 <= fuel)%nat ->
  M0 d <> None -> M1 d <> None -> AUX d = true -> serdev d = true -> debug d = false ->
  exists r d',
    sendMessage dumps fuel a c payload useChecksum d = (Ret r, d')
    /\ (r = "OK" <->
        exists items js,
          payload = PDict items /\ dumps payload = Ok js
          /\ Forall (fun ch => (ch < 256)%N) js
          /\ (wanted_mode (config d) a c = 1 -> 0 <= a < 65536 /\ 0 <= c < 256)).
Proof.
  intros Hfuel H0 H1 Haux Hser Hoff.
  destruct (sendMessage_run dumps fuel a c payload useChecksum d Hfuel)
    as (d2 & r & d' & Hmode & Hsend & Hr & _ & _ & _ & Hok & _ & _).
  destruct (setTransmissionMode_effect (wanted_mode (config d) a c) d)
    as (d2' & Hmode' & _ & _ & _ & Hcfg).
  rewrite Hmode in Hmode'. injection Hmode' as <-. specialize (Hcfg Hoff).
  assert (Hm : transmode (config d2) = wanted_mode (config d) a c) by (rewrite Hcfg; reflexivity).
  pose proof (setTransmissionMode_same_hardware (wanted_mode (config d) a c) d) as Hhw.
  rewrite Hmode in Hhw. destruct Hhw as (Haux2 & Hser2 & Hm0 & Hm1 & _). cbn [snd] in *.
  exists r, d'. split; [exact Hsend | ]. split.
  - intros ->. destruct (Hok eq_refl) as (items & js & frame & Hp & Hjs & _ & Hvals).
    exists items, js. split; [exact Hp | ]. split; [exact Hjs | ].
    rewrite Hm, frame_values_as_list in Hvals.
    assert (Hall : Forall (fun z => 0 <= z < 256) (map byte_val frame)).
    { apply Forall_forall. intros z Hz. apply in_map_iff in Hz. destruct Hz as (b & <- & _).
      apply byte_val_range. }
    rewrite Hvals in Hall. apply Forall_app in Hall. destruct Hall as (Hpre & Hall).
    apply Forall_app in Hall. destruct Hall as (Hchars & _). split.
    + apply Forall_forall. intros ch Hch. rewrite Forall_forall in Hchars.
      specialize (Hchars (Z.of_N ch) (in_map _ _ _ Hch)). lia.
    + intros Hw. rewrite Hw in Hpre. cbn [Z.eqb Pos.eqb] in Hpre.
      inversion Hpre as [ | ? ? Hhi Hrest]; subst.
      inversion Hrest as [ | ? ? Hlo Hrest']; subst.
      inversion Hrest' as [ | ? ? Hc _]; subst.
      split; [apply high_byte_range; exact Hhi | exact Hc].
  - intros (items & js & -> & Hjs & Hchars & Hdest).
    revert Hsend. rewrite sendMessage_parts, try_run, bind_run.
    change (get d) with (Ret d, d). cbv beta iota.
    rewrite mode_choice. fold (wanted_mode (config d) a c).
    rewrite bind_run, Hmode, bind_run, setOperationMode_wakeup. unfold set_pins.
    destruct (M0 d2) as [m0 | ] eqn:E0; [ | destruct (M0 d); [discriminate Hm0 | contradiction]].
    destruct (M1 d2) as [m1 | ] eqn:E1; [ | destruct (M1 d); [discriminate Hm1 | contradiction]].
    match goal with |- context [frame_and_write _ _ _ _ _ _ ?x] => set (d3 := x) end.
    assert (Hrun : fst (frame_and_write dumps fuel a c (PDict items) useChecksum d3) = Ret "OK").
    { apply frame_and_write_accepts with (js := js); auto.
      - unfold d3; fields. congruence.
      - unfold d3; fields. congruence.
      - unfold d3; fields. rewrite Hm, frame_values_as_list.
        apply Forall_app. split; [ | apply Forall_app; split].
        + destruct (wanted_mode_cases (config d) a c) as [(-> & _) | (Hw & _)];
            [apply Forall_nil | ].
          rewrite Hw. cbn [Z.eqb Pos.eqb]. destruct (Hdest Hw) as (Ha & Hc).
          apply high_byte_range in Ha.
          pose proof (Z.mod_pos_bound a 256 ltac:(lia)).
          repeat (apply Forall_cons; [lia | ]). apply Forall_nil.
        + apply Forall_forall. intros z Hz. apply in_map_iff in Hz.
          destruct Hz as (ch & <- & Hin). rewrite Forall_forall in Hchars.
          specialize (Hchars ch Hin). lia.
        + destruct useChecksum; [ | apply Forall_nil].
          apply Forall_cons; [apply checksum_value_range | apply Forall_nil]. }
    destruct (frame_and_write dumps fuel a c (PDict items) useChecksum d3) as [o d4].
    cbn [fst] in Hrun. subst o. run. intros Heq. injection Heq as <- _. reflexivity.
Qed.

Lemma sendMessage_accepts_witness :
  exists d', sendMessage sample_dumps 10 3 4 sample_payload true sensor_node = (Ret "OK", d').
Proof.
  destruct (sendMessage_accepts sample_dumps 10 3 4 sample_payload true sensor_node)
    as (r & d' & Hrun & Hok).
  - lia.
  - discriminate.
  - discriminate.
  - reflexivity.
  - reflexivity.
  - reflexivity.
  - exists d'. rewrite Hrun. f_equal. f_equal. apply Hok.
    eexists _, _. split; [reflexivity | ]. split; [vm_compute; reflexivity | ].
    split; [ | intros _; lia].
    repeat (apply Forall_cons; [reflexivity | ]). apply Forall_nil.
Defined.

Lemma checksum_closes (js : text) :
  checksum_value (js ++ [Z.to_N (checksum_value js)])%list = 0.
Proof.
  apply checksum_value_zero. rewrite ord_sum_app. cbn [ord_sum fold_right].
  pose proof (checksum_value_range js) as Hr. rewrite Z2N.id by lia. rewrite Z.add_0_r.
  unfold checksum_value. rewrite land_255.
  rewrite Z.add_mod_idemp_r by lia.
  rewrite <- Z.add_mod_idemp_l by lia.
  rewrite Z.add_opp_diag_r. reflexivity.
Qed.

Lemma of_N_map_inj (p q : list N) : map Z.of_N p = map Z.of_N q -> p = q.
Proof.
  revert q. induction p as [ | x p IH]; intros [ | y q] H; cbn [map] in H; try discriminate.
  - reflexivity.
  - injection H as Hx Hp. f_equal; [lia | apply IH; exact Hp].
Qed.

Lemma frame_text (B : list byte) (js : text) :
  map byte_val B = (map Z.of_N js ++ [checksum_value js])%list ->
  map Byte.to_N B = (js ++ [Z.to_N (checksum_value js)])%list.
Proof.
  intros H. apply of_N_map_inj. rewrite map_map, map_app. cbn [map].
  pose proof (checksum_value_range js). rewrite Z2N.id by lia. exact H.
Qed.

(** X20.  From one node to another.  If [sendMessage] with a checksum
    returned ["OK"] with [frame] as its last write, and the receiving
    driver's read returns that frame as the module delivers it (without
    the three bytes of address and channel when the sender was in fixed
    mode), then [recvMessage] with a checksum does not report corruption:
    it returns what the parser makes of the very text the serializer
    produced, so the dictionary that was sent whenever [ujson.loads]
    inverts [ujson.dumps]. *)
Theorem send_then_receive dumps loads fuel a c items ds ds' before w frame a' c' dr dr1 rest :
  (10 <= fuel)%nat ->
  sendMessage dumps fuel a c (PDict items) true ds = (Ret "OK", ds') ->
  tx ds' = (before ++ [(w, frame)])%list ->
  listen a' c' dr = (Ret tt, dr1) -> serdev dr1 = true ->
  rx dr1 = Some (if transmode (config ds') =? 1 then skipn 3 frame else frame) :: rest ->
  exists js,
    dumps (PDict items) = Ok js
    /\ fst (recvMessage loads a' c' true dr)
       = match loads js with
         | Ok v => Ret v
         | Err _ => Ret (PStr "NOK")
         end.
Proof.
  intros Hfuel Hsend Htx Hlisten Hser Hrx.
  destruct (sendMessage_run dumps fuel a c (PDict items) true ds Hfuel)
    as (d2 & r & d' & _ & Hsend' & _ & Hcfg & _ & _ & Hok & _ & _).
  rewrite Hsend in Hsend'. injection Hsend' as <- <-.
  destruct (Hok eq_refl) as (items' & js & frame' & _ & Hjs & Hw & Hvals).
  rewrite Htx in Hw. apply app_inj_tail in Hw. destruct Hw as (_ & Hw).
  injection Hw as _ <-. rewrite <- Hcfg in Hvals.
  exists js. split; [exact Hjs | ].
  destruct (recvMessage_after_listen loads a' c' true dr dr1 Hlisten Hser) as (d' & Hrun & _).
  rewrite Hrun, Hrx. cbn [fst hd received].
  set (B := if transmode (config ds') =? 1 then skipn 3 frame else frame).
  assert (HB : map byte_val B = (map Z.of_N js ++ [checksum_value js])%list).
  { unfold B. rewrite frame_values_as_list in Hvals.
    destruct (transmode (config ds') =? 1).
    - rewrite <- skipn_map, Hvals. reflexivity.
    - exact Hvals. }
  rewrite (frame_text B js HB), checksum_closes. cbn [Z.eqb].
  rewrite removelast_last. unfold parsed. destruct (loads js); reflexivity.
Qed.

(** The scenario of the examples: the sensor node (1, 2) sends to
    (3, 4); the monitor (0xFFFF, 4), listening to (1, 2), gets the
    dictionary that was sent. *)
Lemma send_then_receive_witness :
  fst (recvMessage sensor_loads 1 2 true (monitor_node [Some (skipn 3 sensor_frame)]))
  = Ret sample_payload.
Proof.
  assert (Hsend : sendMessage sample_dumps 10 3 4 (PDict sample_items) true sensor_node
                  = (Ret "OK", snd (sendMessage sample_dumps 10 3 4 (PDict sample_items) true
                                      sensor_node)))
    by (vm_compute; reflexivity).
  assert (Htx : tx (snd (sendMessage sample_dumps 10 3 4 (PDict sample_items) true sensor_node))
                = ([] ++ [((Some 1, Some 0), sensor_frame)])%list)
    by (vm_compute; reflexivity).
  assert (Hlisten : listen 1 2 (monitor_node [Some (skipn 3 sensor_frame)])
                    = (Ret tt, snd (listen 1 2 (monitor_node [Some (skipn 3 sensor_frame)]))))
    by (vm_compute; reflexivity).
  destruct (send_then_receive sample_dumps sensor_loads 10 3 4 sample_items _ _ _ _ _ 1 2 _ _ []
              (le_n 10) Hsend Htx Hlisten eq_refl eq_refl)
    as (js & Hjs & Hrecv).
  rewrite Hrecv. vm_compute in Hjs. injection Hjs as <-. vm_compute. reflexivity.
Defined.

(** ** The monitor's loop *)

(** X21.  One turn of the monitor's loop, once the modes are set.  It
    skips the turn (the test is false) when nothing has arrived and when
    the checksum is wrong; it takes the message as sensor data exactly when
    the parsed value is a dictionary with the key ['node']; and it raises
    [AttributeError], outside any [try], when [recvMessage] returns
    something that is not a dictionary: the string ["NOK"] for a text the
    parser refuses, or a parsed value of another type.  It raises in the
    same way on a driver that holds no UART, which is what the script has
    after a [start] that failed, since it does not look at the result of
    [start]. *)
Theorem monitor_poll_outcome loads d d1 :
  listen 0x0001 0x02 d = (Ret tt, d1) -> serdev d1 = true ->
  fst (monitor_poll loads d)
  = match received loads true (hd None (rx d1)) with
    | PDict items => Ret (existsb (String.eqb "node") (map fst items))
    | _ => Raise AttributeError
    end
  /\ (hd None (rx d1) = None -> fst (monitor_poll loads d) = Ret false)
  /\ (forall B, hd None (rx d1) = Some B -> checksum_value (map Byte.to_N B) <> 0 ->
      fst (monitor_poll loads d) = Ret false)
  /\ (forall B e, hd None (rx d1) = Some B -> checksum_value (map Byte.to_N B) = 0 ->
      loads (removelast (map Byte.to_N B)) = Err e ->
      fst (monitor_poll loads d) = Raise AttributeError)
  /\ (forall B v, hd None (rx d1) = Some B -> checksum_value (map Byte.to_N B) = 0 ->
      loads (removelast (map Byte.to_N B)) = Ok v ->
      fst (monitor_poll loads d)
      = match v with
        | PDict items => Ret (existsb (String.eqb "node") (map fst items))
        | _ => Raise AttributeError
        end)
  /\ (forall d0 : driver, serdev d0 = false -> fst (monitor_poll loads d0) = Raise AttributeError).
Proof.
  intros Hlisten Hser.
  assert (Hmain : fst (monitor_poll loads d)
                  = match received loads true (hd None (rx d1)) with
                    | PDict items => Ret (existsb (String.eqb "node") (map fst items))
                    | _ => Raise AttributeError
                    end).
  { unfold monitor_poll. rewrite bind_run.
    destruct (recvMessage_after_listen loads 1 2 true d d1 Hlisten Hser) as (d' & Hrun & _).
    rewrite Hrun. destruct (received loads true (hd None (rx d1))); reflexivity. }
  split; [exact Hmain | ]. rewrite Hmain.
  split; [intros ->; reflexivity | ].
  split.
  { intros B -> Hcs. cbn [received]. apply Z.eqb_neq in Hcs. rewrite Hcs. reflexivity. }
  split.
  { intros B e -> Hcs He. cbn [received]. rewrite Hcs. cbn [Z.eqb]. unfold parsed.
    rewrite He. reflexivity. }
  split.
  { intros B v -> Hcs Hv. cbn [received]. rewrite Hcs. cbn [Z.eqb]. unfold parsed.
    rewrite Hv. reflexivity. }
  intros d0 H0. unfold monitor_poll. rewrite bind_run.
  destruct (recvMessage_unbound loads 1 2 true d0 H0) as (d' & Hrun & _).
  rewrite Hrun. reflexivity.
Qed.

Lemma monitor_poll_outcome_witness :
  fst (monitor_poll sensor_loads (monitor_node [Some (skipn 3 sensor_frame)])) = Ret true
  /\ fst (monitor_poll sensor_loads (monitor_node [Some [x30; xd0]])) = Raise AttributeError.
Proof.
  assert (H1 : listen 1 2 (monitor_node [Some (skipn 3 sensor_frame)])
               = (Ret tt, snd (listen 1 2 (monitor_node [Some (skipn 3 sensor_frame)]))))
    by (vm_compute; reflexivity).
  assert (H2 : listen 1 2 (monitor_node [Some [x30; xd0]])
               = (Ret tt, snd (listen 1 2 (monitor_node [Some [x30; xd0]]))))
    by (vm_compute; reflexivity).
  destruct (monitor_poll_outcome sensor_loads _ _ H1 eq_refl) as (Ha & _).
  destruct (monitor_poll_outcome sensor_loads _ _ H2 eq_refl) as (Hb & _).
  split; [rewrite Ha | rewrite Hb]; vm_compute; reflexivity.
Defined.
